(** * DataGuardian: tracker classification, summary synthesis, scoring and
    the analysis orchestrator, embedded from the JavaScript sources.

    Strings are sequences of code units ([string], one [ascii] per code
    unit, which covers the Latin-1 range: host names, the keyword tables
    and the vendor patterns are all ASCII).  Numbers that the code only
    ever uses as integers (scores, lengths, millisecond time stamps) are
    [Z]. *)

From Stdlib Require Import ZArith List Ascii String Bool Lia.
From stdpp Require Import base gmap strings sorting pretty.

Local Open Scope Z_scope.

(* ===================================================================== *)
(** * JavaScript string and array primitives used by the sources         *)
(* ===================================================================== *)

Module Js.

(** [s.startsWith(p)] *)
Definition startsWith (s p : string) : bool := String.prefix p s.

(** [s.includes(t)]: [t] occurs somewhere in [s]. *)
Fixpoint includes (s t : string) : bool :=
  if String.prefix t s then true
  else match s with
       | EmptyString => false
       | String _ s' => includes s' t
       end.

(** [re.test(s)] for the patterns of the rule tables: every pattern of
    [classifyDomain] is an alternation of literals (an escaped dot is a
    literal dot), so a pattern is kept as the list of its literals. *)
Definition pattern := list string.

Definition test (re : pattern) (s : string) : bool :=
  existsb (includes s) re.

(** [c.toLowerCase()] on one code unit of the Latin-1 range: A-Z, and
    the accented capitals U+00C0..U+00DE except the multiplication sign. *)
Definition lower_char (c : ascii) : ascii :=
  let n := nat_of_ascii c in
  if ((65 <=? n)%nat && (n <=? 90)%nat)
     || ((192 <=? n)%nat && (n <=? 222)%nat && negb (n =? 215)%nat)
  then ascii_of_nat (n + 32) else c.

Fixpoint toLowerCase (s : string) : string :=
  match s with
  | EmptyString => EmptyString
  | String c s' => String (lower_char c) (toLowerCase s')
  end.

(** [arr.join(sep)] on an array of strings. *)
Fixpoint join (sep : string) (l : list string) : string :=
  match l with
  | [] => ""
  | [x] => x
  | x :: tl => x +:+ sep +:+ join sep tl
  end.

(** [arr.slice(0, n)] *)
Definition slice0 {A} (n : nat) (l : list A) : list A := firstn n l.

(** [arr.sort()] on an array of strings: ascending order of code units.
    The order is total and antisymmetric, so the sorted permutation is
    unique and the engine's algorithm does not matter. *)
Definition sort (l : list string) : list string := merge_sort String.le l.

(** [arr.length] as a JavaScript number. *)
Definition len {A} (l : list A) : Z := Z.of_nat (length l).

End Js.

(* ===================================================================== *)
(** * backend/services/geminiService.js, part 1: the domain classifier   *)
(* ===================================================================== *)

Module Classifier.

Record classification := {
  name : string;
  category : string;
  company : string
}.

Record rule := {
  re : Js.pattern;
  r_name : string;
  r_category : string;
  r_company : string
}.

Definition mk (p : Js.pattern) (n c co : string) : rule :=
  {| re := p; r_name := n; r_category := c; r_company := co |}.

Definition rules : list rule :=
  [ mk ["doubleclick"; "googlesyndication"; "googleadservices";
        "ads.google"; "adservice.google"]
       "Google Ads" "Advertising" "Google";
    mk ["googletagmanager"; "gtm"] "Google Tag Manager" "Tag Manager" "Google";
    mk ["google-analytics"; "analytics.google"]
       "Google Analytics" "Analytics" "Google";
    mk ["gstatic"; "googleapis"] "Google Static/Services" "CDN/Utility" "Google";
    mk [".google."] "Google Services" "CDN/Utility" "Google";
    mk ["facebook"; "fbcdn"; "fbevents"; "connect.facebook.net"]
       "Meta Pixel" "Advertising" "Meta";
    mk ["instagram.com"] "Instagram" "Social" "Meta";
    mk ["linkedin"; "licdn"; "bat.bing.com"; "bingads"]
       "Microsoft Ads/LinkedIn" "Advertising" "Microsoft";
    mk ["twitter"; "tiktok"; "snapchat"; "pinterest"]
       "Social Network" "Social" "Various";
    mk ["adnxs"; "appnexus"] "AppNexus (Adnxs)" "Advertising" "Microsoft (Xandr)";
    mk ["rubiconproject"] "Rubicon Project (Magnite)" "Advertising" "Magnite";
    mk ["pubmatic"] "PubMatic" "Advertising" "PubMatic";
    mk ["criteo"] "Criteo" "Advertising" "Criteo";
    mk ["taboola"] "Taboola" "Advertising" "Taboola";
    mk ["outbrain"] "Outbrain" "Advertising" "Outbrain";
    mk ["openx"] "OpenX" "Advertising" "OpenX";
    mk ["adroll"] "AdRoll" "Advertising" "NextRoll";
    mk ["mixpanel"] "Mixpanel" "Analytics" "Mixpanel";
    mk ["segment.com"] "Segment" "Analytics" "Twilio Segment";
    mk ["amplitude"] "Amplitude" "Analytics" "Amplitude";
    mk ["hotjar"] "Hotjar" "Analytics" "Hotjar";
    mk ["fullstory"] "FullStory" "Analytics" "FullStory";
    mk ["logrocket"] "LogRocket" "Analytics" "LogRocket";
    mk ["optimizely"] "Optimizely" "Analytics" "Optimizely";
    mk ["mouseflow"] "Mouseflow" "Analytics" "Mouseflow";
    mk ["chartbeat"] "Chartbeat" "Analytics" "Chartbeat";
    mk ["clicktale"] "Clicktale" "Analytics" "Clicktale";
    mk ["mathtag"] "MediaMath (mathtag)" "Advertising" "MediaMath";
    mk ["doubleverify"] "DoubleVerify" "Advertising" "DoubleVerify";
    mk ["scorecardresearch.com"] "ScorecardResearch" "Advertising" "Comscore";
    mk ["comscore.com"] "Comscore" "Advertising" "Comscore";
    mk ["quantserve.com"] "Quantserve" "Advertising" "Quantcast";
    mk ["demdex.net"] "Adobe Experience Cloud (Demdex)" "Advertising" "Adobe";
    mk ["adsrvr.org"] "The Trade Desk" "Advertising" "The Trade Desk";
    mk ["eyeota.net"] "Eyeota" "Advertising" "Eyeota";
    mk ["bluekai.com"] "Oracle BlueKai" "Advertising" "Oracle";
    mk ["amazon-adsystem.com"] "Amazon Advertising" "Advertising" "Amazon";
    mk ["bouncex.net"; "wunderkind.co"]
       "Wunderkind (BounceX)" "Advertising" "Wunderkind";
    mk ["onetag.com"; "s-onetag.com"] "OneTag" "Advertising" "OneTag";
    mk ["permutive"] "Permutive" "Advertising" "Permutive";
    mk ["turner.com"; "warnermediacdn.com"]
       "Turner/Warner CDN" "CDN/Utility" "Warner Bros. Discovery";
    mk ["collector.github.com"] "GitHub Telemetry" "Analytics" "GitHub";
    mk ["cloudflareinsights.com"]
       "Cloudflare Web Analytics" "Analytics" "Cloudflare";
    mk ["dubcdn.com"] "Dub CDN" "CDN/Utility" "Dub" ].

Definition generic_keywords : Js.pattern :=
  ["analytics"; "track"; "collect"; "pixel"; "beacon"; "telemetry"; "metrics"].

(** The [for (const r of rules)] loop: the first rule whose pattern
    matches wins. *)
Fixpoint first_match (rs : list rule) (lower : string) : option rule :=
  match rs with
  | [] => None
  | r :: rs' => if Js.test (re r) lower then Some r else first_match rs' lower
  end.

Definition classifyDomain (lower : string) : classification :=
  match first_match rules lower with
  | Some r =>
      {| name := r_name r; category := r_category r; company := r_company r |}
  | None =>
      if Js.test generic_keywords lower
      then {| name := "Tracker"; category := "Analytics"; company := "Unknown" |}
      else {| name := lower; category := "Unknown"; company := "Unknown" |}
  end.

(** [TRACKER_CATEGORIES]: the values a category can take. *)
Definition TRACKER_CATEGORIES : list string :=
  ["Advertising"; "Analytics"; "Social"; "Tag Manager"; "CDN/Utility"; "Unknown"].

Record trackerDetail := {
  d_domain : string;
  d_name : string;
  d_category : string;
  d_company : string
}.

Definition buildTrackerDetails (trackers : list string) : list trackerDetail :=
  map (fun domain =>
         let info := classifyDomain (Js.toLowerCase domain) in
         {| d_domain := domain; d_name := name info;
            d_category := category info; d_company := company info |})
      trackers.

End Classifier.

(* ===================================================================== *)
(** * geminiService.js, part 2: sentence-aware truncation                *)
(* ===================================================================== *)

Module Truncate.

(** White space of [\s] and of [trim()] (the two sets coincide), within
    the Latin-1 range: TAB, LF, VT, FF, CR, SPACE and NBSP. *)
Definition is_space (c : ascii) : bool :=
  let n := nat_of_ascii c in
  ((n =? 9) || (n =? 10) || (n =? 11) || (n =? 12) || (n =? 13)
   || (n =? 32) || (n =? 160))%nat.

(** The class [[.!?]] of the look-behind. *)
Definition is_terminator (c : ascii) : bool :=
  (Ascii.eqb c "." || Ascii.eqb c "!" || Ascii.eqb c "?")%char.

Fixpoint trimStart (s : string) : string :=
  match s with
  | EmptyString => EmptyString
  | String c s' => if is_space c then trimStart s' else s
  end.

Fixpoint trimEnd (s : string) : string :=
  match s with
  | EmptyString => EmptyString
  | String c s' =>
      match trimEnd s' with
      | EmptyString => if is_space c then EmptyString else String c EmptyString
      | r => String c r
      end
  end.

(** [s.trim()] *)
Definition trim (s : string) : string := trimEnd (trimStart s).

(** Appending one code unit to the piece being read. *)
Definition push (c : ascii) (ps : list string) : list string :=
  match ps with
  | [] => [String c EmptyString]
  | h :: tl => String c h :: tl
  end.

(** Where the scan of [split(/(?<=[.!?])\s+/)] stands: inside a piece
    after an ordinary code unit, right after a terminator (white space
    now starts a separator), or inside a separator (the greedy [\s+]). *)
Inductive scan := Plain | AfterTerm | InSep.

Definition after (c : ascii) : scan :=
  if is_terminator c then AfterTerm else Plain.

Fixpoint split_from (st : scan) (s : string) : list string :=
  match s with
  | EmptyString => [EmptyString]
  | String c r =>
      match st, is_space c with
      | AfterTerm, true => EmptyString :: split_from InSep r
      | InSep, true => split_from InSep r
      | _, _ => push c (split_from (after c) r)
      end
  end.

(** [clean.split(/(?<=[.!?])\s+/)] *)
Definition split_sentences (s : string) : list string := split_from Plain s.

(** [s.split(/\s+/)] : a leading separator leaves an empty first piece,
    a trailing one an empty last piece. *)
Fixpoint split_ws_from (in_sep : bool) (s : string) : list string :=
  match s with
  | EmptyString => [EmptyString]
  | String c r =>
      if is_space c
      then (if in_sep then split_ws_from true r
            else EmptyString :: split_ws_from true r)
      else push c (split_ws_from false r)
  end.

Definition split_ws (s : string) : list string := split_ws_from false s.

(** [Boolean(s)] on a string *)
Definition truthy (s : string) : bool :=
  match s with EmptyString => false | _ => true end.

(** [s.trim().split(/\s+/).filter(Boolean)] *)
Definition words (s : string) : list string :=
  List.filter truthy (split_ws (trim s)).

(** The [for (const s of sentences)] loop, with [count] the words
    gathered so far; the result is the array [out]. *)
Fixpoint collect (targetWords count : Z) (sentences : list string)
  : list string :=
  match sentences with
  | [] => []
  | s :: rest =>
      let w := Js.len (words s) in
      if w =? 0 then collect targetWords count rest
      else trim s ::
           (if count + w >=? targetWords then []
            else collect targetWords (count + w) rest)
  end.

(** [arr.slice(0, n)] for a number [n] that may be negative (then the
    end is counted from the back). *)
Definition slice0z {A} (n : Z) (l : list A) : list A :=
  if n <? 0 then firstn (Z.to_nat (Js.len l + n)) l
  else firstn (Z.to_nat n) l.

(** The ellipsis literal that ends a hard cut, as the code units it has
    in the source file. *)
Definition ellipsis : string :=
  String (ascii_of_nat 226)
    (String (ascii_of_nat 128) (String (ascii_of_nat 166) EmptyString)).

Definition sentenceAwareTruncate (text : string) (targetWords : Z) : string :=
  if negb (truthy text) then text
  else
    let clean := trim text in
    if negb (truthy clean) then clean
    else
      let out := collect targetWords 0 (split_sentences clean) in
      if 0 <? Js.len out then Js.join " " out
      else
        let ws := split_ws clean in
        if Js.len ws <=? targetWords then clean
        else Js.join " " (slice0z targetWords ws) +:+ ellipsis.

(** [limitArray(arr, words)] for an array of strings. *)
Definition limitArray (arr : list string) (n : Z) : list string :=
  map (fun t => sentenceAwareTruncate t n) arr.

End Truncate.

(* ===================================================================== *)
(** * geminiService.js, part 3: the summary synthesizer                  *)
(* ===================================================================== *)

Module Gemini.

Import Classifier.

(** The five fields every summary variant carries. *)
Record fields := {
  whatTheyCollect : list string;
  whoTheyShareWith : list string;
  howLongTheyKeep : string;
  keyRisks : list string;
  trackerBreakdown : list string
}.

(** [summary]: the five fields and, on the path that builds them, the
    two length-bounded variants. *)
Record summary := {
  base : fields;
  popupSummary : option fields;
  fullSummary : option fields
}.

(** What the function resolves to. *)
Record aiResult := {
  success : bool;
  note : option string;
  summary_of : summary;
  trackerCount : option Z;
  trackerDetails : option (list trackerDetail);
  rawResponse : option string
}.

(** The object that [JSON.parse] gave, seen through the five properties
    [validateSummary] reads: an array-valued property is [Some] (its
    items are strings, as the prompt asks), anything else is [None]; the
    same for the string-valued [howLongTheyKeep]. *)
Record rawSummary := {
  raw_whatTheyCollect : option (list string);
  raw_whoTheyShareWith : option (list string);
  raw_howLongTheyKeep : option string;
  raw_keyRisks : option (list string);
  raw_trackerBreakdown : option (list string)
}.

Definition raw_of_fields (f : fields) : rawSummary :=
  {| raw_whatTheyCollect := Some (whatTheyCollect f);
     raw_whoTheyShareWith := Some (whoTheyShareWith f);
     raw_howLongTheyKeep := Some (howLongTheyKeep f);
     raw_keyRisks := Some (keyRisks f);
     raw_trackerBreakdown := Some (trackerBreakdown f) |}.

(** A call either returns or throws (an [async] function: resolves or
    rejects) with the error's message. *)
Inductive completion (A : Type) :=
| Returned (a : A)
| Thrown (message : string).
Arguments Returned {A} a.
Arguments Thrown {A} message.

Definition CACHE_EXPIRY : Z := 24 * 60 * 60 * 1000.

Record cacheEntry := { data : aiResult; timestamp : Z }.

(** The text-generation collaborator as one call sees it: the request
    throws, or answers [text]; [parsed] is what
    [JSON.parse(text.match(/\{[\s\S]*\}/)[0])] gives, [None] when there is
    no match or the parse throws.  The prompt only feeds the generator. *)
Inductive aiReply :=
| Raises (message : string)
| Replies (text : string) (parsed : option rawSummary).

(** What surrounds one call: the value of [process.env.GEMINI_API_KEY],
    the two readings of [Date.now()] (at the cache check and when the
    answer is stored) and the generator's answer. *)
Record aiScenario := {
  GEMINI_API_KEY : option string;
  at_check : Z;
  at_store : Z;
  reply : aiReply
}.

Definition some_if {A} (b : bool) (x : A) : list A := if b then [x] else [].

Section WithUrlParser.

(** [new URL(u).hostname] of the platform: [None] when the constructor
    throws. *)
Variable url_hostname : string -> option string.

Definition breakdown_line (tracker : string) : string :=
  if Js.includes tracker "google" then
    tracker +:+ ": Google's tracking service for analytics and advertising"
  else if Js.includes tracker "facebook" then
    tracker +:+ ": Meta's social media and advertising tracker"
  else if Js.includes tracker "doubleclick" then
    tracker +:+ ": Google's advertising network for targeted ads"
  else
    tracker +:+ ": Third-party tracking and analytics service".

Definition createFallbackSummary (trackers : list string) (url : string)
  : completion fields :=
  match url_hostname url with
  | None => Thrown "Invalid URL"
  | Some domain =>
      let googleTrackers :=
        List.filter (fun t => Js.includes t "google") trackers in
      let facebookTrackers :=
        List.filter (fun t => Js.includes t "facebook") trackers in
      let adTrackers :=
        List.filter (fun t => Js.includes t "ads"
                              || Js.includes t "doubleclick"
                              || Js.includes t "adnxs") trackers in
      let analyticsTrackers :=
        List.filter (fun t => Js.includes t "analytics"
                              || Js.includes t "mixpanel"
                              || Js.includes t "hotjar") trackers in
      let companies :=
        some_if (0 <? Js.len googleTrackers) "Google"
        ++ some_if (0 <? Js.len facebookTrackers) "Meta/Facebook"
        ++ some_if (0 <? Js.len adTrackers) "Advertising Networks"
        ++ some_if (0 <? Js.len analyticsTrackers) "Analytics Providers" in
      Returned
        {| whatTheyCollect :=
             ["Browsing behavior and page views";
              "Device and browser information";
              "IP address and location data"]
             ++ some_if (5 <? Js.len trackers) "User interactions and clicks"
             ++ some_if (10 <? Js.len trackers) "Cross-site tracking data";
           whoTheyShareWith :=
             if 0 <? Js.len companies then companies
             else ["Third-party partners"];
           howLongTheyKeep :=
             if 8 <? Js.len trackers then "Up to 2 years or indefinitely"
             else "Varies by service";
           keyRisks :=
             ["Your browsing on " +:+ domain
              +:+ " may be tracked across other websites"]
             ++ some_if (5 <? Js.len trackers)
                  "Detailed behavioral profiling for advertising"
             ++ some_if (10 <? Js.len trackers)
                  "Extensive data sharing with multiple partners";
           trackerBreakdown :=
             map breakdown_line (Js.slice0 4 trackers) |}
  end.

Definition validateSummary (s : rawSummary) : fields :=
  {| whatTheyCollect :=
       match raw_whatTheyCollect s with
       | Some a => Js.slice0 8 a
       | None => ["Information not available"]
       end;
     whoTheyShareWith :=
       match raw_whoTheyShareWith s with
       | Some a => Js.slice0 10 a
       | None => ["Information not available"]
       end;
     howLongTheyKeep :=
       match raw_howLongTheyKeep s with
       | Some t => t
       | None => "Information not available"
       end;
     keyRisks :=
       match raw_keyRisks s with
       | Some a => Js.slice0 6 a
       | None => ["Privacy risks could not be determined"]
       end;
     trackerBreakdown :=
       match raw_trackerBreakdown s with
       | Some a => Js.slice0 5 a
       | None => []
       end |}.

Definition popup_of (v : fields) : fields :=
  {| whatTheyCollect := Js.slice0 3 (Truncate.limitArray (whatTheyCollect v) 40);
     whoTheyShareWith := Js.slice0 3 (Truncate.limitArray (whoTheyShareWith v) 40);
     howLongTheyKeep := Truncate.sentenceAwareTruncate (howLongTheyKeep v) 40;
     keyRisks := Js.slice0 3 (Truncate.limitArray (keyRisks v) 40);
     trackerBreakdown := Js.slice0 3 (Truncate.limitArray (trackerBreakdown v) 40) |}.

Definition full_of (v : fields) : fields :=
  {| whatTheyCollect := Js.slice0 5 (Truncate.limitArray (whatTheyCollect v) 70);
     whoTheyShareWith := Js.slice0 6 (Truncate.limitArray (whoTheyShareWith v) 70);
     howLongTheyKeep := Truncate.sentenceAwareTruncate (howLongTheyKeep v) 70;
     keyRisks := Js.slice0 4 (Truncate.limitArray (keyRisks v) 70);
     trackerBreakdown := Js.slice0 4 (Truncate.limitArray (trackerBreakdown v) 70) |}.

(** The object returned when no API key is configured. *)
Definition fallbackResponse : aiResult :=
  {| success := false;
     note := Some "AI analysis unavailable - API key missing";
     summary_of :=
       {| base := {| whatTheyCollect := [];
                     whoTheyShareWith := [];
                     howLongTheyKeep := "Information not available";
                     keyRisks := [];
                     trackerBreakdown := [] |};
          popupSummary := None;
          fullSummary := None |};
     trackerCount := None;
     trackerDetails := None;
     rawResponse := None |}.

(** The outer [catch]: the fallback summary, built once more; when that
    throws as well the call rejects. *)
Definition on_error (message : string) (trackers : list string)
           (url : string) : completion aiResult :=
  match createFallbackSummary trackers url with
  | Thrown m => Thrown m
  | Returned f =>
      Returned
        {| success := false;
           note := Some ("AI analysis failed: " +:+ message);
           summary_of := {| base := f; popupSummary := None;
                            fullSummary := None |};
           trackerCount := None;
           trackerDetails := Some (buildTrackerDetails trackers);
           rawResponse := None |}
  end.

Definition truthy_key (k : option string) : bool :=
  match k with
  | Some s => Truncate.truthy s
  | None => false
  end.

(** State threaded through a call: the caller's array (the function
    receives a reference to it) and the module-level [aiCache]. *)
Record aiState := {
  trackers_arr : list string;
  aiCache : gmap string cacheEntry
}.

Definition generateAIPrivacySummary (sc : aiScenario)
           (trackers : list string) (url : string)
           (cache : gmap string cacheEntry)
  : completion aiResult * aiState :=
  (* [trackers.sort()] sorts the caller's array in place *)
  let trackers := Js.sort trackers in
  let cacheKey := url +:+ "_" +:+ Js.join "," trackers in
  let st := {| trackers_arr := trackers; aiCache := cache |} in
  let fresh :=
    match cache !! cacheKey with
    | Some cached =>
        if at_check sc - timestamp cached <? CACHE_EXPIRY
        then Some (data cached) else None
    | None => None
    end in
  match fresh with
  | Some d => (Returned d, st)
  | None =>
      if negb (truthy_key (GEMINI_API_KEY sc)) then
        (Returned fallbackResponse,
         {| trackers_arr := trackers;
            aiCache := <[cacheKey := {| data := fallbackResponse;
                                        timestamp := at_store sc |}]> cache |})
      else
        match reply sc with
        | Raises m => (on_error m trackers url, st)
        | Replies text parsed =>
            let summary :=
              match parsed with
              | Some s => Returned s
              | None =>
                  match createFallbackSummary trackers url with
                  | Returned f => Returned (raw_of_fields f)
                  | Thrown m => Thrown m
                  end
              end in
            match summary with
            | Thrown m => (on_error m trackers url, st)
            | Returned s =>
                let validatedSummary := validateSummary s in
                let finalResponse :=
                  {| success := true;
                     note := None;
                     summary_of :=
                       {| base := validatedSummary;
                          popupSummary := Some (popup_of validatedSummary);
                          fullSummary := Some (full_of validatedSummary) |};
                     trackerCount := Some (Js.len trackers);
                     trackerDetails := Some (buildTrackerDetails trackers);
                     rawResponse := Some text |} in
                (Returned finalResponse,
                 {| trackers_arr := trackers;
                    aiCache := <[cacheKey := {| data := finalResponse;
                                                timestamp := at_store sc |}]> cache |})
            end
        end
  end.

End WithUrlParser.

End Gemini.

(* ===================================================================== *)
(** * backend/utility/trackerService.js: the crawler                     *)
(* ===================================================================== *)

Module TrackerService.

Import Gemini.

Definition TRACKER_DOMAINS : list string :=
  [ "google-analytics.com"; "googletagmanager.com"; "googleadservices.com";
    "google-analytics.com";
    "facebook.net"; "connect.facebook.net"; "facebook.com"; "twitter.com";
    "ads-twitter.com"; "linkedin.com"; "snapchat.com"; "pinterest.com";
    "tiktok.com";
    "doubleclick.net"; "googlesyndication.com"; "adservice.google.com";
    "ads.google.com"; "adnxs.com"; "amazon-adsystem.com"; "criteo.com";
    "outbrain.com"; "taboola.com"; "adroll.com"; "rubiconproject.com";
    "pubmatic.com"; "openx.net"; "adsystem.com";
    "segment.com"; "mixpanel.com"; "amplitude.com"; "hotjar.com";
    "fullstory.com"; "logrocket.com"; "optimizely.com"; "mouseflow.com";
    "scorecardresearch.com"; "quantserve.com"; "comscore.com"; "demdex.net";
    "adsrvr.org"; "turn.com"; "eyeota.net"; "bluekai.com";
    "chartbeat.com"; "clicktale.net"; "doubleverify.com"; "mathtag.com";
    "sharethis.com"; "addthis.com"; "trustarc.com"; "adform.net";
    "bing.com"; "yahoo.com" ].

(** The host patterns: a literal, or a literal followed by digits
    ([\d+] when [one] holds, [\d*] otherwise) and a dot. *)
Inductive hostPattern :=
| Lit (s : string)
| LitDigitsDot (s : string) (one : bool).

Definition TRACKER_PATTERNS : list hostPattern :=
  [ Lit ".ads."; Lit ".analytics."; Lit ".tracking."; Lit ".metrics.";
    Lit ".telemetry."; LitDigitsDot "ads" true; LitDigitsDot "track" false;
    Lit "collect."; Lit "pixel."; Lit "beacon." ].

Definition is_digit (c : ascii) : bool :=
  let n := nat_of_ascii c in ((48 <=? n) && (n <=? 57))%nat.

Fixpoint skip_digits (s : string) : string :=
  match s with
  | EmptyString => EmptyString
  | String c r => if is_digit c then skip_digits r else s
  end.

Fixpoint drop (n : nat) (s : string) : string :=
  match n, s with
  | O, _ => s
  | S n', String _ r => drop n' r
  | S _, EmptyString => EmptyString
  end.

(** The pattern matches at the very start of [s]. *)
Definition digits_dot_here (lit : string) (one : bool) (s : string) : bool :=
  String.prefix lit s &&
  (let rest := drop (String.length lit) s in
   let tail := skip_digits rest in
   (negb one || negb (String.eqb tail rest)) && String.prefix "." tail).

Fixpoint digits_dot_test (lit : string) (one : bool) (s : string) : bool :=
  if digits_dot_here lit one s then true
  else match s with
       | EmptyString => false
       | String _ r => digits_dot_test lit one r
       end.

Definition host_test (p : hostPattern) (s : string) : bool :=
  match p with
  | Lit l => Js.includes s l
  | LitDigitsDot l one => digits_dot_test l one s
  end.

(** The URL patterns all carry the [i] flag and are literals, or an
    alternation of two. *)
Definition trackerUrlPatterns : list Js.pattern :=
  [ ["/analytics"]; ["/tracking"]; ["/collect"]; ["/beacon"]; ["/pixel"];
    ["/track"]; ["/metric"]; ["/telemetry"]; ["gtag"; "gtm"]; ["fbevents"];
    ["doubleclick"] ].

Definition test_i (re : Js.pattern) (s : string) : bool :=
  Js.test re (Js.toLowerCase s).

Definition isTracker (url domain mainDomain : string)
           (includeFirstParty : bool) : bool :=
  if negb includeFirstParty && String.eqb domain mainDomain then false
  else if existsb (fun tracker => Js.includes domain (Js.toLowerCase tracker))
                  TRACKER_DOMAINS then true
  else if existsb (fun p => host_test p domain) TRACKER_PATTERNS then true
  else existsb (fun p => test_i p url) trackerUrlPatterns.

Record options := {
  timeout : Z;
  waitForInteractions : bool;
  includeFirstParty : bool;
  verbose : bool
}.

Definition default_options : options :=
  {| timeout := 30000; waitForInteractions := true;
     includeFirstParty := false; verbose := false |}.

(** One outbound request, as the [request] event hands it over. *)
Record request := {
  req_url : string;
  req_type : string;
  req_method : string
}.

Record requestRecord := {
  rr_domain : string;
  rr_url : string;
  rr_type : string;
  rr_method : string
}.

(** A thrown [Error]: its [name] and its [message]. *)
Record jsError := { err_name : string; err_message : string }.

(** A step of the automated browser: the requests it lets through and,
    possibly, the error that ends it. *)
Record step := { seen : list request; failure : option jsError }.

(** What the automated browser does during one [detectTrackers] call.
    [setup] covers [newPage], [setViewport] and [setUserAgent];
    [simulateUserBehavior] catches whatever its own steps throw, so only
    the requests of that phase matter. *)
Record browserScenario := {
  launch : option jsError;
  setup : option jsError;
  navigation : step;
  interaction : list request;
  settle : step
}.

Inductive browserEvent := Launch | Close.

(** The variables of one call: the [browser] handle ([true] once
    [puppeteer.launch] has returned), the set and the verbose list, and
    the sessions opened and closed so far. *)
Record detectState := {
  browser : bool;
  detected : gset string;
  trackerRequests : list requestRecord;
  events : list browserEvent
}.

Definition initial : detectState :=
  {| browser := false; detected := ∅; trackerRequests := []; events := [] |}.

(** A computation that may throw, over the state of the call. *)
Definition M (A : Type) : Type := detectState -> (A + jsError) * detectState.

Definition ret {A} (a : A) : M A := fun s => (inl a, s).
Definition throw {A} (e : jsError) : M A := fun s => (inr e, s).
Definition bind {A B} (m : M A) (k : A -> M B) : M B :=
  fun s => match m s with
           | (inl a, s') => k a s'
           | (inr e, s') => (inr e, s')
           end.
Definition try_catch {A} (m : M A) (h : jsError -> M A) : M A :=
  fun s => match m s with
           | (inl a, s') => (inl a, s')
           | (inr e, s') => h e s'
           end.
(** [try { m } finally { f }]: [f] runs on every way out of [m]; the
    completion of [m] is kept when [f] completes normally. *)
Definition try_finally {A} (m : M A) (f : M unit) : M A :=
  fun s => match m s with
           | (r, s') => match f s' with
                        | (inl _, s'') => (r, s'')
                        | (inr e, s'') => (inr e, s'')
                        end
           end.

Notation "'let!' x ':=' m 'in' k" := (bind m (fun x => k))
  (at level 10, x name, m at level 200, k at level 200).

Definition may_fail (f : option jsError) : M unit :=
  match f with Some e => throw e | None => ret tt end.

Section WithUrlParser.

Variable url_hostname : string -> option string.

Definition extractDomain (url : string) : option string :=
  match url_hostname url with
  | Some h => Some (Js.toLowerCase h)
  | None => None
  end.

(** The [page.on('request', ...)] handler. *)
Definition on_request (o : options) (mainDomain : string) (r : request)
           (s : detectState) : detectState :=
  match extractDomain (req_url r) with
  | Some requestDomain =>
      if Truncate.truthy requestDomain
         && isTracker (req_url r) requestDomain mainDomain
                      (includeFirstParty o)
      then {| browser := browser s;
              detected := {[ requestDomain ]} ∪ detected s;
              trackerRequests :=
                if verbose o
                then trackerRequests s ++
                     [{| rr_domain := requestDomain; rr_url := req_url r;
                         rr_type := req_type r; rr_method := req_method r |}]
                else trackerRequests s;
              events := events s |}
      else s
  | None => s
  end.

(** The handler fires once per request, in the order of arrival. *)
Definition feed (o : options) (mainDomain : string) (rs : list request)
           (s : detectState) : detectState :=
  fold_left (fun s r => on_request o mainDomain r s) rs s.

Definition observe (o : options) (mainDomain : string)
           (rs : list request) : M unit :=
  fun s => (inl tt, feed o mainDomain rs s).

Definition run_step (o : options) (mainDomain : string) (st : step)
  : M unit :=
  let! _ := observe o mainDomain (seen st) in may_fail (failure st).

Definition do_launch (sc : browserScenario) : M unit :=
  fun s => match launch sc with
           | Some e => (inr e, s)
           | None => (inl tt, {| browser := true; detected := detected s;
                                 trackerRequests := trackerRequests s;
                                 events := events s ++ [Launch] |})
           end.

(** [browser.close()], taken to complete normally. *)
Definition do_close : M unit :=
  fun s => (inl tt, {| browser := browser s; detected := detected s;
                       trackerRequests := trackerRequests s;
                       events := events s ++ [Close] |}).

Record detectResult := {
  r_url : option string;
  detectedTrackers : list string;
  r_trackerCount : option Z;
  r_success : bool;
  r_error : option string;
  r_requests : option (list requestRecord)
}.

(** The body of the [try] block. *)
Definition try_body (sc : browserScenario) (o : options)
           (mainDomain : string) : M (option detectResult) :=
  let! _ := do_launch sc in
  let! _ := may_fail (setup sc) in
  let! _ := run_step o mainDomain (navigation sc) in
  let! _ := (if waitForInteractions o
             then observe o mainDomain (interaction sc) else ret tt) in
  let! _ := run_step o mainDomain (settle sc) in
  ret None.

(** The [catch] clause: a time-out is logged and swallowed, any other
    error ends the call with a failure record. *)
Definition handler (e : jsError) : M (option detectResult) :=
  if String.eqb (err_name e) "TimeoutError" then ret None
  else ret (Some {| r_url := None; detectedTrackers := [];
                    r_trackerCount := None; r_success := false;
                    r_error := Some (err_message e);
                    r_requests := None |}).

Definition finalizer : M unit :=
  fun s => if browser s then do_close s else (inl tt, s).

Definition detectTrackers (sc : browserScenario) (url : string)
           (o : options) : completion detectResult * list browserEvent :=
  match url_hostname url with
  | None => (Thrown "Invalid URL", [])
  | Some mainDomain =>
      match try_finally (try_catch (try_body sc o mainDomain) handler)
                        finalizer initial with
      | (inr e, s) => (Thrown (err_message e), events s)
      | (inl (Some early), s) => (Returned early, events s)
      | (inl None, s) =>
          (Returned
             {| r_url := Some url;
                detectedTrackers := Js.sort (elements (detected s));
                r_trackerCount := Some (Z.of_nat (size (detected s)));
                r_success := true;
                r_error := None;
                r_requests := if verbose o then Some (trackerRequests s)
                              else None |},
           events s)
      end
  end.

(** Sessions that were opened and not closed. *)
Fixpoint open_sessions (log : list browserEvent) : Z :=
  match log with
  | [] => 0
  | Launch :: l => open_sessions l + 1
  | Close :: l => open_sessions l - 1
  end.

End WithUrlParser.

End TrackerService.

(* ===================================================================== *)
(** * The site controller: score, grade, category and [analyzeSite]      *)
(* ===================================================================== *)

Module SiteController.

Import Gemini.

(** The argument object of [calculatePrivacyScore]. *)
Record scoreInput := {
  url : string;
  simplifiedPolicy : option string;
  trackers : list string;
  aiSummary : option aiResult
}.

Definition positiveKeywords : list string :=
  [ "encrypted"; "no data sharing"; "gdpr"; "privacy focused";
    "user control"; "opt-out"; "delete data"; "minimal collection" ].

Definition negativeKeywords : list string :=
  [ "sell data"; "third party"; "advertisers"; "share data";
    "indefinitely"; "partners"; "affiliates"; "marketing" ].

Definition highRiskCompanies : list string := ["Meta"; "Google"; "Amazon"].

(** [simplifiedPolicy ? simplifiedPolicy.toLowerCase() : ""] *)
Definition lowerPolicy_of (p : option string) : string :=
  match p with
  | Some t => if Truncate.truthy t then Js.toLowerCase t else ""
  | None => ""
  end.

(** [shareWith.filter(company => highRiskCompanies.some(risk =>
    company.includes(risk))).length] *)
Definition highRiskCount (shareWith : list string) : Z :=
  Js.len (List.filter
            (fun company =>
               existsb (fun risk => Js.includes company risk) highRiskCompanies)
            shareWith).

(** [Math.min(highRiskCount * 3, 15)], the amount subtracted. *)
Definition penalty (shareWith : list string) : Z :=
  Z.min (highRiskCount shareWith * 3) 15.

(** The value of [score] after the tracker, URL and policy factors. *)
Definition score_before_ai (i : scoreInput) : Z :=
  let score := 0 in
  let n := Js.len (trackers i) in
  let score :=
    if n =? 0 then score + 40
    else if n <=? 2 then score + 35
    else if n <=? 5 then score + 25
    else if n <=? 10 then score + 15
    else if n <=? 15 then score + 5
    else score in
  let score :=
    if Js.startsWith (url i) "https://" then score + 10 else score in
  let lowerPolicy := lowerPolicy_of (simplifiedPolicy i) in
  let score :=
    fold_left (fun score word =>
                 if Js.includes lowerPolicy word then score + 4 else score)
              positiveKeywords score in
  let score :=
    fold_left (fun score word =>
                 if Js.includes lowerPolicy word then score - 3 else score)
              negativeKeywords score in
  score.

(** The value of [score] when the final adjustments are reached. *)
Definition rawScore (i : scoreInput) : Z :=
  let score := score_before_ai i in
  match aiSummary i with
  | Some ai =>
      if success ai then
        let risks := keyRisks (base (summary_of ai)) in
        let score :=
          if Js.len risks <=? 2 then score + 15
          else if Js.len risks <=? 4 then score + 10
          else score + 5 in
        let shareWith := whoTheyShareWith (base (summary_of ai)) in
        score - penalty shareWith
      else score
  | None => score
  end.

Definition calculatePrivacyScore (i : scoreInput) : Z :=
  let score := rawScore i in
  let score := if score <? 0 then 0 else score in
  let score := if score >? 100 then 100 else score in
  score.

Definition getGradeFromScore (score : Z) : string :=
  if score >=? 95 then "A+"
  else if score >=? 90 then "A"
  else if score >=? 85 then "A-"
  else if score >=? 80 then "B+"
  else if score >=? 75 then "B"
  else if score >=? 70 then "B-"
  else if score >=? 65 then "C+"
  else if score >=? 60 then "C"
  else if score >=? 55 then "C-"
  else if score >=? 50 then "D+"
  else if score >=? 45 then "D"
  else if score >=? 40 then "D-"
  else "F".

Definition getCategory (score : Z) : string :=
  if score >=? 80 then "Excellent"
  else if score >=? 65 then "Good"
  else if score >=? 50 then "Moderate"
  else if score >=? 35 then "Poor"
  else "Very Poor".

(** A [Site] document. *)
Record site := {
  s_url : string;
  s_simplifiedPolicy : option string;
  s_score : Z;
  s_grade : string;
  s_category : string;
  s_trackers : list string;
  s_aiSummary : option aiResult;
  s_lastAnalyzed : option Z
}.

(** [aiSummary && aiSummary.success] *)
Definition ai_succeeded (a : option aiResult) : bool :=
  match a with Some ai => success ai | None => false end.

Definition generateUserFriendlySummary (s : site) : string :=
  let trackerCount := pretty (Js.len (s_trackers s)) in
  let score := s_score s in
  let summary :=
    if score >=? 80 then
      "This site has excellent privacy practices with minimal tracking ("
      +:+ trackerCount +:+ " trackers)."
    else if score >=? 65 then
      "This site has good privacy practices but uses some tracking ("
      +:+ trackerCount +:+ " trackers)."
    else if score >=? 50 then
      "This site has moderate privacy practices with noticeable tracking ("
      +:+ trackerCount +:+ " trackers)."
    else if score >=? 35 then
      "This site has poor privacy practices with significant tracking ("
      +:+ trackerCount +:+ " trackers)."
    else
      "This site has very poor privacy practices with extensive tracking ("
      +:+ trackerCount +:+ " trackers)." in
  match s_aiSummary s with
  | Some ai =>
      if success ai then
        let companies := whoTheyShareWith (base (summary_of ai)) in
        if 0 <? Js.len companies then
          summary +:+ " Your data may be shared with "
          +:+ Js.join ", " (Js.slice0 3 companies)
          +:+ (if 3 <? Js.len companies
               then " and " +:+ pretty (Js.len companies - 3) +:+ " others"
               else "")
          +:+ "."
        else summary
      else summary
  | None => summary
  end.

(** [req.body]: the server reads [url] and [simplifiedPolicy]; the
    popup also sends [forceRefresh]. *)
Record analysisRequest := {
  req_url : string;
  req_simplifiedPolicy : option string;
  forceRefresh : bool
}.

(** The [site] object of a response. *)
Record siteView := {
  v_url : string;
  v_score : Z;
  v_grade : string;
  v_category : string;
  v_trackers : list string;
  v_trackerCount : Z;
  v_simplifiedPolicy : option string;
  v_aiSummary : option aiResult;
  v_lastAnalyzed : option Z;
  v_summary : string
}.

Definition view_of (s : site) : siteView :=
  {| v_url := s_url s; v_score := s_score s; v_grade := s_grade s;
     v_category := s_category s; v_trackers := s_trackers s;
     v_trackerCount := Js.len (s_trackers s);
     v_simplifiedPolicy := s_simplifiedPolicy s;
     v_aiSummary := s_aiSummary s; v_lastAnalyzed := s_lastAnalyzed s;
     v_summary := generateUserFriendlySummary s |}.

Inductive body :=
| Ok (message : string) (warning : option string) (site : siteView)
| Failed (error : string) (details : option string).

Record response := { status : Z; json : body }.

(** Calls made to the collaborators, in order. *)
Inductive call :=
| FindOne (url : string)
| Detect (url : string)
| Summarize (url : string)
| Upsert (url : string).

(** The shared state: the [Site] collection, keyed by URL, and the
    summarizer's module-level cache. *)
Record world := {
  sites : gmap string site;
  aiCache : gmap string cacheEntry
}.

(** What a request meets: the two readings of the connection state, the
    clock at the cache check and at the save, whether the store throws,
    and what the browser and the text generator do. *)
Record scenario := {
  connected_at_check : bool;
  connected_at_save : bool;
  now : Z;
  saved_at : Z;
  find_error : option string;
  upsert_error : option string;
  crawl : TrackerService.browserScenario;
  ai : aiScenario
}.

Definition successfulCacheDuration : Z := 48 * 60 * 60 * 1000.
Definition failedCacheDuration : Z := 30 * 60 * 1000.

(** The cache decision on a document that was found. *)
Definition isCacheValid (now : Z) (existingSite : site) : bool :=
  match s_lastAnalyzed existingSite with
  | None => false
  | Some lastAnalyzed =>
      if ai_succeeded (s_aiSummary existingSite)
      then now - lastAnalyzed <? successfulCacheDuration
      else now - lastAnalyzed <? failedCacheDuration
  end.

(** The outer [catch]: the stack trace of [details] is only sent in
    development and is left out. *)
Definition internal_error (message : string) : response :=
  {| status := 500; json := Failed message None |}.

Record outcome := {
  res : response;
  after : world;
  calls : list call
}.

Section WithUrlParser.

Variable url_hostname : string -> option string.

(** Everything from [detectTrackers(url)] on. *)
Definition full_analysis (sc : scenario) (w : world)
           (url : string) (simplifiedPolicy : option string)
           (done : list call) : outcome :=
  match fst (TrackerService.detectTrackers url_hostname (crawl sc) url
               TrackerService.default_options) with
  | Thrown m =>
      {| res := internal_error m; after := w;
         calls := done ++ [Detect url] |}
  | Returned trackerResult =>
      if negb (TrackerService.r_success trackerResult) then
        {| res := {| status := 500;
                     json := Failed "Failed to analyze website trackers"
                                    (TrackerService.r_error trackerResult) |};
           after := w; calls := done ++ [Detect url] |}
      else
        let detectedTrackers :=
          TrackerService.detectedTrackers trackerResult in
        let '(summarized, st) :=
          generateAIPrivacySummary url_hostname (ai sc) detectedTrackers
                                   url (aiCache w) in
        let detectedTrackers := trackers_arr st in
        let w1 := {| sites := sites w; aiCache := Gemini.aiCache st |} in
        let done := done ++ [Detect url; Summarize url] in
        match summarized with
        | Thrown m => {| res := internal_error m; after := w1; calls := done |}
        | Returned aiSummary =>
            let score :=
              calculatePrivacyScore
                {| url := url; simplifiedPolicy := simplifiedPolicy;
                   trackers := detectedTrackers;
                   aiSummary := Some aiSummary |} in
            let grade := getGradeFromScore score in
            let category := getCategory score in
            let siteData :=
              {| s_url := url; s_simplifiedPolicy := simplifiedPolicy;
                 s_score := score; s_grade := grade;
                 s_category := category; s_trackers := detectedTrackers;
                 s_aiSummary := Some aiSummary;
                 s_lastAnalyzed := Some (saved_at sc) |} in
            let created warning w' done :=
              {| res := {| status := 201;
                           json := Ok "Site analyzed successfully" warning
                                      (view_of siteData) |};
                 after := w'; calls := done |} in
            if connected_at_save sc then
              match upsert_error sc with
              | Some _ =>
                  (* the handler reads [siteData], which is declared in
                     the [try] block and out of scope there *)
                  {| res := internal_error "siteData is not defined";
                     after := w1; calls := done ++ [Upsert url] |}
              | None =>
                  (* the store is a keyed upsert that hands back what it
                     was given *)
                  created None
                          {| sites := <[url := siteData]> (sites w1);
                             aiCache := aiCache w1 |}
                          (done ++ [Upsert url])
              end
            else
              created (Some "Database issue: Database not connected") w1 done
        end
  end.

(** The three calls [full_analysis] makes once the trackers are
    known: summary, score, grade.  [None] when the summarizer throws. *)
Definition summarize_and_score (a : aiScenario) (trackers : list string)
           (url : string) (simplifiedPolicy : option string)
           (cache : gmap string cacheEntry)
  : option (aiResult * Z * string) :=
  let '(summarized, st) :=
    generateAIPrivacySummary url_hostname a trackers url cache in
  match summarized with
  | Thrown _ => None
  | Returned aiSummary =>
      let score :=
        calculatePrivacyScore
          {| url := url; simplifiedPolicy := simplifiedPolicy;
             trackers := trackers_arr st;
             aiSummary := Some aiSummary |} in
      Some (aiSummary, score, getGradeFromScore score)
  end.

Definition analyzeSite (sc : scenario) (w : world) (req : analysisRequest)
  : outcome :=
  let url := req_url req in
  let simplifiedPolicy := req_simplifiedPolicy req in
  if connected_at_check sc then
    match find_error sc with
    | Some m =>
        {| res := internal_error m; after := w; calls := [FindOne url] |}
    | None =>
        match sites w !! url with
        | Some existingSite =>
            if isCacheValid (now sc) existingSite then
              {| res := {| status := 200;
                           json := Ok "Site data retrieved from cache" None
                                      (view_of existingSite) |};
                 after := w; calls := [FindOne url] |}
            else full_analysis sc w url simplifiedPolicy [FindOne url]
        | None => full_analysis sc w url simplifiedPolicy [FindOne url]
        end
    end
  else full_analysis sc w url simplifiedPolicy [].

End WithUrlParser.

End SiteController.

(* ===================================================================== *)
(** * frontend/src/utils/scoring.js: the client-side recomputation       *)
(* ===================================================================== *)

Module Scoring.

Import Gemini.

(** The fields of [initialSiteData] the function reads. *)
Record initialSiteData := {
  url : string;
  simplifiedPolicy : option string;
  aiSummary : option aiResult
}.

Definition positiveKeywords : list string :=
  [ "encrypted"; "no data sharing"; "gdpr"; "privacy focused";
    "user control"; "opt-out"; "delete data"; "minimal collection" ].

Definition negativeKeywords : list string :=
  [ "sell data"; "third party"; "advertisers"; "share data";
    "indefinitely"; "partners"; "affiliates"; "marketing" ].

Definition highRiskCompanies : list string := ["Meta"; "Google"; "Amazon"].

Definition highRiskCount (shareWith : list string) : Z :=
  Js.len (List.filter
            (fun company =>
               existsb (fun risk => Js.includes company risk) highRiskCompanies)
            shareWith).

(** The value of [score] when the final adjustments are reached. *)
Definition rawScore (d : initialSiteData) (unblockedTrackersCount : Z) : Z :=
  let score := 0 in
  let score :=
    if unblockedTrackersCount =? 0 then score + 70
    else if unblockedTrackersCount <=? 2 then score + 60
    else if unblockedTrackersCount <=? 5 then score + 45
    else if unblockedTrackersCount <=? 10 then score + 30
    else if unblockedTrackersCount <=? 15 then score + 15
    else score in
  let score :=
    if Js.startsWith (url d) "https://" then score + 10 else score in
  let lowerPolicy := SiteController.lowerPolicy_of (simplifiedPolicy d) in
  let score :=
    fold_left (fun score word =>
                 if Js.includes lowerPolicy word then score + 3 else score)
              positiveKeywords score in
  let score :=
    fold_left (fun score word =>
                 if Js.includes lowerPolicy word then score - 2 else score)
              negativeKeywords score in
  match aiSummary d with
  | Some ai =>
      if success ai then
        let risks := keyRisks (base (summary_of ai)) in
        let score :=
          if Js.len risks <=? 2 then score + 12
          else if Js.len risks <=? 4 then score + 8
          else score + 4 in
        let shareWith := whoTheyShareWith (base (summary_of ai)) in
        score - Z.min (highRiskCount shareWith * 2) 10
      else score
  | None => score
  end.

(** [Math.round] leaves an integer as it is. *)
Definition Math_round (z : Z) : Z := z.

Definition calculateDynamicPrivacyScore (d : initialSiteData)
           (unblockedTrackersCount : Z) : Z :=
  let score := rawScore d unblockedTrackersCount in
  let score := if score <? 0 then 0 else score in
  let score := if score >? 100 then 100 else score in
  Math_round score.

Definition getGradeFromScore (score : Z) : string :=
  if score >=? 97 then "A+"
  else if score >=? 93 then "A"
  else if score >=? 90 then "A-"
  else if score >=? 87 then "B+"
  else if score >=? 83 then "B"
  else if score >=? 80 then "B-"
  else if score >=? 77 then "C+"
  else if score >=? 73 then "C"
  else if score >=? 70 then "C-"
  else if score >=? 65 then "D+"
  else if score >=? 60 then "D"
  else if score >=? 55 then "D-"
  else "F".

End Scoring.

(* ===================================================================== *)
(** * Reference definitions for the statements                           *)
(* ===================================================================== *)

Module Reference.

Import Gemini.

(** Clamping to the score range. *)
Definition clamp (z : Z) : Z := Z.max 0 (Z.min 100 z).

(** The penalty as the specification words it: 3 points for every
    *distinct* high-risk company (Meta, Google, Amazon) that occurs
    among [whoTheyShareWith], at most 15. *)
Definition distinctHighRiskCompanies (shareWith : list string) : Z :=
  Js.len (List.filter
            (fun risk =>
               existsb (fun company => Js.includes company risk) shareWith)
            SiteController.highRiskCompanies).

Definition penalty_per_distinct_company (shareWith : list string) : Z :=
  Z.min (distinctHighRiskCompanies shareWith * 3) 15.

(** The risk-count bonus of a successful summary. *)
Definition riskBonus (risks : list string) : Z :=
  if Js.len risks <=? 2 then 15
  else if Js.len risks <=? 4 then 10
  else 5.

(** The first error the guarded block of [detectTrackers] meets. *)
Definition first_error (sc : TrackerService.browserScenario)
  : option TrackerService.jsError :=
  match TrackerService.launch sc with
  | Some e => Some e
  | None =>
      match TrackerService.setup sc with
      | Some e => Some e
      | None =>
          match TrackerService.failure (TrackerService.navigation sc) with
          | Some e => Some e
          | None => TrackerService.failure (TrackerService.settle sc)
          end
      end
  end.

(** The requests that reach the handler before that error, or before
    the end of the block. *)
Definition seen_before (sc : TrackerService.browserScenario)
           (o : TrackerService.options) : list TrackerService.request :=
  match TrackerService.launch sc, TrackerService.setup sc with
  | None, None =>
      TrackerService.seen (TrackerService.navigation sc) ++
      match TrackerService.failure (TrackerService.navigation sc) with
      | Some _ => []
      | None =>
          (if TrackerService.waitForInteractions o
           then TrackerService.interaction sc else [])
          ++ TrackerService.seen (TrackerService.settle sc)
      end
  | _, _ => []
  end.

(** The handler reads and writes the set and the verbose list only. *)
Definition same_observations (s1 s2 : TrackerService.detectState) : Prop :=
  TrackerService.detected s1 = TrackerService.detected s2 /\
  TrackerService.trackerRequests s1 = TrackerService.trackerRequests s2.

(** The state [s] with a session opened. *)
Definition launched (s : TrackerService.detectState)
  : TrackerService.detectState :=
  {| TrackerService.browser := true;
     TrackerService.detected := TrackerService.detected s;
     TrackerService.trackerRequests := TrackerService.trackerRequests s;
     TrackerService.events := [TrackerService.Launch] |}.

(** The record of a failed detection. *)
Definition failure_record (message : string) : TrackerService.detectResult :=
  {| TrackerService.r_url := None;
     TrackerService.detectedTrackers := [];
     TrackerService.r_trackerCount := None;
     TrackerService.r_success := false;
     TrackerService.r_error := Some message;
     TrackerService.r_requests := None |}.

(** The record of a detection that went through with the set [d] and
    the verbose list [reqs]. *)
Definition success_record (url : string) (o : TrackerService.options)
           (d : gset string) (reqs : list TrackerService.requestRecord)
  : TrackerService.detectResult :=
  {| TrackerService.r_url := Some url;
     TrackerService.detectedTrackers := Js.sort (elements d);
     TrackerService.r_trackerCount := Some (Z.of_nat (size d));
     TrackerService.r_success := true;
     TrackerService.r_error := None;
     TrackerService.r_requests :=
       if TrackerService.verbose o then Some reqs else None |}.

(** The response and outcome of a cache hit on [existing]. *)
Definition cache_hit (w : SiteController.world) (url : string)
           (existing : SiteController.site) : SiteController.outcome :=
  {| SiteController.res :=
       {| SiteController.status := 200;
          SiteController.json :=
            SiteController.Ok "Site data retrieved from cache" None
                              (SiteController.view_of existing) |};
     SiteController.after := w;
     SiteController.calls := [SiteController.FindOne url] |}.

End Reference.

(* ===================================================================== *)
(** * Concrete inputs                                                    *)
(* ===================================================================== *)

Module Inputs.

Import Gemini.

(** A URL parser that knows the site of the scenarios and two tracker
    end points. *)
Definition example_hostname (u : string) : option string :=
  if String.eqb u "https://example.com" then Some "example.com"
  else if String.eqb u "https://doubleclick.net/ddm/activity"
       then Some "doubleclick.net"
  else if String.eqb u "https://google-analytics.com/collect"
       then Some "google-analytics.com"
  else None.

Definition two_trackers : list string :=
  ["doubleclick.net"; "google-analytics.com"].

(** No API key is configured. *)
Definition no_key : aiScenario :=
  {| GEMINI_API_KEY := None; at_check := 0; at_store := 0;
     reply := Raises "unreachable" |}.

(** A key is configured and the request to the generator fails. *)
Definition call_fails : aiScenario :=
  {| GEMINI_API_KEY := Some "key"; at_check := 0; at_store := 0;
     reply := Raises "fetch failed" |}.

Definition summary_with (risks shareWith : list string) : aiResult :=
  {| success := true; note := None;
     summary_of :=
       {| base := {| whatTheyCollect := []; whoTheyShareWith := shareWith;
                     howLongTheyKeep := "Varies by service";
                     keyRisks := risks; trackerBreakdown := [] |};
          popupSummary := None; fullSummary := None |};
     trackerCount := Some 0; trackerDetails := Some [];
     rawResponse := None |}.

(** Two entries that name the same company. *)
Definition google_twice : SiteController.scoreInput :=
  {| SiteController.url := "http://example.com";
     SiteController.simplifiedPolicy := None;
     SiteController.trackers := [];
     SiteController.aiSummary :=
       Some (summary_with [] ["Google Ads"; "Google Analytics"]) |}.

(** More than fifteen trackers, no TLS, every negative keyword. *)
Definition worst_case : SiteController.scoreInput :=
  {| SiteController.url := "http://example.com";
     SiteController.simplifiedPolicy :=
       Some "We sell data and share data with third party advertisers, partners and affiliates for marketing, indefinitely.";
     SiteController.trackers := repeat "t.example" 16;
     SiteController.aiSummary := None |}.

(** No tracker left unblocked, TLS, every positive keyword, a
    successful summary with no risk. *)
Definition best_case : Scoring.initialSiteData :=
  {| Scoring.url := "https://example.com";
     Scoring.simplifiedPolicy :=
       Some "Encrypted, no data sharing, GDPR, privacy focused, user control, opt-out, delete data, minimal collection.";
     Scoring.aiSummary := Some (summary_with [] []) |}.

Definition quiet_step : TrackerService.step :=
  {| TrackerService.seen := []; TrackerService.failure := None |}.

Definition timeout_error : TrackerService.jsError :=
  {| TrackerService.err_name := "TimeoutError";
     TrackerService.err_message := "Timed out after 30000 ms" |}.

Definition network_error : TrackerService.jsError :=
  {| TrackerService.err_name := "Error";
     TrackerService.err_message := "net::ERR_NAME_NOT_RESOLVED" |}.

Definition get (u : string) : TrackerService.request :=
  {| TrackerService.req_url := u; TrackerService.req_type := "script";
     TrackerService.req_method := "GET" |}.

(** The page asks for both trackers (one of them twice) and for a
    first-party resource, then navigation times out. *)
Definition navigation_times_out : TrackerService.browserScenario :=
  {| TrackerService.launch := None;
     TrackerService.setup := None;
     TrackerService.navigation :=
       {| TrackerService.seen :=
            [ get "https://google-analytics.com/collect";
              get "https://example.com";
              get "https://doubleclick.net/ddm/activity";
              get "https://google-analytics.com/collect" ];
          TrackerService.failure := Some timeout_error |};
     TrackerService.interaction := [];
     TrackerService.settle := quiet_step |}.

(** The browser does not come up within its launch time-out. *)
Definition launch_times_out : TrackerService.browserScenario :=
  {| TrackerService.launch := Some timeout_error;
     TrackerService.setup := None;
     TrackerService.navigation := quiet_step;
     TrackerService.interaction := [];
     TrackerService.settle := quiet_step |}.

(** Navigation fails with an error that is not a time-out. *)
Definition navigation_fails : TrackerService.browserScenario :=
  {| TrackerService.launch := None;
     TrackerService.setup := None;
     TrackerService.navigation :=
       {| TrackerService.seen := [];
          TrackerService.failure := Some network_error |};
     TrackerService.interaction := [];
     TrackerService.settle := quiet_step |}.

Definition quiet_browser : TrackerService.browserScenario :=
  {| TrackerService.launch := None;
     TrackerService.setup := None;
     TrackerService.navigation := quiet_step;
     TrackerService.interaction := [];
     TrackerService.settle := quiet_step |}.

Definition hour : Z := 60 * 60 * 1000.

(** A stored document of age zero at time [0]. *)
Definition stored (ok : bool) : SiteController.site :=
  {| SiteController.s_url := "https://example.com";
     SiteController.s_simplifiedPolicy := None;
     SiteController.s_score := 45;
     SiteController.s_grade := "D";
     SiteController.s_category := "Poor";
     SiteController.s_trackers := two_trackers;
     SiteController.s_aiSummary :=
       Some (if ok then summary_with [] [] else fallbackResponse);
     SiteController.s_lastAnalyzed := Some 0 |}.

Definition world_with (s : SiteController.site) : SiteController.world :=
  {| SiteController.sites := {[ "https://example.com" := s ]};
     SiteController.aiCache := ∅ |}.

(** A request that arrives [age] milliseconds after time [0]. *)
Definition at_age (age : Z) : SiteController.scenario :=
  {| SiteController.connected_at_check := true;
     SiteController.connected_at_save := true;
     SiteController.now := age;
     SiteController.saved_at := age;
     SiteController.find_error := None;
     SiteController.upsert_error := None;
     SiteController.crawl := quiet_browser;
     SiteController.ai := no_key |}.

(** A first visit: nothing stored, the crawl of [navigation_times_out],
    and the summarizer in the state [a]. *)
Definition first_visit (a : aiScenario) : SiteController.scenario :=
  {| SiteController.connected_at_check := true;
     SiteController.connected_at_save := true;
     SiteController.now := 0;
     SiteController.saved_at := 5000;
     SiteController.find_error := None;
     SiteController.upsert_error := None;
     SiteController.crawl := navigation_times_out;
     SiteController.ai := a |}.

Definition empty_world : SiteController.world :=
  {| SiteController.sites := ∅; SiteController.aiCache := ∅ |}.

Definition request (force : bool) : SiteController.analysisRequest :=
  {| SiteController.req_url := "https://example.com";
     SiteController.req_simplifiedPolicy := None;
     SiteController.forceRefresh := force |}.

End Inputs.

(* ===================================================================== *)
(** * Shapes of strings and of piece lists, for the truncation proofs   *)
(* ===================================================================== *)

Module Shape.

Import Truncate.

(** The scan state after reading [s] from state [st]. *)
Fixpoint final_scan (st : scan) (s : string) : scan :=
  match s with
  | EmptyString => st
  | String c r =>
      match st, is_space c with
      | AfterTerm, true => final_scan InSep r
      | InSep, true => final_scan InSep r
      | _, _ => final_scan (after c) r
      end
  end.

(** The pieces of [a +:+ b] out of those of [a] and of [b]: the last
    piece of the first list goes on as the first piece of the second. *)
Fixpoint glue (xs ys : list string) : list string :=
  match xs with
  | [] => ys
  | [p] => match ys with
           | [] => [p]
           | q :: qs => (p +:+ q) :: qs
           end
  | x :: xs' => x :: glue xs' ys
  end.

(** Non-empty and not starting with white space. *)
Definition starts_solid (s : string) : bool :=
  match s with
  | EmptyString => false
  | String c _ => negb (is_space c)
  end.

(** Non-empty and not ending with white space. *)
Fixpoint ends_solid (s : string) : bool :=
  match s with
  | EmptyString => false
  | String c EmptyString => negb (is_space c)
  | String _ r => ends_solid r
  end.

(** A piece that [trim] and the sentence split leave alone. *)
Definition Sentence (p : string) : Prop :=
  starts_solid p = true /\ ends_solid p = true /\
  split_from Plain p = [p].

(** A sentence that ends with a terminator. *)
Definition Closed (p : string) : Prop :=
  Sentence p /\ final_scan Plain p = AfterTerm.

(** A non-empty list of sentences of which all but the last are
    closed. *)
Inductive Chain : list string -> Prop :=
| chain_one p : Sentence p -> Chain [p]
| chain_cons p q tl : Closed p -> Chain (q :: tl) -> Chain (p :: q :: tl).

(** What the split, started in state [st], says of its first piece. *)
Definition Head (st : scan) (h : string) : Prop :=
  split_from st h = [h] /\
  (st = InSep -> h = EmptyString \/ starts_solid h = true).

(** What it says of all its pieces. *)
Fixpoint Pieces (st : scan) (l : list string) : Prop :=
  match l with
  | [] => False
  | [h] => Head st h
  | h :: tl => Head st h /\ final_scan st h = AfterTerm /\ Pieces InSep tl
  end.

(** The code unit [c], read in state [st], goes into the piece. *)
Definition regular (st : scan) (c : ascii) : bool :=
  match st, is_space c with
  | AfterTerm, true | InSep, true => false
  | _, _ => true
  end.

End Shape.

(* ===================================================================== *)
(** * Further reference definitions                                      *)
(* ===================================================================== *)

Module Memo.

Import Gemini.

(** The memoization key of a call: [`${url}_${trackers.sort().join(',')}`]. *)
Definition cacheKey (url : string) (trackers : list string) : string :=
  url +:+ "_" +:+ Js.join "," (Js.sort trackers).

(** No entry under the key of the call is still valid at the cache check. *)
Definition miss (sc : aiScenario) (url : string) (trackers : list string)
           (cache : gmap string cacheEntry) : Prop :=
  forall e, cache !! cacheKey url trackers = Some e ->
            CACHE_EXPIRY <= at_check sc - timestamp e.

(** The lengths of the five fields are within the given caps. *)
Definition within (collect share risks breakdown : nat) (f : fields) : Prop :=
  (length (whatTheyCollect f) <= collect)%nat /\
  (length (whoTheyShareWith f) <= share)%nat /\
  (length (keyRisks f) <= risks)%nat /\
  (length (trackerBreakdown f) <= breakdown)%nat.

(** All the literals of the classifier: those of the rule table and the
    generic keywords. *)
Definition classifier_literals : list string :=
  flat_map Classifier.re Classifier.rules ++ Classifier.generic_keywords.

(** The entries of the crawler's domain list in which no literal of the
    classifier occurs. *)
Definition unclassified_tracker_domains : list string :=
  List.filter
    (fun d => negb (existsb (Js.includes d) classifier_literals))
    TrackerService.TRACKER_DOMAINS.

End Memo.

Module TruncateMore.

Import Truncate.

(** Sum of the lengths of the pieces, plus one per separator. *)
Fixpoint weight (l : list string) : nat :=
  match l with
  | [] => 0
  | [p] => String.length p
  | p :: tl => String.length p + 1 + weight tl
  end.




End TruncateMore.

Module ScoreMore.

(** Points of the tracker factor, server side and client side. *)
Definition server_tier (n : Z) : Z :=
  if n =? 0 then 40 else if n <=? 2 then 35 else if n <=? 5 then 25
  else if n <=? 10 then 15 else if n <=? 15 then 5 else 0.

Definition client_tier (n : Z) : Z :=
  if n =? 0 then 70 else if n <=? 2 then 60 else if n <=? 5 then 45
  else if n <=? 10 then 30 else if n <=? 15 then 15 else 0.

(** The URL and policy factors alone, server side. *)
Definition server_pre (u : string) (p : option string) : Z :=
  let lowerPolicy := SiteController.lowerPolicy_of p in
  fold_left (fun score word =>
               if Js.includes lowerPolicy word then score - 3 else score)
    SiteController.negativeKeywords
    (fold_left (fun score word =>
                  if Js.includes lowerPolicy word then score + 4 else score)
       SiteController.positiveKeywords
       (if Js.startsWith u "https://" then 10 else 0)).

(** The summary factor alone, server side. *)
Definition server_ai_part (a : option Gemini.aiResult) : Z :=
  match a with
  | Some ai =>
      if Gemini.success ai then
        Reference.riskBonus
          (Gemini.keyRisks (Gemini.base (Gemini.summary_of ai)))
        - SiteController.penalty
            (Gemini.whoTheyShareWith (Gemini.base (Gemini.summary_of ai)))
      else 0
  | None => 0
  end.

(** The URL and policy factors alone, client side. *)
Definition client_pre (u : string) (p : option string) : Z :=
  let lowerPolicy := SiteController.lowerPolicy_of p in
  fold_left (fun score word =>
               if Js.includes lowerPolicy word then score - 2 else score)
    Scoring.negativeKeywords
    (fold_left (fun score word =>
                  if Js.includes lowerPolicy word then score + 3 else score)
       Scoring.positiveKeywords
       (if Js.startsWith u "https://" then 10 else 0)).

(** The summary factor alone, client side. *)
Definition client_ai_part (a : option Gemini.aiResult) : Z :=
  match a with
  | Some ai =>
      if Gemini.success ai then
        let risks := Gemini.keyRisks (Gemini.base (Gemini.summary_of ai)) in
        (if Js.len risks <=? 2 then 12
         else if Js.len risks <=? 4 then 8 else 4)
        - Z.min (Scoring.highRiskCount
                   (Gemini.whoTheyShareWith
                      (Gemini.base (Gemini.summary_of ai))) * 2) 10
      else 0
  | None => 0
  end.

(** The adjective of the user-facing sentence for a category. *)
Definition adjective (category : string) : string :=
  if String.eqb category "Excellent" then "excellent"
  else if String.eqb category "Good" then "good"
  else if String.eqb category "Moderate" then "moderate"
  else if String.eqb category "Poor" then "poor"
  else "very poor".

End ScoreMore.

Module Store.

Import SiteController.

(** A stored record whose derived fields agree with its score and whose
    tracker list is in order and free of duplicates. *)
Definition consistent (s : site) : Prop :=
  0 <= s_score s <= 100 /\
  s_grade s = getGradeFromScore (s_score s) /\
  s_category s = getCategory (s_score s) /\
  Sorted String.le (s_trackers s) /\ NoDup (s_trackers s).

(** The time a stored record stays valid. *)
Definition ttl (a : option Gemini.aiResult) : Z :=
  if ai_succeeded a then successfulCacheDuration else failedCacheDuration.

End Store.

Module Crawl.

Import Gemini TrackerService.

(** The record the [catch] of the batch loop pushes. *)
Definition batch_failure (url message : string) : detectResult :=
  {| r_url := Some url; detectedTrackers := []; r_trackerCount := None;
     r_success := false; r_error := Some message; r_requests := None |}.

Section WithUrlParser.

Variable url_hostname : string -> option string.

(** The domain under which the [request] handler files a request, if it
    files it at all. *)
Definition kept (o : options) (mainDomain : string) (r : request)
  : option string :=
  match extractDomain url_hostname (req_url r) with
  | Some requestDomain =>
      if Truncate.truthy requestDomain
         && isTracker (req_url r) requestDomain mainDomain
                      (includeFirstParty o)
      then Some requestDomain else None
  | None => None
  end.

Definition record_of (o : options) (mainDomain : string) (r : request)
  : option requestRecord :=
  match kept o mainDomain r with
  | Some requestDomain =>
      Some {| rr_domain := requestDomain; rr_url := req_url r;
              rr_type := req_type r; rr_method := req_method r |}
  | None => None
  end.

(** What one turn of the batch loop pushes. *)
Definition visit_record (o : options) (visit : string * browserScenario)
  : detectResult :=
  match fst (detectTrackers url_hostname (snd visit) (fst visit) o) with
  | Returned result => result
  | Thrown message => batch_failure (fst visit) message
  end.

(** backend/utility/trackerService.js, [detectTrackersForMultipleUrls]:
    the URLs are visited in order, each with what its own browser
    session does; a call that throws leaves a failure record and the
    loop goes on.  The second component is the log of the sessions. *)
Definition detectTrackersForMultipleUrls
           (urls : list (string * browserScenario)) (o : options)
  : list detectResult * list browserEvent :=
  fold_left
    (fun acc visit =>
       match detectTrackers url_hostname (snd visit) (fst visit) o with
       | (Returned result, log) => (fst acc ++ [result], snd acc ++ log)
       | (Thrown message, log) =>
           (fst acc ++ [batch_failure (fst visit) message], snd acc ++ log)
       end)
    urls ([], []).

End WithUrlParser.

End Crawl.

Module MoreInputs.

Import Gemini SiteController.

(** A first visit during which navigation fails. *)
Definition crawl_fails : scenario :=
  {| connected_at_check := true; connected_at_save := true;
     now := 0; saved_at := 5000; find_error := None; upsert_error := None;
     crawl := Inputs.navigation_fails; ai := Inputs.no_key |}.

(** A first visit during which the connection to the store is lost. *)
Definition store_lost : scenario :=
  {| connected_at_check := true; connected_at_save := false;
     now := 0; saved_at := 5000; find_error := None; upsert_error := None;
     crawl := Inputs.navigation_times_out; ai := Inputs.no_key |}.

(** A first visit during which the upsert is rejected. *)
Definition upsert_throws : scenario :=
  {| connected_at_check := true; connected_at_save := true;
     now := 0; saved_at := 5000; find_error := None;
     upsert_error := Some "E11000 duplicate key error";
     crawl := Inputs.navigation_times_out; ai := Inputs.no_key |}.

(** Every request is observed, with the verbose list kept. *)
Definition verbose_options : TrackerService.options :=
  {| TrackerService.timeout := 30000;
     TrackerService.waitForInteractions := true;
     TrackerService.includeFirstParty := false;
     TrackerService.verbose := true |}.

End MoreInputs.

(* ===================================================================== *)
(** * frontend: the popup's view of an analysis                          *)
(* ===================================================================== *)

Module Client.

Import Classifier Gemini.

(** [/[a-zA-Z0-9]/] on one code unit. *)
Definition is_alnum (c : ascii) : bool :=
  let n := nat_of_ascii c in
  ((48 <=? n) && (n <=? 57) || (65 <=? n) && (n <=? 90)
   || (97 <=? n) && (n <=? 122))%nat.

(** [s.replace(/[^a-zA-Z0-9]/g, '')] *)
Fixpoint strip_non_alnum (s : string) : string :=
  match s with
  | EmptyString => EmptyString
  | String c r =>
      if is_alnum c then String c (strip_non_alnum r) else strip_non_alnum r
  end.

(** [tracker.category || 'Unknown'] *)
Definition category_or_unknown (tracker : trackerDetail) : string :=
  if Truncate.truthy (d_category tracker) then d_category tracker
  else "Unknown".

Definition settingKey (category : string) : string :=
  "block" +:+ strip_non_alnum category +:+ "Trackers".

(** The settings object: a property that is absent reads [undefined]. *)
Definition setting_on (trackerSettings : gmap string bool) (key : string)
  : bool :=
  match trackerSettings !! key with Some b => b | None => false end.

(** [getDefaultSettings] of the settings store: the switches a user has. *)
Definition getDefaultSettings : list (string * bool) :=
  [ ("blockNotifications", false); ("blockCookies", false);
    ("blockAdvertisingTrackers", false); ("blockAnalyticsTrackers", false);
    ("blockSocialTrackers", false); ("blockCDNUtilityTrackers", false);
    ("blockTagManagerTrackers", false); ("blockUnknownTrackers", false) ].

(** [aiSummary?.trackerDetails || []] *)
Definition details_of (aiSummary : option aiResult) : list trackerDetail :=
  match aiSummary with
  | Some ai => match trackerDetails ai with Some l => l | None => [] end
  | None => []
  end.

(** The site object the popup holds: what the scoring function reads of
    it, and the score and grade the server sent. *)
Record siteData := {
  initial : Scoring.initialSiteData;
  score : Z;
  grade : string
}.

(** The counting loop of [recalculateScoreAndGrade]. *)
Definition unblocked (trackerSettings : gmap string bool)
           (details : list trackerDetail) : Z :=
  fold_left
    (fun unblockedTrackersCount tracker =>
       let category := category_or_unknown tracker in
       if negb (setting_on trackerSettings (settingKey category))
       then unblockedTrackersCount + 1 else unblockedTrackersCount)
    details 0.

(** frontend/src/utils/scoring.js, [recalculateScoreAndGrade] *)
Definition recalculateScoreAndGrade (initialSiteData : siteData)
           (trackerSettings : gmap string bool) : Z * string :=
  let trackerDetails :=
    details_of (Scoring.aiSummary (initial initialSiteData)) in
  if Js.len trackerDetails =? 0 then
    (score initialSiteData, grade initialSiteData)
  else
    let unblockedTrackersCount := unblocked trackerSettings trackerDetails in
    let newScore :=
      Scoring.calculateDynamicPrivacyScore (initial initialSiteData)
                                           unblockedTrackersCount in
    (newScore, Scoring.getGradeFromScore newScore).

(** The property names a plain object inherits from [Object.prototype]:
    read on the counter object they do not give [undefined]. *)
Definition inherited : list string :=
  [ "constructor"; "hasOwnProperty"; "isPrototypeOf"; "propertyIsEnumerable";
    "toLocaleString"; "toString"; "valueOf"; "__proto__";
    "__defineGetter__"; "__defineSetter__"; "__lookupGetter__";
    "__lookupSetter__" ].

(** No detail is filed under an inherited name (the names the server
    sends are those of [TRACKER_CATEGORIES]). *)
Definition plain (details : list trackerDetail) : Prop :=
  Forall (fun d => ~ In (category_or_unknown d) inherited) details.

(** frontend/src/App.jsx, [categorizeTrackers]: the counter object, for
    [plain] details. *)
Definition count_detail (categories : gmap string Z) (detail : trackerDetail)
  : gmap string Z :=
  let category := category_or_unknown detail in
  let categories :=
    match categories !! category with
    | Some n => if n =? 0 then <[category := 0]> categories else categories
    | None => <[category := 0]> categories
    end in
  <[category := default 0 (categories !! category) + 1]> categories.

Definition categorizeTrackers (trackerDetails : option (list trackerDetail))
  : gmap string Z :=
  fold_left count_detail
            (match trackerDetails with Some l => l | None => [] end) ∅.

(** The number of details filed under [category]. *)
Definition filed_under (category : string) (details : list trackerDetail)
  : Z :=
  Js.len (List.filter
            (fun d => String.eqb (category_or_unknown d) category) details).

(** [settings'] blocks whatever [settings] blocks. *)
Definition blocks_more (settings settings' : gmap string bool) : Prop :=
  forall key, setting_on settings key = true ->
              setting_on settings' key = true.

(** frontend/src/pages/PopupView.jsx, [setAllCategoryBlocking]: the new
    value of [trackerSettings], for the categories shown. *)
Definition setAllCategoryBlocking (enabled : bool)
           (trackerCategories : list string) (prev : gmap string bool)
  : gmap string bool :=
  fold_left (fun updated category => <[settingKey category := enabled]> updated)
            trackerCategories prev.

(** [cats] enumerates the keys of the counter object, in any order. *)
Definition keys_of (counters : gmap string Z) (cats : list string) : Prop :=
  forall c, In c cats <-> is_Some (counters !! c).

(** The site of the scenarios as the popup holds it after an analysis
    whose summary could not be generated. *)
Definition example_site : siteData :=
  {| initial :=
       {| Scoring.url := "https://example.com";
          Scoring.simplifiedPolicy := None;
          Scoring.aiSummary :=
            Some {| success := false;
                    note := Some "AI analysis failed: fetch failed";
                    summary_of := summary_of fallbackResponse;
                    trackerCount := None;
                    trackerDetails :=
                      Some (buildTrackerDetails Inputs.two_trackers);
                    rawResponse := None |} |};
     score := 45;
     grade := "D" |}.

End Client.

(* ===================================================================== *)
(** * The controller's read end points                                   *)
(* ===================================================================== *)

Module Endpoints.

Import Classifier Gemini SiteController.

(** [s.endsWith(t)] *)
Fixpoint endsWith (s t : string) : bool :=
  if String.eqb s t then true
  else match s with
       | EmptyString => false
       | String _ r => endsWith r t
       end.

(** [s.split(".")] *)
Fixpoint split_dots (s : string) : list string :=
  match s with
  | EmptyString => [EmptyString]
  | String c r =>
      if Ascii.eqb c "." then EmptyString :: split_dots r
      else match split_dots r with
           | p :: ps => String c p :: ps
           | [] => [String c EmptyString]
           end
  end.

(** [arr.slice(-2)] *)
Definition last_two {A} (l : list A) : list A :=
  skipn (length l - 2) l.

Definition getRootDomain (hostname : string) : string :=
  let parts :=
    List.filter Truncate.truthy (split_dots (Js.toLowerCase hostname)) in
  if Js.len parts <=? 2 then Js.join "." parts
  else Js.join "." (last_two parts).

(** The table of [classifyTrackerDomain]. *)
Definition checks : list rule :=
  [ mk ["doubleclick"; "googlesyndication"; "googleadservices";
        "ads.google"; "adservice.google"]
       "Google Ads" "Advertising" "Google";
    mk ["googletagmanager"; "gtm"] "Google Tag Manager" "Tag Manager" "Google";
    mk ["google-analytics"; "analytics.google"]
       "Google Analytics" "Analytics" "Google";
    mk ["gstatic"; "googleapis"] "Google Static/Services" "CDN/Utility" "Google";
    mk [".google."] "Google Services" "CDN/Utility" "Google";
    mk ["facebook"; "fbcdn"; "fbevents"; "connect.facebook.net"]
       "Meta Pixel" "Advertising" "Meta";
    mk ["instagram.com"] "Instagram" "Social" "Meta";
    mk ["linkedin"; "licdn"; "bat.bing.com"; "bingads"]
       "Microsoft Ads/LinkedIn" "Advertising" "Microsoft";
    mk ["twitter"; "tiktok"; "snapchat"; "pinterest"]
       "Social Network" "Social" "Various";
    mk ["adnxs"; "appnexus"; "rubiconproject"; "pubmatic"; "criteo";
        "taboola"; "outbrain"; "openx"; "adroll"]
       "Ad Network" "Advertising" "Various";
    mk ["mixpanel"; "segment"; "amplitude"; "hotjar"; "fullstory";
        "logrocket"; "optimizely"; "mouseflow"; "chartbeat"; "clicktale";
        "mathtag"; "doubleverify"]
       "Analytics/Optimization" "Analytics" "Various";
    mk ["scorecardresearch"; "quantserve"; "comscore"; "demdex"; "adsrvr";
        "eyeota"; "bluekai"]
       "Data Broker" "Advertising" "Various";
    mk ["amazon-adsystem.com"] "Amazon Advertising" "Advertising" "Amazon";
    mk ["bouncex.net"; "wunderkind.co"]
       "Wunderkind (BounceX)" "Advertising" "Wunderkind";
    mk ["onetag.com"; "s-onetag.com"] "OneTag" "Advertising" "OneTag";
    mk ["turner.com"] "Turner CDN" "CDN/Utility"
       "Warner Bros. Discovery (Turner)";
    mk ["collector.github.com"] "GitHub Telemetry" "Analytics" "GitHub";
    mk ["cloudflareinsights.com"]
       "Cloudflare Web Analytics" "Analytics" "Cloudflare";
    mk ["dubcdn.com"] "Dub CDN" "CDN/Utility" "Dub" ].

Definition classifyTrackerDomain (siteRoot domain : string)
  : classification :=
  let lower := Js.toLowerCase domain in
  if endsWith lower siteRoot then
    {| name := domain; category := "First-Party/Analytics";
       company := "First-Party" |}
  else
    match first_match checks lower with
    | Some r =>
        {| name := r_name r; category := r_category r;
           company := r_company r |}
    | None =>
        if Js.test generic_keywords lower
        then {| name := "Tracker"; category := "Analytics";
                company := "Unknown" |}
        else {| name := domain; category := "Unknown";
                company := "Unknown" |}
    end.

Inductive node :=
| SiteNode (id label : string) (score : Z) (category : string)
| TrackerNode (id label category company : string).

Record link := { source : string; target : string; l_type : string }.

(** [site.aiSummary.trackerDetails.find(t => t.domain === tracker)] *)
Definition find_detail (aiSummary : option aiResult) (tracker : string)
  : option trackerDetail :=
  match aiSummary with
  | Some ai =>
      match trackerDetails ai with
      | Some details =>
          List.find (fun t => String.eqb (d_domain t) tracker) details
      | None => None
      end
  | None => None
  end.

(** [trackerInfo] at the end of one turn of the loop; a [company] that
    is absent is the empty string, which is falsy as well. *)
Definition trackerInfo (siteRoot : string) (aiSummary : option aiResult)
           (tracker : string) : classification :=
  let info :=
    match find_detail aiSummary tracker with
    | Some detail =>
        {| name := d_name detail; category := d_category detail;
           company := d_company detail |}
    | None => {| name := tracker; category := "Unknown"; company := "" |}
    end in
  if String.eqb (category info) "Unknown" || negb (Truncate.truthy (company info))
  then
    let fallback := classifyTrackerDomain siteRoot tracker in
    {| name :=
         if Truncate.truthy (name info) && negb (String.eqb (name info) tracker)
         then name info else name fallback;
       category :=
         if String.eqb (category info) "Unknown" then category fallback
         else category info;
       company :=
         if Truncate.truthy (company info) then company info
         else company fallback |}
  else info.

Definition tracker_node (siteRoot : string) (aiSummary : option aiResult)
           (tracker : string) : node :=
  let info := trackerInfo siteRoot aiSummary tracker in
  TrackerNode tracker (name info) (category info)
              (if Truncate.truthy (company info) then company info
               else "Unknown").

Definition tracker_link (siteRoot : string) (s : site) (tracker : string)
  : link :=
  {| source := s_url s; target := tracker;
     l_type := category (trackerInfo siteRoot (s_aiSummary s) tracker) |}.

Inductive payload :=
| SiteFound (s : site) (summary : string)
| SummaryFound (url : string) (aiSummary : aiResult)
               (lastAnalyzed : option Z) (trackerCount : Z)
| Graph (nodes : list node) (links : list link)
        (aiSummary : option aiResult) (userSummary : string)
| ErrorBody (error : string)
| MessageBody (message : string).

Record answer := { a_status : Z; a_json : payload }.

(** What a read request meets: the connection state and whether
    [findOne] throws. *)
Record readScenario := {
  connected : bool;
  find_failure : option string
}.

Definition refuse (code : Z) (error : string) : answer :=
  {| a_status := code; a_json := ErrorBody error |}.

(** [!url] on the query parameter *)
Definition present (url : option string) : option string :=
  match url with
  | Some u => if Truncate.truthy u then Some u else None
  | None => None
  end.

Section WithUrlParser.

Variable url_hostname : string -> option string.

(** [getSite], for a request that carries the [url] parameter. *)
Definition getSite (env : readScenario) (store : gmap string site)
           (url : string) : answer :=
  if negb (connected env) then refuse 503 "Database not available"
  else match find_failure env with
       | Some m => refuse 500 m
       | None =>
           match store !! url with
           | None => {| a_status := 404;
                        a_json := MessageBody "Site not found" |}
           | Some s =>
               {| a_status := 200;
                  a_json := SiteFound s (generateUserFriendlySummary s) |}
           end
       end.

Definition getAIPrivacySummary (env : readScenario)
           (store : gmap string site) (url : option string) : answer :=
  match present url with
  | None => refuse 400 "Missing url query parameter"
  | Some url =>
      if negb (connected env) then refuse 503 "Database not available"
      else match find_failure env with
           | Some _ => refuse 500 "Internal server error"
           | None =>
               match store !! url with
               | None => refuse 404 "Site not found"
               | Some s =>
                   match s_aiSummary s with
                   | None =>
                       refuse 404 "AI summary not available for this site"
                   | Some a =>
                       {| a_status := 200;
                          a_json := SummaryFound (s_url s) a
                                      (s_lastAnalyzed s)
                                      (Js.len (s_trackers s)) |}
                   end
               end
           end
  end.

Definition getNetworkGraph (env : readScenario) (store : gmap string site)
           (url : option string) : answer :=
  match present url with
  | None => refuse 400 "Missing url query parameter"
  | Some url =>
      if negb (connected env) then refuse 503 "Database not available"
      else match find_failure env with
           | Some _ => refuse 500 "Internal server error"
           | None =>
               match store !! url with
               | None => refuse 404 "Site not found"
               | Some s =>
                   match url_hostname (s_url s) with
                   | None => refuse 500 "Internal server error"
                   | Some hostname =>
                       let siteRoot := getRootDomain hostname in
                       let nodes :=
                         SiteNode (s_url s) hostname (s_score s)
                                  (s_category s)
                         :: map (tracker_node siteRoot (s_aiSummary s))
                                (s_trackers s) in
                       let links :=
                         map (tracker_link siteRoot s) (s_trackers s) in
                       {| a_status := 200;
                          a_json := Graph nodes links (s_aiSummary s)
                                      (generateUserFriendlySummary s) |}
                   end
               end
           end
  end.

End WithUrlParser.

(** The store is up and answers. *)
Definition store_up : readScenario :=
  {| connected := true; find_failure := None |}.

End Endpoints.

(* ===================================================================== *)
(** * frontend/src/utils/cacheManager.js                                 *)
(* ===================================================================== *)

Module CacheManager.

Definition cacheExpiry : Z := 24 * 60 * 60 * 1000.
Definition maxCacheSize : Z := 100.

Section WithData.

(** What is cached, and the platform's URL parser. *)
Variable A : Type.
Variable url_hostname : string -> option string.

Record entry := { c_data : A; c_timestamp : Z }.

(** A [Map] with string keys: its entries in insertion order, no key
    twice. *)
Definition jsMap := list (string * entry).

Fixpoint map_get (key : string) (m : jsMap) : option entry :=
  match m with
  | [] => None
  | (k, v) :: r => if String.eqb k key then Some v else map_get key r
  end.

Fixpoint map_delete (key : string) (m : jsMap) : jsMap :=
  match m with
  | [] => []
  | (k, v) :: r =>
      if String.eqb k key then map_delete key r else (k, v) :: map_delete key r
  end.

(** [m.set(key, v)]: a key that is present keeps its place. *)
Fixpoint map_set (key : string) (v : entry) (m : jsMap) : jsMap :=
  match m with
  | [] => [(key, v)]
  | (k, w) :: r =>
      if String.eqb k key then (k, v) :: r else (k, w) :: map_set key v r
  end.

Definition getCacheKey (url : string) : string :=
  match url_hostname url with
  | Some hostname => hostname
  | None => url
  end.

(** [get(url)] at time [now]: the value returned and the map after. *)
Definition get (now : Z) (url : string) (cache : jsMap)
  : option A * jsMap :=
  let key := getCacheKey url in
  match map_get key cache with
  | None => (None, cache)
  | Some cached =>
      if now - c_timestamp cached >? cacheExpiry
      then (None, map_delete key cache)
      else (Some (c_data cached), cache)
  end.

(** [set(url, data)] at time [now]. *)
Definition set (now : Z) (url : string) (data : A) (cache : jsMap)
  : jsMap :=
  let key := getCacheKey url in
  let cache :=
    if Js.len cache >=? maxCacheSize then
      match cache with
      | (oldestKey, _) :: _ => map_delete oldestKey cache
      | [] => cache
      end
    else cache in
  map_set key {| c_data := data; c_timestamp := now |} cache.

(** The map is well formed and within its bound. *)
Definition bounded (cache : jsMap) : Prop :=
  NoDup (map fst cache) /\ Js.len cache <= maxCacheSize.

End WithData.

Arguments c_data {A} _.
Arguments c_timestamp {A} _.

(** A cache that is full: a hundred hosts, stored one millisecond
    apart, the first one first. *)
Definition full_cache : jsMap nat :=
  map (fun n => ("host" +:+ pretty n +:+ ".example",
                 {| c_data := n; c_timestamp := Z.of_nat n |}))
      (seq 0 100).

End CacheManager.

(* ===================================================================== *)
(** * Facts about the string primitives                                  *)
(* ===================================================================== *)

Section StringFacts.

Lemma append_cons (c : ascii) (s t : string) :
  String c s +:+ t = String c (s +:+ t).
Proof. reflexivity. Qed.

Lemma append_nil_l (t : string) : "" +:+ t = t.
Proof. reflexivity. Qed.

Lemma append_empty_r (s : string) : s +:+ "" = s.
Proof.
  induction s as [|c s IH]; [reflexivity |].
  now rewrite append_cons, IH.
Qed.

Lemma append_assoc (a b c : string) : (a +:+ b) +:+ c = a +:+ (b +:+ c).
Proof.
  induction a as [|x a IH]; [reflexivity |].
  now rewrite !append_cons, IH.
Qed.

Lemma prefix_append (t post : string) : String.prefix t (t +:+ post) = true.
Proof.
  induction t as [|c t IH]; [destruct post; reflexivity |].
  rewrite append_cons. simpl.
  destruct (ascii_dec c c); [exact IH | congruence].
Qed.

Lemma prefix_split (t s : string) :
  String.prefix t s = true -> exists post, s = t +:+ post.
Proof.
  revert s. induction t as [|c t IH]; intros s H.
  - exists s. reflexivity.
  - destruct s as [|d s]; simpl in H; [discriminate |].
    destruct (ascii_dec c d) as [->|]; [| discriminate].
    destruct (IH _ H) as [post ->]. exists post. reflexivity.
Qed.

Lemma includes_unfold (s t : string) :
  Js.includes s t =
  if String.prefix t s then true
  else match s with
       | EmptyString => false
       | String _ s' => Js.includes s' t
       end.
Proof. destruct s; reflexivity. Qed.

(** [includes] is substring search. *)
Lemma includes_spec (s t : string) :
  Js.includes s t = true <-> exists pre post, s = pre +:+ t +:+ post.
Proof.
  split.
  - induction s as [|c s IH]; rewrite includes_unfold;
      destruct (String.prefix t _) eqn:E.
    + intros _. destruct (prefix_split _ _ E) as [post Hp].
      exists "", post. exact Hp.
    + discriminate.
    + intros _. destruct (prefix_split _ _ E) as [post Hp].
      exists "", post. exact Hp.
    + intros H. destruct (IH H) as (pre & post & ->).
      exists (String c pre), post. reflexivity.
  - intros (pre & post & ->).
    induction pre as [|c pre IH]; rewrite includes_unfold.
    + rewrite append_nil_l, prefix_append. reflexivity.
    + rewrite append_cons.
      destruct (String.prefix t _); [reflexivity | exact IH].
Qed.

End StringFacts.

(* ===================================================================== *)
(** * The domain classifier                                              *)
(* ===================================================================== *)

Section ClassifierFacts.

Import Classifier.

Lemma first_match_in (rs : list rule) (d : string) (r : rule) :
  first_match rs d = Some r -> In r rs /\ Js.test (re r) d = true.
Proof.
  induction rs as [|r0 rs IH]; simpl; [discriminate |].
  destruct (Js.test (re r0) d) eqn:E.
  - intros [= <-]. split; [now left | exact E].
  - intros H. destruct (IH H). split; [now right | assumption].
Qed.

Lemma rules_categories :
  forallb (fun r => existsb (String.eqb (r_category r)) TRACKER_CATEGORIES)
          rules = true.
Proof. vm_compute. reflexivity. Qed.

Lemma classify_category_known (d : string) :
  In (category (classifyDomain d)) TRACKER_CATEGORIES.
Proof.
  unfold classifyDomain.
  destruct (first_match rules d) as [r|] eqn:E.
  - apply first_match_in in E as [Hin _].
    pose proof rules_categories as H.
    rewrite forallb_forall in H. specialize (H r Hin).
    apply existsb_exists in H as (c & Hc & Heq).
    apply String.eqb_eq in Heq. simpl. rewrite Heq. exact Hc.
  - destruct (Js.test generic_keywords d); simpl; tauto.
Qed.

(** C7. [classifyDomain] is a function on all strings: every call
    returns a triple (it reads nothing but its argument and has no
    failing step), the triple is the one of the first rule whose pattern
    occurs in the host name, or the generic tracker triple, or the host
    name itself with Unknown/Unknown, and its category is one of the six
    of the table.  Every host name containing "doubleclick" is
    Advertising / Google. *)
Theorem classifyDomain_total_doubleclick :
  (forall d : string,
      In (category (classifyDomain d)) TRACKER_CATEGORIES /\
      ((exists r, In r rules /\ Js.test (re r) d = true /\
                  classifyDomain d =
                    {| name := r_name r; category := r_category r;
                       company := r_company r |})
       \/ classifyDomain d =
            {| name := "Tracker"; category := "Analytics";
               company := "Unknown" |}
       \/ classifyDomain d =
            {| name := d; category := "Unknown"; company := "Unknown" |}))
  /\
  (forall pre post : string,
      let d := pre +:+ "doubleclick" +:+ post in
      category (classifyDomain d) = "Advertising" /\
      company (classifyDomain d) = "Google" /\
      name (classifyDomain d) = "Google Ads").
Proof.
  split.
  - intros d. split; [apply classify_category_known |].
    unfold classifyDomain.
    destruct (first_match rules d) as [r|] eqn:E.
    + left. exists r. apply first_match_in in E as [Hin Ht]. auto.
    + right. destruct (Js.test generic_keywords d); auto.
  - intros pre post d.
    assert (H : Js.includes d "doubleclick" = true)
      by (apply includes_spec; exists pre, post; reflexivity).
    unfold classifyDomain, rules. cbn [first_match mk re Js.test existsb].
    rewrite H. cbn. repeat split.
Qed.

End ClassifierFacts.

(* ===================================================================== *)
(** * Score and grade                                                    *)
(* ===================================================================== *)

Section ScoreFacts.

Import Gemini.

Import Reference.

Lemma server_score_clamp (i : SiteController.scoreInput) :
  SiteController.calculatePrivacyScore i = clamp (SiteController.rawScore i).
Proof.
  unfold SiteController.calculatePrivacyScore, clamp.
  destruct (Z.ltb_spec (SiteController.rawScore i) 0).
  - simpl. lia.
  - destruct (Z.gtb_spec (SiteController.rawScore i) 100); lia.
Qed.

Lemma client_score_clamp (d : Scoring.initialSiteData) (n : Z) :
  Scoring.calculateDynamicPrivacyScore d n = clamp (Scoring.rawScore d n).
Proof.
  unfold Scoring.calculateDynamicPrivacyScore, Scoring.Math_round, clamp.
  destruct (Z.ltb_spec (Scoring.rawScore d n) 0).
  - simpl. lia.
  - destruct (Z.gtb_spec (Scoring.rawScore d n) 100); lia.
Qed.

(** C9. Both scoring variants return a score in [0,100]: a raw total
    below 0 gives exactly 0, one above 100 gives exactly 100, and a raw
    total in range is returned as it is. *)
Theorem score_clamped :
  (forall i : SiteController.scoreInput,
      let raw := SiteController.rawScore i in
      let s := SiteController.calculatePrivacyScore i in
      0 <= s <= 100 /\ (raw < 0 -> s = 0) /\ (raw > 100 -> s = 100)
      /\ (0 <= raw <= 100 -> s = raw))
  /\
  (forall (d : Scoring.initialSiteData) (n : Z),
      let raw := Scoring.rawScore d n in
      let s := Scoring.calculateDynamicPrivacyScore d n in
      0 <= s <= 100 /\ (raw < 0 -> s = 0) /\ (raw > 100 -> s = 100)
      /\ (0 <= raw <= 100 -> s = raw)).
Proof.
  split.
  - intros i raw s. subst raw s. rewrite server_score_clamp.
    unfold clamp. lia.
  - intros d n raw s. subst raw s. rewrite client_score_clamp.
    unfold clamp. lia.
Qed.

End ScoreFacts.

Section ScoreWitnesses.

Import Gemini Reference.

Lemma score_clamped_witness :
  SiteController.rawScore Inputs.worst_case = -24 /\
  SiteController.calculatePrivacyScore Inputs.worst_case = 0 /\
  Scoring.rawScore Inputs.best_case 0 = 116 /\
  Scoring.calculateDynamicPrivacyScore Inputs.best_case 0 = 100.
Proof.
  assert (Hr : SiteController.rawScore Inputs.worst_case = -24)
    by (vm_compute; reflexivity).
  assert (Hc : Scoring.rawScore Inputs.best_case 0 = 116)
    by (vm_compute; reflexivity).
  destruct score_clamped as [Hs Hd].
  destruct (Hs Inputs.worst_case) as (_ & Hlow & _ & _).
  destruct (Hd Inputs.best_case 0) as (_ & _ & Hhigh & _).
  split; [exact Hr |]. split; [apply Hlow; rewrite Hr; lia |].
  split; [exact Hc |]. apply Hhigh. rewrite Hc. lia.
Defined.

Lemma penalty_bounds (l : list string) :
  0 <= SiteController.penalty l <= 15.
Proof.
  unfold SiteController.penalty, SiteController.highRiskCount, Js.len. lia.
Qed.

(** C5 (as amended). When the summary succeeded, the raw score is the
    score of the other factors plus the risk-count bonus minus a
    penalty of 3 points for every entry of [whoTheyShareWith] that
    contains one of Meta, Google, Amazon; the penalty is at most 15, and
    the returned score is that total clamped to [0,100]. *)
Theorem penalty_per_matching_entry
        (i : SiteController.scoreInput) (ai : aiResult) :
  SiteController.aiSummary i = Some ai ->
  success ai = true ->
  let shareWith := whoTheyShareWith (base (summary_of ai)) in
  let matching :=
    List.filter
      (fun company =>
         Js.includes company "Meta" || Js.includes company "Google"
         || Js.includes company "Amazon")
      shareWith in
  let p := Z.min (3 * Js.len matching) 15 in
  0 <= p <= 15 /\
  SiteController.rawScore i =
    SiteController.score_before_ai i
    + riskBonus (keyRisks (base (summary_of ai))) - p /\
  SiteController.calculatePrivacyScore i =
    clamp (SiteController.score_before_ai i
           + riskBonus (keyRisks (base (summary_of ai))) - p).
Proof.
  intros Hai Hok shareWith matching p.
  assert (Hp : p = SiteController.penalty shareWith).
  { subst p matching. unfold SiteController.penalty,
      SiteController.highRiskCount, SiteController.highRiskCompanies.
    rewrite Z.mul_comm. f_equal. f_equal. f_equal.
    apply filter_ext. intros c. simpl. now rewrite orb_false_r, orb_assoc. }
  assert (Hraw : SiteController.rawScore i =
                 SiteController.score_before_ai i
                 + riskBonus (keyRisks (base (summary_of ai))) - p).
  { unfold SiteController.rawScore. rewrite Hai, Hok, Hp. unfold riskBonus.
    fold shareWith.
    destruct (Js.len (keyRisks (base (summary_of ai))) <=? 2);
      [reflexivity |].
    destruct (Js.len (keyRisks (base (summary_of ai))) <=? 4); reflexivity. }
  split; [rewrite Hp; apply penalty_bounds |].
  split; [exact Hraw |].
  rewrite server_score_clamp, Hraw. reflexivity.
Qed.

Lemma penalty_per_matching_entry_witness :
  SiteController.rawScore Inputs.google_twice = 40 + 15 - 6 /\
  SiteController.calculatePrivacyScore Inputs.google_twice = 49.
Proof.
  destruct (penalty_per_matching_entry Inputs.google_twice
              (Inputs.summary_with [] ["Google Ads"; "Google Analytics"])
              eq_refl eq_refl) as (_ & Hraw & Hs).
  split; [rewrite Hraw | rewrite Hs]; vm_compute; reflexivity.
Defined.

(** C5 as stated fails: with two entries that both name Google the code
    subtracts 6, where 3 points per distinct company would subtract 3. *)
Lemma penalty_not_per_distinct_company :
  ~ (forall (i : SiteController.scoreInput) (ai : aiResult),
        SiteController.aiSummary i = Some ai ->
        success ai = true ->
        SiteController.rawScore i =
          SiteController.score_before_ai i
          + riskBonus (keyRisks (base (summary_of ai)))
          - penalty_per_distinct_company
              (whoTheyShareWith (base (summary_of ai)))).
Proof.
  intros H.
  specialize (H Inputs.google_twice
                (Inputs.summary_with [] ["Google Ads"; "Google Analytics"])
                eq_refl eq_refl).
  vm_compute in H. discriminate H.
Qed.

(** C6 (as amended). The server-side grade table is boundary-exact: it
    has thirteen buckets that do not overlap and cover every score, A+
    from 95 up, A for 90..94, A- for 85..89, B+ for 80..84, B for
    75..79, B- for 70..74, C+ for 65..69, C for 60..64, C- for 55..59,
    D+ for 50..54, D for 45..49, D- for 40..44 and F below 40.  In
    particular 95 is A+, 94 is A, 79 is B and every score below 40 is
    F. *)
Theorem grade_boundaries :
  SiteController.getGradeFromScore 95 = "A+" /\
  SiteController.getGradeFromScore 94 = "A" /\
  SiteController.getGradeFromScore 79 = "B" /\
  (forall s : Z, s < 40 -> SiteController.getGradeFromScore s = "F") /\
  (forall s : Z,
      In (SiteController.getGradeFromScore s)
         ["A+"; "A"; "A-"; "B+"; "B"; "B-"; "C+"; "C"; "C-";
          "D+"; "D"; "D-"; "F"]) /\
  (forall s : Z,
      (95 <= s -> SiteController.getGradeFromScore s = "A+") /\
      (90 <= s <= 94 -> SiteController.getGradeFromScore s = "A") /\
      (85 <= s <= 89 -> SiteController.getGradeFromScore s = "A-") /\
      (80 <= s <= 84 -> SiteController.getGradeFromScore s = "B+") /\
      (75 <= s <= 79 -> SiteController.getGradeFromScore s = "B") /\
      (70 <= s <= 74 -> SiteController.getGradeFromScore s = "B-") /\
      (65 <= s <= 69 -> SiteController.getGradeFromScore s = "C+") /\
      (60 <= s <= 64 -> SiteController.getGradeFromScore s = "C") /\
      (55 <= s <= 59 -> SiteController.getGradeFromScore s = "C-") /\
      (50 <= s <= 54 -> SiteController.getGradeFromScore s = "D+") /\
      (45 <= s <= 49 -> SiteController.getGradeFromScore s = "D") /\
      (40 <= s <= 44 -> SiteController.getGradeFromScore s = "D-") /\
      (s <= 39 -> SiteController.getGradeFromScore s = "F")).
Proof.
  split; [reflexivity |]. split; [reflexivity |]. split; [reflexivity |].
  split; [| split].
  - intros s Hs. unfold SiteController.getGradeFromScore.
    rewrite !Z.geb_leb.
    repeat match goal with
           | |- context [?a <=? ?b] => destruct (Z.leb_spec a b); [lia |]
           end.
    reflexivity.
  - intros s. unfold SiteController.getGradeFromScore.
    repeat match goal with
           | |- context [?a >=? ?b] => destruct (a >=? b); [simpl; tauto |]
           end.
    simpl. tauto.
  - intros s. unfold SiteController.getGradeFromScore.
    rewrite !Z.geb_leb.
    repeat match goal with
           | |- context [?a <=? ?b] => destruct (Z.leb_spec a b)
           end;
      repeat split; intros; first [reflexivity | lia].
Qed.

Lemma grade_boundaries_witness :
  SiteController.getGradeFromScore 39 = "F" /\
  SiteController.getGradeFromScore (-5) = "F" /\
  SiteController.getGradeFromScore 75 = "B" /\
  SiteController.getGradeFromScore 80 = "B+" /\
  SiteController.getGradeFromScore 74 = "B-" /\
  SiteController.getGradeFromScore 40 = "D-".
Proof.
  destruct grade_boundaries as (_ & _ & _ & H & _ & T).
  split; [apply H; lia |]. split; [apply H; lia |].
  split; [apply (T 75); lia |]. split; [apply (T 80); lia |].
  split; [apply (T 74); lia | apply (T 40); lia].
Defined.

(** C6 as stated fails at 79: the grade is B, not C, in the server
    table, and C+ in the client table. *)
Lemma grade_79_is_not_C :
  SiteController.getGradeFromScore 79 <> "C" /\
  Scoring.getGradeFromScore 79 <> "C".
Proof. split; vm_compute; discriminate. Qed.

End ScoreWitnesses.

(* ===================================================================== *)
(** * The summary synthesizer                                            *)
(* ===================================================================== *)

Section SummarizerFacts.

Import Gemini.

Variable url_hostname : string -> option string.

(** Whatever path a call takes, the caller's array ends up sorted. *)
Lemma summarizer_array (sc : aiScenario) (trackers : list string)
      (url : string) (cache : gmap string cacheEntry) :
  trackers_arr (snd (generateAIPrivacySummary url_hostname sc trackers url cache))
  = Js.sort trackers.
Proof.
  unfold generateAIPrivacySummary.
  repeat match goal with
         | |- context [match ?x with _ => _ end] => destruct x
         end; reflexivity.
Qed.

Lemma sort_sorted (l : list string) : Sorted String.le (Js.sort l).
Proof. apply (Sorted_merge_sort String.le). Qed.

Lemma sort_permutation (l : list string) : Js.sort l ≡ₚ l.
Proof. apply (merge_sort_Permutation String.le). Qed.

Lemma sort_fixpoint (l : list string) :
  Js.sort l = l <-> Sorted String.le l.
Proof.
  split.
  - intros <-. apply sort_sorted.
  - intros Hs. apply (Sorted_unique String.le); auto using sort_sorted.
    apply sort_permutation.
Qed.

End SummarizerFacts.


Section EndToEnd.

Import Gemini.

Lemma two_trackers_sorted : Js.sort Inputs.two_trackers = Inputs.two_trackers.
Proof. vm_compute. reflexivity. Qed.

(** C1 (as amended). For the trackers doubleclick.net and
    google-analytics.com on https://example.com, no policy text and no
    cached summary: when the request to the generator fails, the
    summary is the rule-based fallback, marked unsuccessful, and its
    [whoTheyShareWith] is Google, Advertising Networks, Analytics
    Providers; when no API key is configured, the summary is the
    unavailable payload, whose [whoTheyShareWith] is empty.  In both
    cases the score is 45 and the grade D. *)
Theorem unavailable_ai_end_to_end
        (url_hostname : string -> option string) (sc : aiScenario)
        (cache : gmap string cacheEntry) :
  url_hostname "https://example.com" = Some "example.com" ->
  cache !! "https://example.com_doubleclick.net,google-analytics.com" = None ->
  let run :=
    SiteController.summarize_and_score
      url_hostname sc Inputs.two_trackers "https://example.com" None cache in
  (truthy_key (GEMINI_API_KEY sc) = false ->
   run = Some (fallbackResponse, 45, "D") /\
   whoTheyShareWith (base (summary_of fallbackResponse)) = []) /\
  (truthy_key (GEMINI_API_KEY sc) = true ->
   forall m, reply sc = Raises m ->
   exists r,
     run = Some (r, 45, "D") /\ success r = false /\
     note r = Some ("AI analysis failed: " +:+ m) /\
     whoTheyShareWith (base (summary_of r)) =
       ["Google"; "Advertising Networks"; "Analytics Providers"] /\
     In "Google" (whoTheyShareWith (base (summary_of r)))).
Proof.
  intros Hhost Hmiss run. subst run.
  unfold SiteController.summarize_and_score, generateAIPrivacySummary.
  rewrite two_trackers_sorted.
  change ("https://example.com" +:+ "_" +:+ Js.join "," Inputs.two_trackers)
    with "https://example.com_doubleclick.net,google-analytics.com".
  rewrite Hmiss. split.
  - intros ->. split; reflexivity.
  - intros -> m ->. cbn [negb].
    unfold on_error, createFallbackSummary. rewrite Hhost.
    eexists. split; [reflexivity |].
    split; [reflexivity |]. split; [reflexivity |].
    split; [vm_compute; reflexivity | vm_compute; tauto].
Qed.

Lemma unavailable_ai_end_to_end_witness :
  SiteController.summarize_and_score
    Inputs.example_hostname Inputs.no_key Inputs.two_trackers
    "https://example.com" None ∅
  = Some (fallbackResponse, 45, "D")
  /\
  exists r,
    SiteController.summarize_and_score
      Inputs.example_hostname Inputs.call_fails Inputs.two_trackers
      "https://example.com" None ∅ = Some (r, 45, "D")
    /\ In "Google" (whoTheyShareWith (base (summary_of r))).
Proof.
  split.
  - exact (proj1 (proj1 (unavailable_ai_end_to_end
                           Inputs.example_hostname Inputs.no_key ∅
                           eq_refl (lookup_empty _)) eq_refl)).
  - destruct (proj2 (unavailable_ai_end_to_end
                       Inputs.example_hostname Inputs.call_fails ∅
                       eq_refl (lookup_empty _)) eq_refl
                    "fetch failed" eq_refl)
      as (r & Hrun & _ & _ & _ & Hin).
    exists r. split; assumption.
Defined.

(** C1 as stated fails when the summarizer is unavailable for want of
    an API key: the summary then has no [whoTheyShareWith] entry at all,
    so "Google" is not among them. *)
Lemma no_key_summary_has_no_google :
  exists r s g,
    SiteController.summarize_and_score
      Inputs.example_hostname Inputs.no_key Inputs.two_trackers
      "https://example.com" None ∅ = Some (r, s, g)
    /\ ~ In "Google" (whoTheyShareWith (base (summary_of r))).
Proof.
  exists fallbackResponse, 45, "D". split; [vm_compute; reflexivity |].
  simpl. tauto.
Qed.

End EndToEnd.

(* ===================================================================== *)
(** * The crawler                                                        *)
(* ===================================================================== *)

Section CrawlerFacts.

Import Gemini TrackerService Reference.

Variable url_hostname : string -> option string.
Variable o : options.
Variable mainDomain : string.

Lemma on_request_frame r s :
  browser (on_request url_hostname o mainDomain r s) = browser s /\
  events (on_request url_hostname o mainDomain r s) = events s.
Proof.
  unfold on_request. destruct (extractDomain _ _); [| auto].
  destruct (_ && _); auto.
Qed.

Lemma feed_frame rs s :
  browser (feed url_hostname o mainDomain rs s) = browser s /\
  events (feed url_hostname o mainDomain rs s) = events s.
Proof.
  unfold feed. revert s.
  induction rs as [|r rs IH]; intros s; simpl; [auto |].
  destruct (IH (on_request url_hostname o mainDomain r s)) as [-> ->].
  apply on_request_frame.
Qed.

Lemma on_request_same r s1 s2 :
  same_observations s1 s2 ->
  same_observations (on_request url_hostname o mainDomain r s1)
                    (on_request url_hostname o mainDomain r s2).
Proof.
  intros [Hd Hr]. unfold on_request, same_observations.
  destruct (extractDomain _ _); [| auto].
  destruct (_ && _); simpl; [| auto]. rewrite Hd, Hr. auto.
Qed.

Lemma feed_same rs s1 s2 :
  same_observations s1 s2 ->
  same_observations (feed url_hostname o mainDomain rs s1)
                    (feed url_hostname o mainDomain rs s2).
Proof.
  unfold feed. revert s1 s2.
  induction rs as [|r rs IH]; intros s1 s2 H; simpl; [auto |].
  apply IH, on_request_same, H.
Qed.

Lemma feed_launched rs s :
  feed url_hostname o mainDomain rs (launched s)
  = launched (feed url_hostname o mainDomain rs s).
Proof.
  destruct (feed_frame rs (launched s)) as [Hb He].
  destruct (feed_same rs (launched s) s) as [Hd Hr];
    [split; reflexivity |].
  unfold launched at 2. rewrite <- Hd, <- Hr.
  destruct (feed _ _ _ rs (launched s)); simpl in *. congruence.
Qed.

Lemma feed_app rs1 rs2 s :
  feed url_hostname o mainDomain (rs1 ++ rs2) s
  = feed url_hostname o mainDomain rs2 (feed url_hostname o mainDomain rs1 s).
Proof. apply fold_left_app. Qed.

(** The [try] block: it ends with the first error, having handed the
    requests seen before it to the handler. *)
Lemma try_body_run (sc : browserScenario) :
  try_body url_hostname sc o mainDomain initial
  = (match first_error sc with Some e => inr e | None => inl None end,
     match launch sc with
     | Some _ => initial
     | None => launched (feed url_hostname o mainDomain (seen_before sc o) initial)
     end).
Proof.
  unfold try_body, bind, do_launch, may_fail, run_step, bind, observe, ret,
    throw, first_error, seen_before.

  destruct (launch sc); [reflexivity |].
  change {| browser := true; detected := detected initial;
            trackerRequests := trackerRequests initial;
            events := events initial ++ [Launch] |} with (launched initial).
  destruct (setup sc); [reflexivity |].
  rewrite feed_launched.
  destruct (failure (navigation sc)).
  { now rewrite app_nil_r. }
  rewrite !feed_app.
  unfold may_fail, ret, throw.
  destruct (waitForInteractions o); simpl; rewrite !feed_launched;
    destruct (failure (settle sc)); reflexivity.
Qed.

(** The outcome of a call, whatever the browser does: the call ends on the
    first error of the guarded block; an error named TimeoutError is
    swallowed, any other gives the failure record; the session is closed
    when it was opened. *)
Lemma detectTrackers_outcome (sc : browserScenario) (url : string) :
  url_hostname url = Some mainDomain ->
  let s := feed url_hostname o mainDomain (seen_before sc o) initial in
  let out := detectTrackers url_hostname sc url o in
  snd out = match launch sc with None => [Launch; Close] | Some _ => [] end
  /\ fst out =
     match first_error sc with
     | Some e =>
         if String.eqb (err_name e) "TimeoutError"
         then Returned (success_record url o (detected s) (trackerRequests s))
         else Returned (failure_record (err_message e))
     | None => Returned (success_record url o (detected s) (trackerRequests s))
     end.
Proof.
  intros Hurl s out. subst s out.
  unfold detectTrackers. rewrite Hurl.
  unfold try_finally, try_catch. rewrite try_body_run.
  unfold handler, finalizer, do_close, ret.
  destruct (launch sc) as [e|] eqn:Hl.
  - unfold first_error, seen_before. rewrite Hl.
    destruct (String.eqb _ _); simpl; auto.
  - destruct (first_error sc) as [e|];
      [destruct (String.eqb _ _) |]; simpl; auto.
Qed.

(** C4 (as amended). With a URL the platform can parse: when navigation
    times out, [detectTrackers] returns success with the trackers
    observed before the time-out; when the first error of the guarded
    block (launch, page set-up, navigation, settle wait) is not named
    TimeoutError, it returns the failure record with that error's message
    and no trackers; with no error it returns success with everything
    observed.  On each of these paths a session that was launched is
    closed once, and none stays open. *)
Theorem navigation_timeout_tolerated_session_closed
        (sc : browserScenario) (url : string) :
  url_hostname url = Some mainDomain ->
  let out := detectTrackers url_hostname sc url o in
  let success_with rs :=
    let s := feed url_hostname o mainDomain rs initial in
    Returned (success_record url o (detected s) (trackerRequests s)) in
  (forall e,
      launch sc = None -> setup sc = None ->
      failure (navigation sc) = Some e -> err_name e = "TimeoutError" ->
      fst out = success_with (seen (navigation sc)))
  /\ (forall e,
         first_error sc = Some e -> err_name e <> "TimeoutError" ->
         fst out = Returned (failure_record (err_message e)))
  /\ (first_error sc = None -> fst out = success_with (seen_before sc o))
  /\ snd out = match launch sc with None => [Launch; Close] | Some _ => [] end
  /\ open_sessions (snd out) = 0.
Proof.
  intros Hurl out success_with. subst out success_with.
  destruct (detectTrackers_outcome sc url Hurl) as [Hlog Hres].
  cbv zeta in Hlog, Hres. rewrite Hlog, Hres.
  split; [| split; [| split; [| split]]].
  - intros e Hl Hs Hn He. unfold first_error, seen_before.
    rewrite Hl, Hs, Hn, He, app_nil_r. reflexivity.
  - intros e -> He. apply String.eqb_neq in He. now rewrite He.
  - intros ->. reflexivity.
  - reflexivity.
  - destruct (launch sc); reflexivity.
Qed.

End CrawlerFacts.

Section CrawlerWitnesses.

Import Gemini TrackerService Reference.

Lemma navigation_timeout_tolerated_session_closed_witness :
  detectTrackers Inputs.example_hostname Inputs.navigation_times_out
                 "https://example.com" default_options
  = (Returned
       {| r_url := Some "https://example.com";
          detectedTrackers := ["doubleclick.net"; "google-analytics.com"];
          r_trackerCount := Some 2; r_success := true; r_error := None;
          r_requests := None |},
     [Launch; Close])
  /\
  detectTrackers Inputs.example_hostname Inputs.navigation_fails
                 "https://example.com" default_options
  = (Returned (failure_record "net::ERR_NAME_NOT_RESOLVED"), [Launch; Close]).
Proof.
  split.
  - destruct (navigation_timeout_tolerated_session_closed
                Inputs.example_hostname default_options "example.com"
                Inputs.navigation_times_out "https://example.com" eq_refl)
      as (Hres & _ & _ & Hlog & _).
    specialize (Hres Inputs.timeout_error eq_refl eq_refl eq_refl eq_refl).
    destruct (detectTrackers _ _ _ _) as [r log]. simpl in Hlog, Hres.
    rewrite Hlog, Hres. vm_compute. reflexivity.
  - destruct (navigation_timeout_tolerated_session_closed
                Inputs.example_hostname default_options "example.com"
                Inputs.navigation_fails "https://example.com" eq_refl)
      as (_ & Hres & _ & Hlog & _).
    assert (Hname : err_name Inputs.network_error <> "TimeoutError")
      by discriminate.
    specialize (Hres Inputs.network_error eq_refl Hname).
    destruct (detectTrackers _ _ _ _) as [r log]. simpl in Hlog, Hres.
    now rewrite Hlog, Hres.
Defined.

(** C4 as stated fails for a launch error: when [puppeteer.launch]
    itself times out, the error is named TimeoutError like a navigation
    time-out, and the call reports success with no tracker instead of a
    failure. *)
Lemma launch_timeout_reported_as_success :
  first_error Inputs.launch_times_out
  = launch Inputs.launch_times_out /\
  exists r,
    detectTrackers Inputs.example_hostname Inputs.launch_times_out
                   "https://example.com" default_options
    = (Returned r, []) /\
    r_success r = true /\ r_error r = None /\ detectedTrackers r = [].
Proof.
  split; [reflexivity |].
  eexists. split; [vm_compute; reflexivity |]. repeat split.
Qed.

End CrawlerWitnesses.

(* ===================================================================== *)
(** * The orchestrator                                                   *)
(* ===================================================================== *)

Section OrchestratorFacts.

Import Gemini SiteController Reference.

Variable url_hostname : string -> option string.

(** Once the cache is passed over, the crawler is called. *)
Lemma full_analysis_detects (sc : scenario) (w : world) (url : string)
      (policy : option string) (done : list call) :
  In (Detect url) (calls (full_analysis url_hostname sc w url policy done)).
Proof.
  unfold full_analysis.
  destruct (fst _) as [trackerResult | m]; simpl.
  2: { apply in_or_app. right. now left. }
  destruct (negb _); simpl.
  { apply in_or_app. right. now left. }
  destruct (generateAIPrivacySummary _ _ _ _ _) as [summarized st].
  assert (Hin : forall tl, In (Detect url)
                             ((done ++ [Detect url; Summarize url]) ++ tl)).
  { intros tl. apply in_or_app. left. apply in_or_app. right. now left. }
  destruct summarized as [aiSummary | m]; simpl.
  - destruct (connected_at_save sc); simpl.
    + destruct (upsert_error sc); simpl; apply Hin.
    + rewrite <- (app_nil_r (done ++ _)). apply Hin.
  - rewrite <- (app_nil_r (done ++ _)). apply Hin.
Qed.

(** After a successful crawl, the response carries the score and grade
    of [summarize_and_score], unless the upsert throws.  (The summary of
    the answer is read back from the stored document when the store is
    connected, and is not stated here.) *)
Lemma full_analysis_scored (sc : scenario) (w : world) (url : string)
      (policy : option string) (done : list call)
      (r : TrackerService.detectResult) :
  fst (TrackerService.detectTrackers url_hostname (crawl sc) url
         TrackerService.default_options) = Returned r ->
  TrackerService.r_success r = true ->
  (connected_at_save sc = true -> upsert_error sc = None) ->
  match summarize_and_score url_hostname (ai sc)
          (TrackerService.detectedTrackers r) url policy (aiCache w) with
  | Some (a, score, grade) =>
      exists warning v,
        res (full_analysis url_hostname sc w url policy done)
        = {| status := 201;
             json := Ok "Site analyzed successfully" warning v |}
        /\ v_score v = score /\ v_grade v = grade
  | None =>
      status (res (full_analysis url_hostname sc w url policy done)) = 500
  end.
Proof.
  intros Hr Hok Hup. unfold full_analysis, summarize_and_score.
  rewrite Hr, Hok. cbn [negb].
  destruct (generateAIPrivacySummary _ _ _ _ _) as [summarized st].
  destruct summarized as [a | m]; [| reflexivity].
  destruct (connected_at_save sc).
  - rewrite (Hup eq_refl). eexists _, _. split; [reflexivity |]. auto.
  - eexists _, _. split; [reflexivity |]. auto.
Qed.

(** The decision taken on a document that the store returns. *)
Lemma analyzeSite_found (sc : scenario) (w : world) (req : analysisRequest)
      (existing : site) :
  connected_at_check sc = true ->
  find_error sc = None ->
  sites w !! req_url req = Some existing ->
  analyzeSite url_hostname sc w req =
    if isCacheValid (now sc) existing
    then cache_hit w (req_url req) existing
    else full_analysis url_hostname sc w (req_url req)
                       (req_simplifiedPolicy req) [FindOne (req_url req)].
Proof.
  intros Hc Hf Hs. unfold analyzeSite. rewrite Hc, Hf, Hs. reflexivity.
Qed.

End OrchestratorFacts.

(** The whole request on a first visit: the crawl times out during
    navigation after both trackers were seen, the generator cannot be
    reached, and the answer is 201 with score 45 and grade D; with no API
    key the score and grade are the same. *)
Example first_visit_end_to_end :
  (exists v,
      SiteController.res
        (SiteController.analyzeSite
           Inputs.example_hostname (Inputs.first_visit Inputs.call_fails)
           Inputs.empty_world (Inputs.request false))
      = {| SiteController.status := 201;
           SiteController.json :=
             SiteController.Ok "Site analyzed successfully" None v |}
      /\ SiteController.v_score v = 45 /\ SiteController.v_grade v = "D"
      /\ SiteController.v_trackers v = Inputs.two_trackers)
  /\
  (exists v,
      SiteController.res
        (SiteController.analyzeSite
           Inputs.example_hostname (Inputs.first_visit Inputs.no_key)
           Inputs.empty_world (Inputs.request false))
      = {| SiteController.status := 201;
           SiteController.json :=
             SiteController.Ok "Site analyzed successfully" None v |}
      /\ SiteController.v_score v = 45 /\ SiteController.v_grade v = "D"
      /\ SiteController.v_trackers v = Inputs.two_trackers).
Proof.
  split; eexists; (split; [vm_compute; reflexivity |]); repeat split.
Qed.

(** What [full_analysis] does, path by path, after the calls already
    made. *)
Lemma full_analysis_runs
      (url_hostname : string -> option string)
      (sc : SiteController.scenario) (w : SiteController.world)
      (url : string) (policy : option string)
      (done : list SiteController.call) :
  let out := SiteController.full_analysis url_hostname sc w url policy done in
  (exists rest,
      SiteController.calls out = done ++ SiteController.Detect url :: rest)
  /\ SiteController.status (SiteController.res out) <> 200
  /\ (forall r,
        fst (TrackerService.detectTrackers
               url_hostname (SiteController.crawl sc) url
               TrackerService.default_options) = Gemini.Returned r ->
        TrackerService.r_success r = false ->
        SiteController.res out
        = {| SiteController.status := 500;
             SiteController.json :=
               SiteController.Failed "Failed to analyze website trackers"
                                     (TrackerService.r_error r) |}
        /\ SiteController.after out = w
        /\ SiteController.calls out = done ++ [SiteController.Detect url])
  /\ (forall r a st,
        fst (TrackerService.detectTrackers
               url_hostname (SiteController.crawl sc) url
               TrackerService.default_options) = Gemini.Returned r ->
        TrackerService.r_success r = true ->
        Gemini.generateAIPrivacySummary
          url_hostname (SiteController.ai sc)
          (TrackerService.detectedTrackers r) url (SiteController.aiCache w)
        = (Gemini.Returned a, st) ->
        SiteController.connected_at_save sc = true ->
        SiteController.upsert_error sc = None ->
        let trackers := Js.sort (TrackerService.detectedTrackers r) in
        let score :=
          SiteController.calculatePrivacyScore
            {| SiteController.url := url;
               SiteController.simplifiedPolicy := policy;
               SiteController.trackers := trackers;
               SiteController.aiSummary := Some a |} in
        (exists v,
            SiteController.res out
            = {| SiteController.status := 201;
                 SiteController.json :=
                   SiteController.Ok "Site analyzed successfully" None v |}
            /\ SiteController.v_score v = score
            /\ SiteController.v_grade v
               = SiteController.getGradeFromScore score
            /\ SiteController.v_category v = SiteController.getCategory score
            /\ SiteController.v_trackers v = trackers
            /\ SiteController.v_trackerCount v = Js.len trackers
            /\ SiteController.v_lastAnalyzed v
               = Some (SiteController.saved_at sc))
        /\ (exists fresh,
               SiteController.sites (SiteController.after out)
               = <[url := fresh]> (SiteController.sites w)
               /\ SiteController.s_score fresh = score
               /\ SiteController.s_trackers fresh = trackers
               /\ SiteController.s_lastAnalyzed fresh
                  = Some (SiteController.saved_at sc))
        /\ SiteController.calls out
           = done ++ [SiteController.Detect url; SiteController.Summarize url;
                      SiteController.Upsert url]).
Proof.
  intros out. subst out. unfold SiteController.full_analysis.
  destruct (fst (TrackerService.detectTrackers _ _ _ _)) as [r0 | m] eqn:Hr.
  2:{ split; [exists []; reflexivity |].
      split; [cbn; discriminate |].
      split; intros; discriminate. }
  destruct (TrackerService.r_success r0) eqn:Hok; cbn [negb].
  2:{ split; [exists []; reflexivity |].
      split; [cbn; discriminate |].
      split.
      - intros r [= <-] _. repeat split.
      - intros r a st [= <-] Hs. congruence. }
  pose proof (summarizer_array url_hostname (SiteController.ai sc)
                (TrackerService.detectedTrackers r0) url
                (SiteController.aiCache w)) as Harr.
  destruct (Gemini.generateAIPrivacySummary _ _ _ _ _) as [summarized st0]
    eqn:Hgen.
  cbn [snd] in Harr.
  split.
  { destruct summarized as [a0 | m]; [| eexists; cbn; reflexivity].
    destruct (SiteController.connected_at_save sc);
      [destruct (SiteController.upsert_error sc) |];
      eexists; cbn; rewrite <- ?app_assoc; reflexivity. }
  split.
  { destruct summarized as [a0 | m]; [| cbn; discriminate].
    destruct (SiteController.connected_at_save sc);
      [destruct (SiteController.upsert_error sc) |]; cbn; discriminate. }
  split.
  { intros r [= <-] Hs. congruence. }
  intros r a st [= <-] _ Hg Hc Hu. cbv zeta.
  rewrite Hgen in Hg. injection Hg as -> ->.
  rewrite Hc, Hu, <- Harr.
  cbn [SiteController.res SiteController.after SiteController.calls
       SiteController.sites SiteController.aiCache].
  split; [| split].
  - eexists. split; [reflexivity |]. repeat split.
  - eexists. split; [reflexivity |]. repeat split.
  - now rewrite <- app_assoc.
Qed.

(** C3. For a document the store returns, with its [lastAnalyzed] stamp:
    when its summary succeeded and it is less than 48 hours old, the
    stored record is served as it is: status 200, every field of the
    answer read off the stored document, nothing written, and the store
    read once with no crawl, summary or upsert; from 48 hours on a
    re-analysis runs.  When its summary did not succeed, it is served
    only while it is less than 30 minutes old, and from 30 minutes on a
    re-analysis runs.  A re-analysis calls the crawler right after the
    store, never answers 200, and when crawl, summary and upsert go
    through it answers 201 with the score, grade, category and trackers
    computed from the new crawl and replaces the stored document. *)
Theorem cache_ttl_by_outcome
        (url_hostname : string -> option string)
        (sc : SiteController.scenario) (w : SiteController.world)
        (req : SiteController.analysisRequest)
        (existing : SiteController.site) (lastAnalyzed : Z) :
  SiteController.connected_at_check sc = true ->
  SiteController.find_error sc = None ->
  SiteController.sites w !! SiteController.req_url req = Some existing ->
  SiteController.s_lastAnalyzed existing = Some lastAnalyzed ->
  let url := SiteController.req_url req in
  let policy := SiteController.req_simplifiedPolicy req in
  let age := SiteController.now sc - lastAnalyzed in
  let out := SiteController.analyzeSite url_hostname sc w req in
  let hit :=
    SiteController.res out
    = {| SiteController.status := 200;
         SiteController.json :=
           SiteController.Ok
             "Site data retrieved from cache" None
             {| SiteController.v_url := SiteController.s_url existing;
                SiteController.v_score := SiteController.s_score existing;
                SiteController.v_grade := SiteController.s_grade existing;
                SiteController.v_category :=
                  SiteController.s_category existing;
                SiteController.v_trackers :=
                  SiteController.s_trackers existing;
                SiteController.v_trackerCount :=
                  Js.len (SiteController.s_trackers existing);
                SiteController.v_simplifiedPolicy :=
                  SiteController.s_simplifiedPolicy existing;
                SiteController.v_aiSummary :=
                  SiteController.s_aiSummary existing;
                SiteController.v_lastAnalyzed := Some lastAnalyzed;
                SiteController.v_summary :=
                  SiteController.generateUserFriendlySummary existing |} |}
    /\ SiteController.after out = w
    /\ SiteController.calls out = [SiteController.FindOne url] in
  let reanalysis :=
    (exists rest,
        SiteController.calls out
        = SiteController.FindOne url :: SiteController.Detect url :: rest)
    /\ SiteController.status (SiteController.res out) <> 200
    /\ (forall r,
          fst (TrackerService.detectTrackers
                 url_hostname (SiteController.crawl sc) url
                 TrackerService.default_options) = Gemini.Returned r ->
          TrackerService.r_success r = false ->
          SiteController.res out
          = {| SiteController.status := 500;
               SiteController.json :=
                 SiteController.Failed "Failed to analyze website trackers"
                                       (TrackerService.r_error r) |}
          /\ SiteController.after out = w)
    /\ (forall r a st,
          fst (TrackerService.detectTrackers
                 url_hostname (SiteController.crawl sc) url
                 TrackerService.default_options) = Gemini.Returned r ->
          TrackerService.r_success r = true ->
          Gemini.generateAIPrivacySummary
            url_hostname (SiteController.ai sc)
            (TrackerService.detectedTrackers r) url (SiteController.aiCache w)
          = (Gemini.Returned a, st) ->
          SiteController.connected_at_save sc = true ->
          SiteController.upsert_error sc = None ->
          let trackers := Js.sort (TrackerService.detectedTrackers r) in
          let score :=
            SiteController.calculatePrivacyScore
              {| SiteController.url := url;
                 SiteController.simplifiedPolicy := policy;
                 SiteController.trackers := trackers;
                 SiteController.aiSummary := Some a |} in
          (exists v,
              SiteController.res out
              = {| SiteController.status := 201;
                   SiteController.json :=
                     SiteController.Ok "Site analyzed successfully" None v |}
              /\ SiteController.v_score v = score
              /\ SiteController.v_grade v
                 = SiteController.getGradeFromScore score
              /\ SiteController.v_category v
                 = SiteController.getCategory score
              /\ SiteController.v_trackers v = trackers
              /\ SiteController.v_trackerCount v = Js.len trackers
              /\ SiteController.v_lastAnalyzed v
                 = Some (SiteController.saved_at sc))
          /\ (exists fresh,
                 SiteController.sites (SiteController.after out)
                 = <[url := fresh]> (SiteController.sites w)
                 /\ SiteController.s_score fresh = score
                 /\ SiteController.s_trackers fresh = trackers
                 /\ SiteController.s_lastAnalyzed fresh
                    = Some (SiteController.saved_at sc))
          /\ SiteController.calls out
             = [SiteController.FindOne url; SiteController.Detect url;
                SiteController.Summarize url; SiteController.Upsert url]) in
  (SiteController.ai_succeeded (SiteController.s_aiSummary existing) = true ->
   (age < 48 * 60 * 60 * 1000 -> hit) /\
   (48 * 60 * 60 * 1000 <= age -> reanalysis))
  /\
  (SiteController.ai_succeeded (SiteController.s_aiSummary existing) = false ->
   (age < 30 * 60 * 1000 -> hit) /\
   (30 * 60 * 1000 <= age -> reanalysis)).
Proof.
  intros Hc Hf Hs Ht url policy age out hit reanalysis.
  assert (Hhit : SiteController.isCacheValid (SiteController.now sc) existing
                 = true -> hit).
  { intros Hv. subst hit out.
    rewrite (analyzeSite_found url_hostname sc w req existing Hc Hf Hs), Hv.
    unfold Reference.cache_hit, SiteController.view_of.
    cbn [SiteController.res SiteController.after SiteController.calls].
    rewrite Ht. repeat split. }
  assert (Hre : SiteController.isCacheValid (SiteController.now sc) existing
                = false -> reanalysis).
  { intros Hv. subst reanalysis out.
    rewrite (analyzeSite_found url_hostname sc w req existing Hc Hf Hs), Hv.
    destruct (full_analysis_runs url_hostname sc w url policy
                                 [SiteController.FindOne url])
      as (Hcalls & Hstatus & Hfail & Hfresh).
    split; [exact Hcalls |]. split; [exact Hstatus |]. split.
    - intros r Hr Hok. destruct (Hfail r Hr Hok) as (H1 & H2 & _). auto.
    - exact Hfresh. }
  subst hit reanalysis.
  unfold SiteController.isCacheValid in Hhit, Hre. rewrite Ht in Hhit, Hre.
  fold age in Hhit, Hre.
  unfold SiteController.successfulCacheDuration,
    SiteController.failedCacheDuration in Hhit, Hre.
  split; intros Hai; rewrite Hai in Hhit, Hre; split; intros Hage.
  - apply Hhit. apply Z.ltb_lt. exact Hage.
  - apply Hre. apply Z.ltb_ge. exact Hage.
  - apply Hhit. apply Z.ltb_lt. exact Hage.
  - apply Hre. apply Z.ltb_ge. exact Hage.
Qed.

Lemma cache_ttl_by_outcome_witness :
  (let out :=
     SiteController.analyzeSite
       Inputs.example_hostname (Inputs.at_age (47 * Inputs.hour))
       (Inputs.world_with (Inputs.stored true)) (Inputs.request false) in
   SiteController.res out
   = {| SiteController.status := 200;
        SiteController.json :=
          SiteController.Ok
            "Site data retrieved from cache" None
            {| SiteController.v_url := "https://example.com";
               SiteController.v_score := 45;
               SiteController.v_grade := "D";
               SiteController.v_category := "Poor";
               SiteController.v_trackers := Inputs.two_trackers;
               SiteController.v_trackerCount := 2;
               SiteController.v_simplifiedPolicy := None;
               SiteController.v_aiSummary :=
                 Some (Inputs.summary_with [] []);
               SiteController.v_lastAnalyzed := Some 0;
               SiteController.v_summary :=
                 "This site has poor privacy practices with significant tracking (2 trackers)." |} |}
   /\ SiteController.after out = Inputs.world_with (Inputs.stored true)
   /\ SiteController.calls out
      = [SiteController.FindOne "https://example.com"])
  /\
  (let out :=
     SiteController.analyzeSite
       Inputs.example_hostname (Inputs.at_age (30 * 60 * 1000))
       (Inputs.world_with (Inputs.stored false)) (Inputs.request false) in
   SiteController.calls out
   = [SiteController.FindOne "https://example.com";
      SiteController.Detect "https://example.com";
      SiteController.Summarize "https://example.com";
      SiteController.Upsert "https://example.com"]
   /\ (exists v,
          SiteController.res out
          = {| SiteController.status := 201;
               SiteController.json :=
                 SiteController.Ok "Site analyzed successfully" None v |}
          /\ SiteController.v_score v = 50
          /\ SiteController.v_grade v = "D+"
          /\ SiteController.v_trackers v = [])
   /\ (exists fresh,
          SiteController.sites (SiteController.after out)
          !! "https://example.com" = Some fresh
          /\ SiteController.s_score fresh = 50
          /\ SiteController.s_lastAnalyzed fresh = Some (30 * 60 * 1000))).
Proof.
  split.
  - pose proof (proj1 (proj1 (cache_ttl_by_outcome
                                Inputs.example_hostname
                                (Inputs.at_age (47 * Inputs.hour))
                                (Inputs.world_with (Inputs.stored true))
                                (Inputs.request false) (Inputs.stored true) 0
                                eq_refl eq_refl (lookup_singleton_eq _ _)
                                eq_refl)
                             eq_refl)) as H.
    cbv zeta in H |- *.
    destruct H as (Hres & Hafter & Hcalls); [vm_compute; reflexivity |].
    rewrite Hres, Hafter, Hcalls.
    split; [vm_compute; reflexivity |]. split; reflexivity.
  - pose proof (proj2 (proj2 (cache_ttl_by_outcome
                                Inputs.example_hostname
                                (Inputs.at_age (30 * 60 * 1000))
                                (Inputs.world_with (Inputs.stored false))
                                (Inputs.request false) (Inputs.stored false) 0
                                eq_refl eq_refl (lookup_singleton_eq _ _)
                                eq_refl)
                             eq_refl)) as H.
    cbv zeta in H |- *.
    destruct H as (_ & _ & _ & Hfresh); [vm_compute; discriminate |].
    edestruct Hfresh
      as ((v & Hres & Hscore & Hgrade & _ & Htrackers & _)
          & (fresh & Hsites & Hfs & _ & Hfl) & Hcalls).
    + vm_compute. reflexivity.
    + reflexivity.
    + vm_compute. reflexivity.
    + reflexivity.
    + reflexivity.
    + split; [exact Hcalls |]. split.
      * exists v. split; [exact Hres |].
        rewrite Hscore, Hgrade, Htrackers. vm_compute. auto.
      * exists fresh. rewrite Hsites, lookup_insert_eq.
        split; [reflexivity |]. rewrite Hfs, Hfl. vm_compute. auto.
Defined.

(** C2. [analyzeSite] never reads [forceRefresh]: the outcome is the same
    whatever its value.  With [forceRefresh = true] and a stored record
    one hour old whose summary succeeded, the stored record is served
    from the cache: the store is read once, no crawl, summary or upsert
    takes place. *)
Theorem forceRefresh_is_not_read :
  (forall (url_hostname : string -> option string)
          (sc : SiteController.scenario) (w : SiteController.world)
          (url : string) (policy : option string) (b1 b2 : bool),
      SiteController.analyzeSite url_hostname sc w
        {| SiteController.req_url := url;
           SiteController.req_simplifiedPolicy := policy;
           SiteController.forceRefresh := b1 |}
      = SiteController.analyzeSite url_hostname sc w
          {| SiteController.req_url := url;
             SiteController.req_simplifiedPolicy := policy;
             SiteController.forceRefresh := b2 |})
  /\
  (let out :=
     SiteController.analyzeSite
       Inputs.example_hostname (Inputs.at_age Inputs.hour)
       (Inputs.world_with (Inputs.stored true)) (Inputs.request true) in
   out = Reference.cache_hit (Inputs.world_with (Inputs.stored true))
                             "https://example.com" (Inputs.stored true)
   /\ SiteController.calls out = [SiteController.FindOne "https://example.com"]
   /\ ~ In (SiteController.Detect "https://example.com")
           (SiteController.calls out)).
Proof.
  split; [reflexivity |].
  assert (H : SiteController.analyzeSite
                Inputs.example_hostname (Inputs.at_age Inputs.hour)
                (Inputs.world_with (Inputs.stored true)) (Inputs.request true)
              = Reference.cache_hit (Inputs.world_with (Inputs.stored true))
                                    "https://example.com" (Inputs.stored true)).
  { rewrite (analyzeSite_found
               Inputs.example_hostname (Inputs.at_age Inputs.hour)
               (Inputs.world_with (Inputs.stored true)) (Inputs.request true)
               (Inputs.stored true) eq_refl eq_refl (lookup_singleton_eq _ _)).
    reflexivity. }
  cbv zeta. rewrite H. split; [reflexivity |]. split; [reflexivity |].
  simpl. intros [E | []]. discriminate E.
Qed.

(* ===================================================================== *)
(** * Sentence-aware truncation                                          *)
(* ===================================================================== *)

Section TruncateFacts.

Import Truncate Shape.

Lemma terminator_not_space (c : ascii) :
  is_terminator c = true -> is_space c = false.
Proof.
  unfold is_terminator. intros H.
  apply orb_true_iff in H as [H | H];
    [apply orb_true_iff in H as [H | H] |];
    apply Ascii.eqb_eq in H; subst c; reflexivity.
Qed.

Lemma split_from_cons (st : scan) (c : ascii) (r : string) :
  split_from st (String c r) =
  match st, is_space c with
  | AfterTerm, true => EmptyString :: split_from InSep r
  | InSep, true => split_from InSep r
  | _, _ => push c (split_from (after c) r)
  end.
Proof. reflexivity. Qed.

Lemma split_from_solid (st : scan) (c : ascii) (r : string) :
  is_space c = false ->
  split_from st (String c r) = push c (split_from (after c) r).
Proof. intros H. rewrite split_from_cons, H. now destruct st. Qed.

Lemma final_scan_solid (st : scan) (c : ascii) (r : string) :
  is_space c = false ->
  final_scan st (String c r) = final_scan (after c) r.
Proof. intros H. simpl. rewrite H. now destruct st. Qed.

Lemma split_from_nonempty (st : scan) (s : string) : split_from st s <> [].
Proof.
  revert st. induction s as [|c r IH]; intros st; [discriminate |].
  rewrite split_from_cons.
  destruct st, (is_space c); try discriminate; try apply IH;
    destruct (split_from _ r); discriminate.
Qed.

Lemma glue_cons (x : string) (xs ys : list string) :
  xs <> [] -> glue (x :: xs) ys = x :: glue xs ys.
Proof. destruct xs; [congruence | reflexivity]. Qed.

Lemma push_glue (c : ascii) (xs ys : list string) :
  xs <> [] -> ys <> [] -> push c (glue xs ys) = glue (push c xs) ys.
Proof.
  destruct xs as [|x [|x2 xs]]; [congruence | |]; intros _ Hy.
  - destruct ys; [congruence | reflexivity].
  - reflexivity.
Qed.

(** The split of a concatenation. *)
Lemma split_from_app (a b : string) (st : scan) :
  split_from st (a +:+ b) =
  glue (split_from st a) (split_from (final_scan st a) b).
Proof.
  revert st. induction a as [|c r IH]; intros st.
  - rewrite append_nil_l. change (split_from st "") with [""].
    simpl final_scan.
    destruct (split_from st b) eqn:E; [| reflexivity].
    now apply split_from_nonempty in E.
  - rewrite append_cons, !split_from_cons.
    pose proof (split_from_nonempty InSep r) as Hn.
    pose proof (split_from_nonempty (after c) r) as Hc.
    pose proof (split_from_nonempty (final_scan (after c) r) b) as Hb.
    destruct st, (is_space c) eqn:Hs; simpl final_scan; rewrite ?Hs, IH;
      try (now rewrite push_glue);
      try (now rewrite glue_cons).
    reflexivity.
Qed.

(** ** Trimming *)

Lemma starts_solid_inv (s : string) :
  starts_solid s = true ->
  exists c r, s = String c r /\ is_space c = false.
Proof.
  destruct s as [|c r]; [discriminate |]. simpl.
  intros H. exists c, r. split; [reflexivity |].
  now apply negb_true_iff.
Qed.

Lemma ends_solid_cons (c : ascii) (r : string) :
  r <> EmptyString -> ends_solid (String c r) = ends_solid r.
Proof. destruct r; [congruence | reflexivity]. Qed.

Lemma ends_solid_nonempty (s : string) :
  ends_solid s = true -> s <> EmptyString.
Proof. destruct s; [discriminate | discriminate]. Qed.

Lemma ends_solid_app (a b : string) :
  ends_solid b = true -> ends_solid (a +:+ b) = true.
Proof.
  intros Hb. induction a as [|c a IH]; [exact Hb |].
  rewrite append_cons, ends_solid_cons; [exact IH |].
  now apply ends_solid_nonempty.
Qed.

Lemma trimStart_solid (s : string) :
  starts_solid s = true -> trimStart s = s.
Proof.
  intros H. apply starts_solid_inv in H as (c & r & -> & Hc).
  simpl. now rewrite Hc.
Qed.

Lemma trimEnd_solid (s : string) : ends_solid s = true -> trimEnd s = s.
Proof.
  induction s as [|c r IH]; [discriminate |].
  destruct r as [|d r].
  - simpl. intros H. apply negb_true_iff in H. now rewrite H.
  - intros H. rewrite ends_solid_cons in H by discriminate.
    change (trimEnd (String c (String d r)))
      with (match trimEnd (String d r) with
            | EmptyString =>
                if is_space c then EmptyString else String c EmptyString
            | r' => String c r'
            end).
    now rewrite (IH H).
Qed.

Lemma trim_solid (s : string) :
  starts_solid s = true -> ends_solid s = true -> trim s = s.
Proof.
  intros Hs He. unfold trim. now rewrite trimStart_solid, trimEnd_solid.
Qed.

Lemma trimStart_shape (s : string) :
  trimStart s = EmptyString \/ starts_solid (trimStart s) = true.
Proof.
  induction s as [|c r IH]; [now left |].
  simpl. destruct (is_space c) eqn:E; [exact IH |].
  right. simpl. now rewrite E.
Qed.

Lemma trimEnd_cons (c : ascii) (r : string) :
  trimEnd (String c r) =
  match trimEnd r with
  | EmptyString => if is_space c then EmptyString else String c EmptyString
  | r' => String c r'
  end.
Proof. reflexivity. Qed.

Lemma trimEnd_shape (s : string) :
  trimEnd s = EmptyString \/ ends_solid (trimEnd s) = true.
Proof.
  induction s as [|c r IH]; [now left |].
  rewrite trimEnd_cons.
  destruct (trimEnd r) as [|d r'] eqn:E.
  - destruct (is_space c) eqn:Hc; [now left |].
    right. simpl. now rewrite Hc.
  - right. destruct IH as [IH | IH]; [discriminate |].
    now rewrite ends_solid_cons.
Qed.

Lemma trimEnd_keeps_start (s : string) :
  starts_solid s = true -> starts_solid (trimEnd s) = true.
Proof.
  intros H. apply starts_solid_inv in H as (c & r & -> & Hc).
  rewrite trimEnd_cons. destruct (trimEnd r); rewrite ?Hc; simpl;
    now rewrite Hc.
Qed.

(** A trimmed string is empty, or solid at both ends. *)
Lemma trim_shape (s : string) :
  trim s = EmptyString \/
  (starts_solid (trim s) = true /\ ends_solid (trim s) = true).
Proof.
  unfold trim.
  destruct (trimStart_shape s) as [-> | Hs]; [now left |].
  destruct (trimEnd_shape (trimStart s)) as [-> | He]; [now left |].
  right. split; [now apply trimEnd_keeps_start | exact He].
Qed.

(** ** The pieces of the sentence split *)

Lemma final_scan_term (s : string) (st : scan) :
  s <> EmptyString -> final_scan st s = AfterTerm -> ends_solid s = true.
Proof.
  revert st. induction s as [|c r IH]; intros st Hne H; [congruence |].
  destruct r as [|d r].
  - simpl in *.
    assert (Ha : after c = AfterTerm)
      by (destruct st, (is_space c); congruence).
    unfold after in Ha. destruct (is_terminator c) eqn:Ht; [| discriminate].
    now rewrite (terminator_not_space c Ht).
  - rewrite ends_solid_cons by discriminate.
    change (final_scan st (String c (String d r)))
      with (match st, is_space c with
            | AfterTerm, true => final_scan InSep (String d r)
            | InSep, true => final_scan InSep (String d r)
            | _, _ => final_scan (after c) (String d r)
            end) in H.
    destruct st, (is_space c); eapply IH; try eassumption; discriminate.
Qed.

Lemma push_head (c : ascii) (l : list string) :
  l <> [] ->
  exists h tl, l = h :: tl /\ push c l = String c h :: tl.
Proof. destruct l as [|h tl]; [congruence |]. intros _. now exists h, tl. Qed.

Lemma split_from_regular (st : scan) (c : ascii) (x : string) :
  regular st c = true ->
  split_from st (String c x) = push c (split_from (after c) x).
Proof.
  unfold regular. rewrite split_from_cons.
  destruct st, (is_space c); congruence.
Qed.

Lemma final_scan_regular (st : scan) (c : ascii) (x : string) :
  regular st c = true ->
  final_scan st (String c x) = final_scan (after c) x.
Proof. unfold regular. simpl. destruct st, (is_space c); congruence. Qed.

Lemma pieces_push (st : scan) (c : ascii) (l : list string) :
  regular st c = true -> Pieces (after c) l -> Pieces st (push c l).
Proof.
  intros Hreg Hl. destruct l as [|h tl]; [contradiction |]. simpl push.
  assert (Hhead : Head (after c) h -> Head st (String c h)).
  { intros [Hsplit _]. split.
    - now rewrite split_from_regular, Hsplit.
    - intros ->. right. unfold regular in Hreg. simpl.
      destruct (is_space c); [discriminate | reflexivity]. }
  destruct tl as [|h2 tl].
  - now apply Hhead.
  - destruct Hl as (Hh & Hfin & Htl).
    split; [now apply Hhead |]. split; [| exact Htl].
    now rewrite final_scan_regular.
Qed.

Lemma split_pieces (s : string) (st : scan) : Pieces st (split_from st s).
Proof.
  revert st. induction s as [|c r IH]; intros st.
  - simpl. split; [reflexivity | now left].
  - destruct (regular st c) eqn:Hreg.
    + rewrite split_from_regular by exact Hreg.
      now apply pieces_push.
    + rewrite split_from_cons. unfold regular in Hreg.
      destruct st, (is_space c); try discriminate.
      * pose proof (IH InSep) as Hp.
        destruct (split_from InSep r) as [|h tl] eqn:E; [contradiction |].
        split; [split; [reflexivity | discriminate] |].
        split; [reflexivity | exact Hp].
      * apply IH.
Qed.

Lemma last_push (c : ascii) (l : list string) :
  l <> [] ->
  List.last (push c l) EmptyString =
  match l with
  | [h] => String c h
  | _ => List.last l EmptyString
  end.
Proof. destruct l as [|h [|h2 tl]]; [congruence | reflexivity | reflexivity]. Qed.

Lemma last_piece_solid (s : string) (st : scan) :
  ends_solid s = true ->
  ends_solid (List.last (split_from st s) EmptyString) = true.
Proof.
  revert st. induction s as [|c r IH]; intros st H; [discriminate |].
  destruct r as [|d r].
  - simpl in H. apply negb_true_iff in H.
    rewrite split_from_cons, H. destruct st; simpl; now rewrite H.
  - rewrite ends_solid_cons in H by discriminate.
    rewrite split_from_cons.
    assert (Hpush : ends_solid
                      (List.last (push c (split_from (after c) (String d r)))
                            EmptyString) = true).
    { rewrite last_push by apply split_from_nonempty.
      specialize (IH (after c) H).
      destruct (split_from (after c) (String d r)) as [|h [|h2 tl]] eqn:E;
        [now apply split_from_nonempty in E | | exact IH].
      simpl in IH. rewrite ends_solid_cons; [exact IH |].
      now apply ends_solid_nonempty. }
    pose proof (IH InSep H) as Hsep.
    pose proof (split_from_nonempty InSep (String d r)) as Hne.
    destruct st, (is_space c); try exact Hpush; try exact Hsep.
    destruct (split_from InSep (String d r)); [congruence | exact Hsep].
Qed.

Lemma head_solid (st : scan) (h : string) :
  starts_solid h = true ->
  split_from st h = split_from Plain h /\
  final_scan st h = final_scan Plain h.
Proof.
  intros H. apply starts_solid_inv in H as (c & r & -> & Hc).
  now rewrite !split_from_solid, !final_scan_solid.
Qed.

Lemma pieces_chain (l : list string) (st : scan) :
  Pieces st l ->
  starts_solid (hd EmptyString l) = true ->
  ends_solid (List.last l EmptyString) = true ->
  Chain l.
Proof.
  revert st. induction l as [|h tl IH]; intros st Hp Hs He; [contradiction |].
  simpl in Hs. destruct (head_solid st h Hs) as [Hsplit Hfinal].
  destruct tl as [|h2 tl].
  - destruct Hp as [Hh _]. apply chain_one.
    split; [exact Hs |]. split; [exact He | congruence].
  - destruct Hp as ([Hh _] & Hfin & Htl).
    assert (Hne : h <> EmptyString) by (destruct h; [discriminate | congruence]).
    apply chain_cons.
    + split; [| congruence].
      split; [exact Hs |].
      split; [exact (final_scan_term h st Hne Hfin) | congruence].
    + apply (IH InSep Htl); [| exact He].
      assert (Hh2 : Head InSep h2) by (destruct tl; simpl in Htl; tauto).
      destruct Hh2 as [_ Hor].
      destruct (Hor eq_refl) as [-> | Hok]; [| exact Hok].
      destruct tl as [|h3 tl]; [discriminate He |].
      destruct Htl as (_ & Hbad & _). discriminate Hbad.
Qed.

Lemma split_sentences_chain (clean : string) :
  starts_solid clean = true -> ends_solid clean = true ->
  Chain (split_sentences clean).
Proof.
  intros Hs He. unfold split_sentences.
  apply (pieces_chain _ Plain).
  - apply split_pieces.
  - apply starts_solid_inv in Hs as (c & r & -> & Hc).
    rewrite split_from_solid by exact Hc.
    destruct (split_from (after c) r); simpl; now rewrite Hc.
  - now apply last_piece_solid.
Qed.

(** ** The loop over the sentences *)

Lemma sentence_trim (p : string) : Sentence p -> trim p = p.
Proof. intros (Hs & He & _). now apply trim_solid. Qed.

Lemma sentence_has_words (p : string) :
  Sentence p -> (Js.len (words p) =? 0) = false.
Proof.
  intros Hp. unfold words. rewrite (sentence_trim p Hp).
  destruct Hp as (Hs & _ & _).
  apply starts_solid_inv in Hs as (c & r & -> & Hc).
  unfold split_ws. simpl. rewrite Hc.
  destruct (split_ws_from false r); reflexivity.
Qed.

Lemma collect_sentence (n c : Z) (p : string) (rest : list string) :
  Sentence p ->
  collect n c (p :: rest) =
  p :: (if c + Js.len (words p) >=? n then []
        else collect n (c + Js.len (words p)) rest).
Proof.
  intros Hp. simpl.
  now rewrite (sentence_has_words p Hp), (sentence_trim p Hp).
Qed.

Lemma collect_chain (n : Z) (l : list string) :
  Chain l ->
  forall c, Chain (collect n c l) /\
            collect n c (collect n c l) = collect n c l.
Proof.
  induction 1 as [p Hp | p q tl [Hp Hfin] Hc IH]; intros c.
  - rewrite (collect_sentence n c p [] Hp).
    assert (E : (if c + Js.len (words p) >=? n then []
                 else collect n (c + Js.len (words p)) []) = [])
      by (destruct (_ >=? _); reflexivity).
    rewrite E. split; [now apply chain_one |].
    now rewrite (collect_sentence n c p [] Hp), E.
  - rewrite (collect_sentence n c p (q :: tl) Hp).
    destruct (c + Js.len (words p) >=? n) eqn:E.
    + split; [now apply chain_one |].
      rewrite (collect_sentence n c p [] Hp), E. reflexivity.
    + destruct (IH (c + Js.len (words p))) as [Hchain Hidem].
      split.
      * destruct (collect n _ (q :: tl)) as [|x X]; [inversion Hchain |].
        apply chain_cons; [split; assumption | exact Hchain].
      * rewrite (collect_sentence n c p _ Hp), E, Hidem. reflexivity.
Qed.

(** ** Joining and splitting again *)

Lemma join_chain (l : list string) :
  Chain l ->
  split_from Plain (Js.join " " l) = l /\
  starts_solid (Js.join " " l) = true /\
  ends_solid (Js.join " " l) = true.
Proof.
  induction 1 as [p (Hs & He & Hsplit) | p q tl [(Hs & He & Hsplit) Hfin] Hc IH].
  - simpl. auto.
  - destruct IH as (IHsplit & IHs & IHe).
    change (Js.join " " (p :: q :: tl))
      with (p +:+ String " " (Js.join " " (q :: tl))).
    split; [| split].
    + rewrite split_from_app, Hsplit, Hfin, split_from_cons.
      change (is_space " ") with true. cbv iota.
      destruct (head_solid InSep _ IHs) as [-> _].
      rewrite IHsplit. simpl. now rewrite append_empty_r.
    + apply starts_solid_inv in Hs as (c & r & -> & Hc').
      rewrite append_cons. simpl. now rewrite Hc'.
    + apply ends_solid_app. rewrite ends_solid_cons; [exact IHe |].
      now apply ends_solid_nonempty.
Qed.

Lemma truthy_solid (s : string) : starts_solid s = true -> truthy s = true.
Proof. destruct s; [discriminate | reflexivity]. Qed.

Lemma truthy_empty (s : string) : truthy s = false -> s = EmptyString.
Proof. destruct s; [reflexivity | discriminate]. Qed.

(** What the function returns on a string whose trimmed form is not
    empty: the sentences gathered by the loop, joined by one space. *)
Lemma truncate_solid (clean : string) (n : Z) :
  starts_solid clean = true -> ends_solid clean = true ->
  let out := collect n 0 (split_sentences clean) in
  Chain out /\ sentenceAwareTruncate clean n = Js.join " " out.
Proof.
  intros Hs He out.
  destruct (collect_chain n _ (split_sentences_chain clean Hs He) 0)
    as [Hchain _].
  fold out in Hchain. split; [exact Hchain |].
  unfold sentenceAwareTruncate.
  rewrite (truthy_solid clean Hs), (trim_solid clean Hs He).
  rewrite (truthy_solid clean Hs). cbn [negb]. fold out.
  destruct out; [inversion Hchain | reflexivity].
Qed.

End TruncateFacts.

(** C8. Sentence-aware truncation is idempotent: for every text and every
    word budget, truncating the result again with the same budget gives
    the same string. *)
Theorem sentenceAwareTruncate_idempotent (text : string) (n : Z) :
  Truncate.sentenceAwareTruncate (Truncate.sentenceAwareTruncate text n) n
  = Truncate.sentenceAwareTruncate text n.
Proof.
  destruct (Truncate.truthy text) eqn:Ht.
  2: { assert (E : Truncate.sentenceAwareTruncate text n = text)
         by (unfold Truncate.sentenceAwareTruncate; now rewrite Ht).
       now rewrite !E. }
  destruct (trim_shape text) as [Hempty | [Hs He]].
  { assert (E : Truncate.sentenceAwareTruncate text n = EmptyString)
      by (unfold Truncate.sentenceAwareTruncate; now rewrite Ht, Hempty).
    rewrite E. reflexivity. }
  assert (E : Truncate.sentenceAwareTruncate text n
              = Truncate.sentenceAwareTruncate (Truncate.trim text) n).
  { unfold Truncate.sentenceAwareTruncate at 1 2.
    rewrite Ht, (truthy_solid _ Hs), (trim_solid _ Hs He).
    now rewrite (truthy_solid _ Hs). }
  rewrite E.
  destruct (truncate_solid (Truncate.trim text) n Hs He) as [Hchain ->].
  set (out := Truncate.collect n 0 _) in *.
  destruct (join_chain out Hchain) as (Hsplit & Hjs & Hje).
  destruct (truncate_solid (Js.join " " out) n Hjs Hje) as [_ ->].
  unfold Truncate.split_sentences. rewrite Hsplit.
  subst out.
  destruct (collect_chain n _ (split_sentences_chain _ Hs He) 0) as [_ ->].
  reflexivity.
Qed.

(* ===================================================================== *)
(** * Further facts: classifier and crawler list                         *)
(* ===================================================================== *)

Section ClassifierCoverage.

Import Classifier.

Lemma includes_trans (a b c : string) :
  Js.includes a b = true -> Js.includes b c = true -> Js.includes a c = true.
Proof.
  rewrite !includes_spec.
  intros (p1 & q1 & ->) (p2 & q2 & ->).
  exists (p1 +:+ p2), (q2 +:+ q1).
  now rewrite !append_assoc.
Qed.

Lemma test_includes (re : Js.pattern) (host d : string) :
  Js.includes host d = true -> Js.test re d = true -> Js.test re host = true.
Proof.
  intros Hd. unfold Js.test. rewrite !existsb_exists.
  intros (l & Hin & Hl). exists l. split; [exact Hin |].
  now apply (includes_trans host d l).
Qed.

Lemma first_match_none (rs : list rule) (d : string) :
  first_match rs d = None <-> forall r, In r rs -> Js.test (re r) d = false.
Proof.
  induction rs as [|r0 rs IH]; simpl.
  - split; [intros _ r [] | reflexivity].
  - destruct (Js.test (re r0) d) eqn:E.
    + split; [discriminate |]. intros H. specialize (H r0 (or_introl eq_refl)).
      congruence.
    + rewrite IH. split.
      * intros H r [<- | Hr]; [exact E | now apply H].
      * intros H r Hr. apply H. now right.
Qed.

Lemma rules_never_unknown :
  forallb (fun r => negb (String.eqb (r_category r) "Unknown")) rules = true.
Proof. vm_compute. reflexivity. Qed.

(** A host is left in the Unknown category only when no literal of the
    classifier occurs in it. *)
Lemma unknown_category (host : string) :
  category (classifyDomain host) = "Unknown" ->
  forall l, In l Memo.classifier_literals -> Js.includes host l = false.
Proof.
  unfold classifyDomain.
  destruct (first_match rules host) as [r|] eqn:E.
  - apply first_match_in in E as [Hin _].
    pose proof rules_never_unknown as H. rewrite forallb_forall in H.
    specialize (H r Hin). apply negb_true_iff, String.eqb_neq in H.
    simpl. congruence.
  - destruct (Js.test generic_keywords host) eqn:G; [discriminate |].
    intros _ l Hl. unfold Memo.classifier_literals in Hl.
    apply in_app_or in Hl as [Hl | Hl].
    + apply in_flat_map in Hl as (r & Hr & Hlr).
      rewrite first_match_none in E. specialize (E r Hr).
      unfold Js.test in E.
      destruct (Js.includes host l) eqn:I; [| reflexivity].
      assert (existsb (Js.includes host) (re r) = true)
        by (apply existsb_exists; eauto).
      congruence.
    + unfold Js.test in G.
      destruct (Js.includes host l) eqn:I; [| reflexivity].
      assert (existsb (Js.includes host) generic_keywords = true)
        by (apply existsb_exists; eauto).
      congruence.
Qed.

(** X1. Whatever host name the crawler flags through its list of known
    tracker domains, the classifier attributes to a known category, for
    all but eight entries of that list (adsystem.com, turn.com,
    sharethis.com, addthis.com, trustarc.com, adform.net, bing.com,
    yahoo.com); these eight, taken as host names, stay Unknown/Unknown. *)
Theorem known_tracker_domains_classified :
  Memo.unclassified_tracker_domains =
    ["adsystem.com"; "turn.com"; "sharethis.com"; "addthis.com";
     "trustarc.com"; "adform.net"; "bing.com"; "yahoo.com"]
  /\
  (forall d, In d Memo.unclassified_tracker_domains ->
             classifyDomain d =
               {| name := d; category := "Unknown"; company := "Unknown" |})
  /\
  (forall d host,
      In d TrackerService.TRACKER_DOMAINS ->
      ~ In d Memo.unclassified_tracker_domains ->
      Js.includes host d = true ->
      category (classifyDomain host) <> "Unknown").
Proof.
  assert (Hlist : Memo.unclassified_tracker_domains =
                  ["adsystem.com"; "turn.com"; "sharethis.com"; "addthis.com";
                   "trustarc.com"; "adform.net"; "bing.com"; "yahoo.com"])
    by (vm_compute; reflexivity).
  split; [exact Hlist |]. split.
  - rewrite Hlist. intros d Hd. simpl in Hd.
    repeat (destruct Hd as [<- | Hd]; [vm_compute; reflexivity |]).
    contradiction.
  - intros d host Hd Hnot Hinc Hunk.
    apply Hnot. unfold Memo.unclassified_tracker_domains.
    apply filter_In. split; [exact Hd |].
    apply negb_true_iff. 
    destruct (existsb (Js.includes d) Memo.classifier_literals) eqn:E;
      [| reflexivity].
    apply existsb_exists in E as (l & Hl & Hdl).
    pose proof (unknown_category host Hunk l Hl) as Hf.
    rewrite (includes_trans host d l Hinc Hdl) in Hf. discriminate.
Qed.

Lemma known_tracker_domains_classified_witness :
  Classifier.category (Classifier.classifyDomain "stats.g.doubleclick.net")
  <> "Unknown".
Proof.
  destruct known_tracker_domains_classified as (_ & _ & H).
  apply (H "doubleclick.net" "stats.g.doubleclick.net").
  - vm_compute. tauto.
  - vm_compute. intuition discriminate.
  - vm_compute. reflexivity.
Defined.

End ClassifierCoverage.

(* ===================================================================== *)
(** * Further facts: the summary and its cache                           *)
(* ===================================================================== *)

Section SummaryShape.

Import Gemini Memo.

Variable url_hostname : string -> option string.

Lemma slice0_length {A} (n : nat) (l : list A) :
  (length (Js.slice0 n l) <= n)%nat.
Proof. unfold Js.slice0. rewrite length_firstn. lia. Qed.

Lemma slice0_all {A} (n : nat) (l : list A) :
  (length l <= n)%nat -> Js.slice0 n l = l.
Proof. intros H. unfold Js.slice0. now apply firstn_all2. Qed.

Lemma limitArray_length (l : list string) (n : Z) :
  length (Truncate.limitArray l n) = length l.
Proof. unfold Truncate.limitArray. apply length_map. Qed.

(** X2. Whatever object the generator's answer parses to, the validated
    summary holds at most 8, 10, 6 and 5 entries (collect, share, risks,
    breakdown), its popup variant at most 3 of each, and its full variant
    at most 5, 6, 4 and 4; a property that is not an array becomes the
    one-entry sentinel (no entry for the breakdown). *)
Theorem summary_caps (s : rawSummary) :
  let v := validateSummary s in
  within 8 10 6 5 v /\ within 3 3 3 3 (popup_of v) /\
  within 5 6 4 4 (full_of v) /\
  (raw_whatTheyCollect s = None ->
   whatTheyCollect v = ["Information not available"]) /\
  (raw_whoTheyShareWith s = None ->
   whoTheyShareWith v = ["Information not available"]) /\
  (raw_howLongTheyKeep s = None ->
   howLongTheyKeep v = "Information not available") /\
  (raw_keyRisks s = None ->
   keyRisks v = ["Privacy risks could not be determined"]) /\
  (raw_trackerBreakdown s = None -> trackerBreakdown v = []).
Proof.
  intros v. subst v. unfold within, validateSummary, popup_of, full_of.
  cbn [whatTheyCollect whoTheyShareWith keyRisks trackerBreakdown
       howLongTheyKeep].
  repeat split;
    try apply slice0_length;
    try (intros ->; reflexivity).
  all: match goal with
       | |- context [match ?x with _ => _ end] =>
           destruct x; [apply slice0_length | simpl; lia]
       end.
Qed.

Lemma summary_caps_witness :
  whatTheyCollect
    (validateSummary
       {| raw_whatTheyCollect := None; raw_whoTheyShareWith := Some [];
          raw_howLongTheyKeep := None; raw_keyRisks := None;
          raw_trackerBreakdown := None |})
  = ["Information not available"].
Proof.
  refine (proj1 (proj2 (proj2 (proj2 (summary_caps _)))) _). reflexivity.
Defined.

Lemma some_if_length {A} (b : bool) (x : A) :
  (length (some_if b x) <= 1)%nat.
Proof. destruct b; simpl; lia. Qed.

(** X3. The rule-based fallback summary always names someone the data is
    shared with, lists 3 to 5 collected data types, 1 to 3 risks and one
    breakdown line for each of the first four trackers; it is within the
    caps of the validation, which returns it as it is. *)
Theorem fallback_summary_shape (trackers : list string) (url : string)
        (f : fields) :
  createFallbackSummary url_hostname trackers url = Returned f ->
  whoTheyShareWith f <> [] /\
  (3 <= length (whatTheyCollect f) <= 5)%nat /\
  (1 <= length (keyRisks f) <= 3)%nat /\
  length (trackerBreakdown f) = Nat.min 4 (length trackers) /\
  validateSummary (raw_of_fields f) = f.
Proof.
  unfold createFallbackSummary.
  destruct (url_hostname url) as [domain|]; [| discriminate].
  intros [= <-].
  cbn [whatTheyCollect whoTheyShareWith keyRisks trackerBreakdown
       howLongTheyKeep].
  set (companies := some_if _ "Google" ++ _).
  assert (Hco : (length companies <= 4)%nat).
  { subst companies. rewrite !length_app.
    repeat match goal with
           | |- context [length (some_if ?b ?x)] =>
               pose proof (some_if_length b x);
               generalize dependent (length (some_if b x)); intros
           end. lia. }
  set (share := if 0 <? Js.len companies then companies
                else ["Third-party partners"]).
  assert (Hshare : share <> [] /\ (length share <= 4)%nat).
  { subst share. unfold Js.len. destruct companies; simpl in *; split;
      try discriminate; lia. }
  destruct Hshare as [Hne Hlen].
  set (c5 := some_if (5 <? Js.len trackers) "User interactions and clicks").
  set (c10 := some_if (10 <? Js.len trackers) "Cross-site tracking data").
  set (r5 := some_if (5 <? Js.len trackers)
                     "Detailed behavioral profiling for advertising").
  set (r10 := some_if (10 <? Js.len trackers)
                      "Extensive data sharing with multiple partners").
  assert (H5 : (length c5 <= 1)%nat) by apply some_if_length.
  assert (H10 : (length c10 <= 1)%nat) by apply some_if_length.
  assert (R5 : (length r5 <= 1)%nat) by apply some_if_length.
  assert (R10 : (length r10 <= 1)%nat) by apply some_if_length.
  set (bd := map breakdown_line (Js.slice0 4 trackers)).
  assert (Hb : length bd = Nat.min 4 (length trackers)).
  { subst bd. rewrite length_map. unfold Js.slice0. apply length_firstn. }
  split; [exact Hne |].
  split; [simpl; rewrite !length_app in *; simpl; lia |].
  split; [simpl; rewrite !length_app in *; simpl; lia |].
  split; [exact Hb |].
  unfold validateSummary, raw_of_fields.
  cbn [raw_whatTheyCollect raw_whoTheyShareWith raw_howLongTheyKeep
       raw_keyRisks raw_trackerBreakdown whatTheyCollect whoTheyShareWith
       keyRisks trackerBreakdown howLongTheyKeep].
  f_equal; apply slice0_all.
  - cbn [length]. rewrite length_app. lia.
  - lia.
  - cbn [length]. rewrite length_app. lia.
  - rewrite length_map. change (length (firstn 4 trackers) <= 5)%nat.
    rewrite length_firstn. lia.
Qed.

End SummaryShape.

Lemma fallback_summary_shape_witness :
  exists f,
    Gemini.createFallbackSummary Inputs.example_hostname Inputs.two_trackers
                          "https://example.com" = Gemini.Returned f
    /\ Gemini.validateSummary (Gemini.raw_of_fields f) = f /\ length (Gemini.keyRisks f) = 1%nat.
Proof.
  eexists. split; [vm_compute; reflexivity |].
  split; [| reflexivity].
  apply (fallback_summary_shape Inputs.example_hostname Inputs.two_trackers
           "https://example.com").
  vm_compute. reflexivity.
Defined.


Section SummaryCache.

Import Gemini Memo.

Variable url_hostname : string -> option string.

Lemma sort_permutation_eq (l l' : list string) :
  l ≡ₚ l' -> Js.sort l = Js.sort l'.
Proof.
  intros H. apply (Sorted_unique String.le); try apply sort_sorted.
  rewrite !sort_permutation. exact H.
Qed.

Lemma cacheKey_permutation (url : string) (l l' : list string) :
  l ≡ₚ l' -> cacheKey url l = cacheKey url l'.
Proof. intros H. unfold cacheKey. now rewrite (sort_permutation_eq l l' H). Qed.

(** A valid entry under the key of the call is returned as it is. *)
Lemma summarizer_hit (sc : aiScenario) (trackers : list string)
      (url : string) (cache : gmap string cacheEntry) (e : cacheEntry) :
  cache !! cacheKey url trackers = Some e ->
  at_check sc - timestamp e < CACHE_EXPIRY ->
  generateAIPrivacySummary url_hostname sc trackers url cache
  = (Returned (data e),
     {| trackers_arr := Js.sort trackers; aiCache := cache |}).
Proof.
  intros He Ht. unfold generateAIPrivacySummary.
  fold (cacheKey url trackers). rewrite He.
  destruct (Z.ltb_spec (at_check sc - timestamp e) CACHE_EXPIRY);
    [reflexivity | lia].
Qed.

(** What a call does when it finds no valid entry. *)
Lemma summarizer_miss (sc : aiScenario) (trackers : list string)
      (url : string) (cache : gmap string cacheEntry) :
  miss sc url trackers cache ->
  let sorted := Js.sort trackers in
  let key := cacheKey url trackers in
  let stored r :=
    (Returned r,
     {| trackers_arr := sorted;
        aiCache := <[key := {| data := r; timestamp := at_store sc |}]> cache |}) in
  let failed m :=
    (on_error url_hostname m sorted url,
     {| trackers_arr := sorted; aiCache := cache |}) in
  generateAIPrivacySummary url_hostname sc trackers url cache =
  if negb (truthy_key (GEMINI_API_KEY sc)) then stored fallbackResponse
  else match reply sc with
       | Raises m => failed m
       | Replies text parsed =>
           match match parsed with
                 | Some s => Returned s
                 | None =>
                     match createFallbackSummary url_hostname sorted url with
                     | Returned f => Returned (raw_of_fields f)
                     | Thrown m => Thrown m
                     end
                 end with
           | Thrown m => failed m
           | Returned s =>
               let v := validateSummary s in
               stored {| success := true; note := None;
                         summary_of :=
                           {| base := v; popupSummary := Some (popup_of v);
                              fullSummary := Some (full_of v) |};
                         trackerCount := Some (Js.len sorted);
                         trackerDetails :=
                           Some (Classifier.buildTrackerDetails sorted);
                         rawResponse := Some text |}
           end
       end.
Proof.
  intros Hmiss sorted key stored failed. unfold generateAIPrivacySummary.
  fold (cacheKey url trackers). fold key. fold sorted.
  assert (Hfresh :
    match cache !! key with
    | Some cached =>
        if at_check sc - timestamp cached <? CACHE_EXPIRY
        then Some (data cached) else None
    | None => None
    end = None).
  { destruct (cache !! key) as [e|] eqn:E; [| reflexivity].
    specialize (Hmiss e E).
    destruct (Z.ltb_spec (at_check sc - timestamp e) CACHE_EXPIRY);
      [lia | reflexivity]. }
  rewrite Hfresh. reflexivity.
Qed.

Lemma on_error_unsuccessful (m : string) (trackers : list string)
      (url : string) (r : aiResult) :
  on_error url_hostname m trackers url = Returned r -> success r = false.
Proof.
  unfold on_error. destruct (createFallbackSummary _ _ _); [| discriminate].
  now intros [= <-].
Qed.

(** X4. An answer that is stored is served for the next 24 hours: after a
    call that found no valid entry and returned either the
    missing-key payload or a successful summary, every call for the same
    URL and the same trackers in any order, made less than 24 hours
    after the answer was stored, returns that very answer and leaves the
    cache as it is, whatever the API key and the generator are by then. *)
Theorem summary_memoized_for_a_day
        (sc1 sc2 : aiScenario) (trackers trackers' : list string)
        (url : string) (cache : gmap string cacheEntry)
        (r1 : aiResult) (st1 : aiState) :
  miss sc1 url trackers cache ->
  generateAIPrivacySummary url_hostname sc1 trackers url cache
  = (Returned r1, st1) ->
  truthy_key (GEMINI_API_KEY sc1) = false \/ success r1 = true ->
  trackers' ≡ₚ trackers ->
  at_check sc2 - at_store sc1 < CACHE_EXPIRY ->
  generateAIPrivacySummary url_hostname sc2 trackers' url (aiCache st1)
  = (Returned r1,
     {| trackers_arr := Js.sort trackers; aiCache := aiCache st1 |}).
Proof.
  intros Hmiss Hrun Hkind Hperm Hage.
  assert (Hstored :
    aiCache st1 !! cacheKey url trackers
    = Some {| data := r1; timestamp := at_store sc1 |}).
  { rewrite (summarizer_miss sc1 trackers url cache Hmiss) in Hrun.
    cbv zeta in Hrun.
    destruct (truthy_key (GEMINI_API_KEY sc1)) eqn:Hk; cbn [negb] in Hrun.
    - destruct Hkind as [Hkind | Hok]; [discriminate |].
      destruct (reply sc1) as [m | text parsed].
      + injection Hrun as Hr _.
        apply on_error_unsuccessful in Hr. congruence.
      + destruct (match parsed with Some s => _ | None => _ end) as [s | m].
        * injection Hrun as <- <-. apply lookup_insert_eq.
        * injection Hrun as Hr _.
          apply on_error_unsuccessful in Hr. congruence.
    - injection Hrun as <- <-. apply lookup_insert_eq. }
  rewrite <- (cacheKey_permutation url trackers' trackers Hperm) in Hstored.
  rewrite (summarizer_hit sc2 trackers' url (aiCache st1) _ Hstored Hage).
  cbn [data]. now rewrite (sort_permutation_eq trackers' trackers Hperm).
Qed.

(** X5. A call touches the cache at its own key only, and an answer that
    came out of the error path is never stored: with an API key
    configured, a call that rejects or returns an unsuccessful answer
    leaves the cache as it was, so the next call asks the generator
    again. *)
Theorem summary_cache_frame
        (sc : aiScenario) (trackers : list string) (url : string)
        (cache : gmap string cacheEntry) :
  let out := generateAIPrivacySummary url_hostname sc trackers url cache in
  (forall k, k <> cacheKey url trackers ->
             aiCache (snd out) !! k = cache !! k)
  /\
  (truthy_key (GEMINI_API_KEY sc) = true ->
   miss sc url trackers cache ->
   (forall r, fst out = Returned r -> success r = false) ->
   aiCache (snd out) = cache).
Proof.
  intros out. subst out. split.
  - intros k Hk. unfold generateAIPrivacySummary.
    fold (cacheKey url trackers).
    repeat match goal with
           | |- context [match ?x with _ => _ end] => destruct x
           end; cbn [snd aiCache]; try reflexivity;
      now rewrite lookup_insert_ne by congruence.
  - intros Hkey Hmiss Hfail.
    rewrite (summarizer_miss sc trackers url cache Hmiss) in *.
    cbv zeta in *. rewrite Hkey in *. cbn [negb] in *.
    destruct (reply sc) as [m | text parsed]; [reflexivity |].
    destruct (match parsed with Some s => _ | None => _ end) as [s | m];
      [| reflexivity].
    specialize (Hfail _ eq_refl). discriminate Hfail.
Qed.

End SummaryCache.

Lemma summary_memoized_for_a_day_witness :
  Gemini.generateAIPrivacySummary
    Inputs.example_hostname Inputs.call_fails
    ["google-analytics.com"; "doubleclick.net"] "https://example.com"
    (Gemini.aiCache
       (snd (Gemini.generateAIPrivacySummary
               Inputs.example_hostname Inputs.no_key Inputs.two_trackers
               "https://example.com" ∅)))
  = (Gemini.Returned Gemini.fallbackResponse,
     {| Gemini.trackers_arr := Js.sort Inputs.two_trackers;
        Gemini.aiCache :=
          Gemini.aiCache
            (snd (Gemini.generateAIPrivacySummary
                    Inputs.example_hostname Inputs.no_key Inputs.two_trackers
                    "https://example.com" ∅)) |}).
Proof.
  apply (summary_memoized_for_a_day
           Inputs.example_hostname Inputs.no_key Inputs.call_fails
           Inputs.two_trackers ["google-analytics.com"; "doubleclick.net"]
           "https://example.com" ∅ Gemini.fallbackResponse).
  - intros e He. rewrite lookup_empty in He. discriminate He.
  - reflexivity.
  - left. reflexivity.
  - apply Permutation_swap.
  - vm_compute. reflexivity.
Defined.

Lemma summary_cache_frame_witness :
  Gemini.aiCache
    (snd (Gemini.generateAIPrivacySummary
            Inputs.example_hostname Inputs.call_fails Inputs.two_trackers
            "https://example.com" ∅)) = ∅.
Proof.
  apply (summary_cache_frame Inputs.example_hostname Inputs.call_fails
           Inputs.two_trackers "https://example.com" ∅).
  - reflexivity.
  - intros e He. rewrite lookup_empty in He. discriminate He.
  - intros r Hr. vm_compute in Hr. injection Hr as <-. reflexivity.
Defined.

(* ===================================================================== *)
(** * Further facts: sentence-aware truncation                           *)
(* ===================================================================== *)

Section TruncateMoreFacts.

Import Truncate Shape TruncateMore.



(** What the function returns on any text that is not blank. *)
Lemma truncate_not_blank (text : string) (n : Z) :
  truthy (trim text) = true ->
  starts_solid (trim text) = true /\ ends_solid (trim text) = true /\
  Chain (collect n 0 (split_sentences (trim text))) /\
  sentenceAwareTruncate text n
  = Js.join " " (collect n 0 (split_sentences (trim text))).
Proof.
  intros Hc.
  destruct (trim_shape text) as [E | [Hs He]];
    [rewrite E in Hc; discriminate |].
  destruct (truncate_solid (trim text) n Hs He) as [Hchain Hres].
  split; [exact Hs |]. split; [exact He |]. split; [exact Hchain |].
  rewrite <- Hres.
  assert (Ht : truthy text = true).
  { destruct text; [discriminate Hc | reflexivity]. }
  unfold sentenceAwareTruncate at 1 2.
  rewrite Ht, Hc, (trim_solid _ Hs He), Hc. reflexivity.
Qed.



(** ** Lengths *)

Lemma trimStart_length (s : string) :
  (String.length (trimStart s) <= String.length s)%nat.
Proof.
  induction s as [|c r IH]; simpl; [lia |].
  destruct (is_space c); simpl; lia.
Qed.

Lemma trimEnd_length (s : string) :
  (String.length (trimEnd s) <= String.length s)%nat.
Proof.
  induction s as [|c r IH]; [simpl; lia |].
  rewrite trimEnd_cons.
  destruct (trimEnd r); [destruct (is_space c) |]; simpl in *; lia.
Qed.

Lemma trim_length (s : string) :
  (String.length (trim s) <= String.length s)%nat.
Proof.
  unfold trim. pose proof (trimEnd_length (trimStart s)).
  pose proof (trimStart_length s). lia.
Qed.

Lemma weight_cons (p : string) (l : list string) :
  l <> [] -> weight (p :: l) = (String.length p + 1 + weight l)%nat.
Proof. destruct l; [congruence | reflexivity]. Qed.

Lemma weight_push (c : ascii) (l : list string) :
  l <> [] -> weight (push c l) = S (weight l).
Proof.
  destruct l as [|h [|h2 tl]]; [congruence | reflexivity | reflexivity].
Qed.

Lemma split_from_weight (s : string) (st : scan) :
  (weight (split_from st s) <= String.length s)%nat.
Proof.
  revert st. induction s as [|c r IH]; intros st; [simpl; lia |].
  rewrite split_from_cons.
  pose proof (IH InSep) as Hsep. pose proof (IH (after c)) as Hreg.
  pose proof (weight_push c _ (split_from_nonempty (after c) r)) as Hp.
  pose proof (weight_cons EmptyString _ (split_from_nonempty InSep r)) as Hc.
  destruct st, (is_space c); simpl String.length in *; lia.
Qed.

Lemma join_length (l : list string) :
  String.length (Js.join " " l) = weight l.
Proof.
  induction l as [|p [|q tl] IH]; [reflexivity | reflexivity |].
  change (Js.join " " (p :: q :: tl))
    with (p +:+ String " " (Js.join " " (q :: tl))).
  rewrite weight_cons by discriminate. rewrite <- IH.
  clear IH. induction p as [|c p IHp]; simpl in *; lia.
Qed.

Lemma collect_weight (n : Z) (l : list string) :
  Chain l -> forall c, (weight (collect n c l) <= weight l)%nat.
Proof.
  induction 1 as [p Hp | p q tl [Hp Hfin] Hc IH]; intros c.
  - rewrite (collect_sentence n c p [] Hp).
    destruct (_ >=? _); simpl; lia.
  - rewrite (collect_sentence n c p (q :: tl) Hp).
    rewrite (weight_cons p (q :: tl)) by discriminate.
    destruct (_ >=? _); [simpl; lia |].
    specialize (IH (c + Js.len (words p))).
    destruct (collect n _ (q :: tl)) eqn:E; [simpl; lia |].
    rewrite weight_cons by discriminate. lia.
Qed.

(** X7. Truncation never lengthens a text, and its result is empty
    exactly when the text is blank: a text with any visible content keeps
    at least its first sentence, whatever the budget (zero and negative
    budgets included). *)
Theorem truncate_never_longer (text : string) (n : Z) :
  (String.length (sentenceAwareTruncate text n) <= String.length text)%nat
  /\ (sentenceAwareTruncate text n = EmptyString <-> trim text = EmptyString).
Proof.
  destruct (truthy (trim text)) eqn:Hc.
  - destruct (truncate_not_blank text n Hc) as (Hs & He & Hchain & ->).
    split.
    + rewrite join_length.
      pose proof (collect_weight n _ (split_sentences_chain _ Hs He) 0).
      pose proof (split_from_weight (trim text) Plain).
      pose proof (trim_length text). unfold split_sentences in *. lia.
    + destruct (join_chain _ Hchain) as (_ & Hjs & _).
      split; intros E; rewrite E in *; discriminate.
  - pose proof (truthy_empty _ Hc) as E.
    assert (R : sentenceAwareTruncate text n = EmptyString).
    { unfold sentenceAwareTruncate. rewrite Hc.
      destruct (truthy text) eqn:Ht; cbn [negb]; [exact E |].
      now apply truthy_empty. }
    rewrite R. split; [simpl; lia | tauto].
Qed.

End TruncateMoreFacts.

Lemma truncate_never_longer_witness :
  (String.length
     (Truncate.sentenceAwareTruncate "We collect data. We share it." 2)
   <= 29)%nat.
Proof.
  exact (proj1 (truncate_never_longer "We collect data. We share it." 2)).
Defined.

Section TruncateBudget.

Import Truncate Shape TruncateMore.




End TruncateBudget.

(* ===================================================================== *)
(** * Further facts: score, grade and category                           *)
(* ===================================================================== *)

Section ScoreMoreFacts.

Import Gemini ScoreMore.

Lemma fold_bonus_shift (P : string -> bool) (k : Z) (l : list string) (a d : Z) :
  fold_left (fun score word => if P word then score + k else score) l (a + d)
  = fold_left (fun score word => if P word then score + k else score) l a + d.
Proof.
  revert a. induction l as [|w l IH]; intros a; [reflexivity |].
  simpl. destruct (P w); [| apply IH].
  replace (a + d + k) with (a + k + d) by lia. apply IH.
Qed.

Lemma fold_bonus_bounds (P : string -> bool) (k : Z) (l : list string) (a : Z) :
  0 <= k ->
  a <= fold_left (fun score word => if P word then score + k else score) l a
    <= a + k * Js.len l.
Proof.
  intros Hk. revert a. induction l as [|w l IH]; intros a.
  - unfold Js.len. simpl. lia.
  - simpl. unfold Js.len in *. 
    destruct (P w); [specialize (IH (a + k)) | specialize (IH a)];
      rewrite length_cons; nia.
Qed.

Lemma fold_malus_bounds (P : string -> bool) (k : Z) (l : list string) (a : Z) :
  0 <= k ->
  a - k * Js.len l
  <= fold_left (fun score word => if P word then score - k else score) l a
  <= a.
Proof.
  intros Hk. revert a. induction l as [|w l IH]; intros a.
  - unfold Js.len. simpl. lia.
  - simpl. unfold Js.len in *.
    destruct (P w); [specialize (IH (a - k)) | specialize (IH a)];
      rewrite length_cons; nia.
Qed.

Lemma fold_malus_shift (P : string -> bool) (k : Z) (l : list string) (a d : Z) :
  fold_left (fun score word => if P word then score - k else score) l (a + d)
  = fold_left (fun score word => if P word then score - k else score) l a + d.
Proof.
  revert a. induction l as [|w l IH]; intros a; [reflexivity |].
  simpl. destruct (P w); [| apply IH].
  replace (a + d - k) with (a - k + d) by lia. apply IH.
Qed.

Lemma server_tier_chain (n : Z) :
  (if n =? 0 then 0 + 40
   else if n <=? 2 then 0 + 35
   else if n <=? 5 then 0 + 25
   else if n <=? 10 then 0 + 15
   else if n <=? 15 then 0 + 5 else 0) = server_tier n.
Proof.
  unfold server_tier.
  repeat match goal with
         | |- context [if ?b then _ else _] => destruct b
         end; reflexivity.
Qed.

Lemma client_tier_chain (n : Z) :
  (if n =? 0 then 0 + 70
   else if n <=? 2 then 0 + 60
   else if n <=? 5 then 0 + 45
   else if n <=? 10 then 0 + 30
   else if n <=? 15 then 0 + 15 else 0) = client_tier n.
Proof.
  unfold client_tier.
  repeat match goal with
         | |- context [if ?b then _ else _] => destruct b
         end; reflexivity.
Qed.

(** The raw totals, factor by factor. *)
Lemma server_raw_split (i : SiteController.scoreInput) :
  SiteController.rawScore i
  = server_tier (Js.len (SiteController.trackers i))
    + server_pre (SiteController.url i) (SiteController.simplifiedPolicy i)
    + server_ai_part (SiteController.aiSummary i).
Proof.
  assert (Hb : SiteController.score_before_ai i
               = server_tier (Js.len (SiteController.trackers i))
                 + server_pre (SiteController.url i)
                              (SiteController.simplifiedPolicy i)).
  { unfold SiteController.score_before_ai, server_pre. cbv zeta.
    rewrite server_tier_chain.
    set (t := server_tier _).
    destruct (Js.startsWith _ _).
    - replace (t + 10) with (10 + t) by lia.
      now rewrite fold_bonus_shift, fold_malus_shift, Z.add_comm.
    - replace t with (0 + t) at 1 by lia.
      now rewrite fold_bonus_shift, fold_malus_shift, Z.add_comm. }
  unfold SiteController.rawScore, server_ai_part, Reference.riskBonus.
  cbv zeta. rewrite Hb.
  destruct (SiteController.aiSummary i) as [ai|]; [| lia].
  destruct (success ai); [| lia].
  repeat destruct (_ <=? _); lia.
Qed.

Lemma client_raw_split (d : Scoring.initialSiteData) (n : Z) :
  Scoring.rawScore d n
  = client_tier n
    + client_pre (Scoring.url d) (Scoring.simplifiedPolicy d)
    + client_ai_part (Scoring.aiSummary d).
Proof.
  unfold Scoring.rawScore, client_pre, client_ai_part. cbv zeta.
  rewrite client_tier_chain.
  set (t := client_tier n).
  set (P := fun score word => if Js.includes _ word then score + 3 else score).
  set (N := fun score word => if Js.includes _ word then score - 2 else score).
  assert (Hb : fold_left N Scoring.negativeKeywords
                 (fold_left P Scoring.positiveKeywords
                    (if Js.startsWith (Scoring.url d) "https://"
                     then t + 10 else t))
               = t + fold_left N Scoring.negativeKeywords
                       (fold_left P Scoring.positiveKeywords
                          (if Js.startsWith (Scoring.url d) "https://"
                           then 10 else 0))).
  { subst P N. destruct (Js.startsWith _ _).
    - replace (t + 10) with (10 + t) by lia.
      now rewrite fold_bonus_shift, fold_malus_shift, Z.add_comm.
    - replace t with (0 + t) at 1 by lia.
      now rewrite fold_bonus_shift, fold_malus_shift, Z.add_comm. }
  rewrite Hb.
  destruct (Scoring.aiSummary d) as [ai|]; [| lia].
  destruct (success ai); [| lia].
  repeat destruct (_ <=? _); lia.
Qed.

Lemma server_tier_antitone (n m : Z) :
  0 <= n <= m -> server_tier m <= server_tier n.
Proof.
  intros H. unfold server_tier.
  repeat match goal with
         | |- context [?a =? ?b] => destruct (Z.eqb_spec a b)
         | |- context [?a <=? ?b] => destruct (Z.leb_spec a b)
         end; lia.
Qed.

Lemma client_tier_antitone (n m : Z) :
  0 <= n <= m -> client_tier m <= client_tier n.
Proof.
  intros H. unfold client_tier.
  repeat match goal with
         | |- context [?a =? ?b] => destruct (Z.eqb_spec a b)
         | |- context [?a <=? ?b] => destruct (Z.leb_spec a b)
         end; lia.
Qed.

(** X9. More trackers never raise the score: with the URL, the policy
    text and the summary fixed, the server-side score does not increase
    when the tracker list grows, and the client-side score does not
    increase when more trackers are left unblocked. *)
Theorem score_antitone_in_trackers :
  (forall (u : string) (p : option string) (a : option aiResult)
          (ts ts' : list string),
      (length ts <= length ts')%nat ->
      SiteController.calculatePrivacyScore
        {| SiteController.url := u; SiteController.simplifiedPolicy := p;
           SiteController.trackers := ts'; SiteController.aiSummary := a |}
      <= SiteController.calculatePrivacyScore
           {| SiteController.url := u; SiteController.simplifiedPolicy := p;
              SiteController.trackers := ts; SiteController.aiSummary := a |})
  /\
  (forall (d : Scoring.initialSiteData) (n n' : Z),
      0 <= n <= n' ->
      Scoring.calculateDynamicPrivacyScore d n'
      <= Scoring.calculateDynamicPrivacyScore d n).
Proof.
  split.
  - intros u p a ts ts' Hlen.
    rewrite !server_score_clamp, !server_raw_split.
    cbn [SiteController.url SiteController.simplifiedPolicy
         SiteController.trackers SiteController.aiSummary].
    pose proof (server_tier_antitone (Js.len ts) (Js.len ts')) as H.
    unfold Js.len in *. unfold Reference.clamp. lia.
  - intros d n n' Hn.
    rewrite !client_score_clamp, !client_raw_split.
    pose proof (client_tier_antitone n n' Hn). unfold Reference.clamp. lia.
Qed.

Lemma score_antitone_in_trackers_witness :
  SiteController.calculatePrivacyScore
    {| SiteController.url := "https://example.com";
       SiteController.simplifiedPolicy := None;
       SiteController.trackers := Inputs.two_trackers ++ Inputs.two_trackers;
       SiteController.aiSummary := None |}
  <= SiteController.calculatePrivacyScore
       {| SiteController.url := "https://example.com";
          SiteController.simplifiedPolicy := None;
          SiteController.trackers := Inputs.two_trackers;
          SiteController.aiSummary := None |}
  /\ Scoring.calculateDynamicPrivacyScore Inputs.best_case 16
     <= Scoring.calculateDynamicPrivacyScore Inputs.best_case 3.
Proof.
  destruct score_antitone_in_trackers as [Hs Hc].
  split; [apply Hs; simpl; lia | apply Hc; lia].
Defined.

(** X10. The server-side score never exceeds 97.  Without a successful
    summary it never exceeds 82, so the grade is then B+ at best; and a
    score of 95 or more (grade A+) is only given to a site without
    trackers, served over https, with a successful summary. *)
Theorem score_ceilings (i : SiteController.scoreInput) :
  let s := SiteController.calculatePrivacyScore i in
  s <= 97 /\
  (SiteController.ai_succeeded (SiteController.aiSummary i) = false ->
   s <= 82 /\
   ~ In (SiteController.getGradeFromScore s) ["A+"; "A"; "A-"]) /\
  (95 <= s ->
   SiteController.trackers i = [] /\
   Js.startsWith (SiteController.url i) "https://" = true /\
   SiteController.ai_succeeded (SiteController.aiSummary i) = true).
Proof.
  intros s. subst s. rewrite server_score_clamp, server_raw_split.
  set (n := Js.len (SiteController.trackers i)).
  assert (Hn : 0 <= n) by (unfold n, Js.len; lia).
  assert (Htier : server_tier n <= 40 /\ (n <> 0 -> server_tier n <= 35)).
  { unfold server_tier.
    repeat match goal with
           | |- context [?a =? ?b] => destruct (Z.eqb_spec a b)
           | |- context [?a <=? ?b] => destruct (Z.leb_spec a b)
           end; lia. }
  assert (Hpre : server_pre (SiteController.url i)
                            (SiteController.simplifiedPolicy i) <= 42 /\
                 (Js.startsWith (SiteController.url i) "https://" = false ->
                  server_pre (SiteController.url i)
                             (SiteController.simplifiedPolicy i) <= 32)).
  { unfold server_pre. cbv zeta.
    set (lp := SiteController.lowerPolicy_of
                 (SiteController.simplifiedPolicy i)).
    set (h := if Js.startsWith (SiteController.url i) "https://"
              then 10 else 0).
    pose proof (fold_bonus_bounds (Js.includes lp) 4
                  SiteController.positiveKeywords h) as Hpos.
    pose proof (fold_malus_bounds (Js.includes lp) 3
                  SiteController.negativeKeywords
                  (fold_left (fun score word =>
                                if Js.includes lp word then score + 4
                                else score)
                     SiteController.positiveKeywords h)) as Hneg.
    change (Js.len SiteController.positiveKeywords) with 8 in Hpos.
    specialize (Hpos ltac:(lia)). specialize (Hneg ltac:(lia)).
    subst h. destruct (Js.startsWith _ _); split; try discriminate; lia. }
  assert (Hai : server_ai_part (SiteController.aiSummary i) <= 15 /\
                (SiteController.ai_succeeded (SiteController.aiSummary i)
                 = false ->
                 server_ai_part (SiteController.aiSummary i) = 0)).
  { unfold server_ai_part, SiteController.ai_succeeded.
    destruct (SiteController.aiSummary i) as [ai|]; [| split; [lia | auto]].
    destruct (success ai); [| split; [lia | auto]].
    pose proof (penalty_bounds
                  (whoTheyShareWith (base (summary_of ai)))).
    unfold Reference.riskBonus.
    split; [repeat destruct (_ <=? _); lia | discriminate]. }
  unfold Reference.clamp.
  split; [lia |]. split.
  - intros Hf. destruct Hai as [_ Hai]. rewrite (Hai Hf).
    assert (Hs : Z.max 0 (Z.min 100 (server_tier n + server_pre
               (SiteController.url i) (SiteController.simplifiedPolicy i) + 0))
                 <= 82) by lia.
    split; [exact Hs |].
    set (s := Z.max 0 _) in *. clearbody s.
    unfold SiteController.getGradeFromScore.
    rewrite !Z.geb_leb.
    repeat match goal with
           | |- context [?a <=? ?b] => destruct (Z.leb_spec a b)
           end;
      first [ lia | simpl; intuition discriminate ].
  - intros Hs.
    destruct (SiteController.trackers i) as [|t ts] eqn:Ets.
    + split; [reflexivity |].
      destruct (Js.startsWith (SiteController.url i) "https://") eqn:Eh.
      * split; [reflexivity |].
        destruct (SiteController.ai_succeeded _) eqn:Ea; [reflexivity |].
        destruct Hai as [_ Hai]. rewrite (Hai eq_refl) in Hs. lia.
      * destruct Hpre as [_ Hpre]. specialize (Hpre eq_refl). lia.
    + assert (n <> 0) by (unfold n, Js.len; simpl; lia).
      destruct Htier as [_ Htier]. specialize (Htier H). lia.
Qed.

Lemma score_ceilings_witness :
  SiteController.calculatePrivacyScore Inputs.worst_case <= 82.
Proof.
  apply (score_ceilings Inputs.worst_case). reflexivity.
Defined.

End ScoreMoreFacts.

Section GradeCategory.

Import Gemini ScoreMore.

Lemma prefix_of_append (t a b : string) :
  String.prefix t ((t +:+ a) +:+ b) = true.
Proof. rewrite append_assoc. apply prefix_append. Qed.

Lemma friendly_summary_prefix (s : SiteController.site) (lead : string) :
  (forall count : string,
      exists rest,
        (if SiteController.s_score s >=? 80 then
           "This site has excellent privacy practices with minimal tracking ("
           +:+ count +:+ " trackers)."
         else if SiteController.s_score s >=? 65 then
           "This site has good privacy practices but uses some tracking ("
           +:+ count +:+ " trackers)."
         else if SiteController.s_score s >=? 50 then
           "This site has moderate privacy practices with noticeable tracking ("
           +:+ count +:+ " trackers)."
         else if SiteController.s_score s >=? 35 then
           "This site has poor privacy practices with significant tracking ("
           +:+ count +:+ " trackers)."
         else
           "This site has very poor privacy practices with extensive tracking ("
           +:+ count +:+ " trackers).") = lead +:+ rest) ->
  String.prefix lead (SiteController.generateUserFriendlySummary s) = true.
Proof.
  intros H. unfold SiteController.generateUserFriendlySummary. cbv zeta.
  destruct (H (pretty (Js.len (SiteController.s_trackers s)))) as [rest ->].
  destruct (SiteController.s_aiSummary s) as [ai|]; [| apply prefix_append].
  destruct (success ai); [| apply prefix_append].
  destruct (0 <? _); [| apply prefix_append].
  rewrite append_assoc. apply prefix_append.
Qed.

(** X11. Grade, category and the user-facing sentence never contradict
    each other: a score is Excellent exactly when its grade is B+ or
    better, grade F only goes with Poor or Very Poor, Very Poor always
    has grade F, and the sentence built for a stored site opens with the
    adjective of the category of its score. *)
Theorem grade_category_sentence_agree (score : Z) :
  (SiteController.getCategory score = "Excellent" <->
   In (SiteController.getGradeFromScore score) ["A+"; "A"; "A-"; "B+"]) /\
  (SiteController.getGradeFromScore score = "F" ->
   In (SiteController.getCategory score) ["Poor"; "Very Poor"]) /\
  (SiteController.getCategory score = "Very Poor" ->
   SiteController.getGradeFromScore score = "F") /\
  (forall s : SiteController.site,
      SiteController.s_score s = score ->
      String.prefix
        ("This site has " +:+ adjective (SiteController.getCategory score)
         +:+ " privacy practices")
        (SiteController.generateUserFriendlySummary s) = true).
Proof.
  split; [| split; [| split]].
  - unfold SiteController.getCategory, SiteController.getGradeFromScore.
    rewrite !Z.geb_leb.
    repeat match goal with
           | |- context [?a <=? ?b] => destruct (Z.leb_spec a b)
           end; try lia; simpl; split; intros Heq;
      try discriminate Heq; try tauto; intuition discriminate.
  - unfold SiteController.getCategory, SiteController.getGradeFromScore.
    rewrite !Z.geb_leb.
    repeat match goal with
           | |- context [?a <=? ?b] => destruct (Z.leb_spec a b)
           end; try lia; simpl; intros Heq; try discriminate Heq; tauto.
  - unfold SiteController.getCategory, SiteController.getGradeFromScore.
    rewrite !Z.geb_leb.
    repeat match goal with
           | |- context [?a <=? ?b] => destruct (Z.leb_spec a b)
           end; try lia; simpl; intros Heq; try discriminate Heq; reflexivity.
  - intros s Hs. apply friendly_summary_prefix. intros count.
    rewrite Hs. unfold SiteController.getCategory.
    destruct (score >=? 80);
      [exists (" with minimal tracking (" +:+ count +:+ " trackers).");
       reflexivity |].
    destruct (score >=? 65);
      [exists (" but uses some tracking (" +:+ count +:+ " trackers).");
       reflexivity |].
    destruct (score >=? 50);
      [exists (" with noticeable tracking (" +:+ count +:+ " trackers).");
       reflexivity |].
    destruct (score >=? 35);
      [exists (" with significant tracking (" +:+ count +:+ " trackers).");
       reflexivity |].
    exists (" with extensive tracking (" +:+ count +:+ " trackers).").
    reflexivity.
Qed.

Lemma grade_category_sentence_agree_witness :
  In (SiteController.getCategory 39) ["Poor"; "Very Poor"] /\
  String.prefix "This site has poor privacy practices"
    (SiteController.generateUserFriendlySummary (Inputs.stored true)) = true.
Proof.
  split.
  - apply (grade_category_sentence_agree 39). reflexivity.
  - apply (grade_category_sentence_agree 45 ). reflexivity.
Defined.

End GradeCategory.

(* ===================================================================== *)
(** * Further facts: the orchestrator and its store                      *)
(* ===================================================================== *)

Section StoreFacts.

Import Gemini SiteController Reference Store.

Variable url_hostname : string -> option string.

Lemma sort_nodup (l : list string) : NoDup l -> NoDup (Js.sort l).
Proof. intros H. now rewrite sort_permutation. Qed.

Lemma sort_idempotent (l : list string) : Js.sort (Js.sort l) = Js.sort l.
Proof. apply sort_fixpoint, sort_sorted. Qed.

(** A detection that succeeds hands back a sorted list without
    duplicates. *)
Lemma detect_success_sorted (b : TrackerService.browserScenario)
      (url : string) (o : TrackerService.options)
      (r : TrackerService.detectResult) :
  fst (TrackerService.detectTrackers url_hostname b url o) = Returned r ->
  TrackerService.r_success r = true ->
  exists d : gset string,
    TrackerService.detectedTrackers r = Js.sort (elements d) /\
    TrackerService.r_trackerCount r = Some (Z.of_nat (size d)).
Proof.
  intros Hr Hok.
  destruct (url_hostname url) as [mainDomain|] eqn:Hurl.
  - destruct (detectTrackers_outcome url_hostname o mainDomain b url Hurl)
      as [_ Hres].
    cbv zeta in Hres. rewrite Hr in Hres.
    destruct (first_error b) as [e|]; [destruct (String.eqb _ _) |];
      injection Hres as ->; try (eexists; split; reflexivity).
    discriminate Hok.
  - unfold TrackerService.detectTrackers in Hr. rewrite Hurl in Hr.
    discriminate Hr.
Qed.

(** What [full_analysis] leaves in the store. *)
Lemma full_analysis_store (sc : scenario) (w : world) (url : string)
      (policy : option string) (done : list call) :
  let out := full_analysis url_hostname sc w url policy done in
  sites (after out) = sites w \/
  exists s,
    sites (after out) = <[url := s]> (sites w) /\
    s_url s = url /\ s_simplifiedPolicy s = policy /\
    s_lastAnalyzed s = Some (saved_at sc) /\ consistent s /\
    res out = {| status := 201;
                 json := Ok "Site analyzed successfully" None (view_of s) |}.
Proof.
  intros out. subst out. unfold full_analysis.
  destruct (fst (TrackerService.detectTrackers _ _ _ _))
    as [r | m] eqn:Hr; [| now left].
  destruct (TrackerService.r_success r) eqn:Hok; cbn [negb]; [| now left].
  destruct (detect_success_sorted _ _ _ _ Hr Hok) as (d & Hd & _).
  pose proof (summarizer_array url_hostname (ai sc)
                (TrackerService.detectedTrackers r) url (aiCache w)) as Harr.
  destruct (generateAIPrivacySummary _ _ _ _ _) as [summarized st].
  cbn [snd] in Harr.
  destruct summarized as [a | m]; [| now left].
  destruct (connected_at_save sc); [| now left].
  destruct (upsert_error sc); [now left |].
  right. eexists. split; [reflexivity |].
  cbn [s_url s_simplifiedPolicy s_lastAnalyzed].
  split; [reflexivity |]. split; [reflexivity |]. split; [reflexivity |].
  split; [| reflexivity].
  unfold consistent. cbn [s_score s_grade s_category s_trackers].
  split; [rewrite server_score_clamp; unfold clamp; lia |].
  split; [reflexivity |].
  split; [reflexivity |].
  rewrite Harr, Hd, sort_idempotent.
  split; [apply sort_sorted | apply sort_nodup, NoDup_elements].
Qed.

(** A 201 answer without warning means the record of the answer was
    written under the URL. *)
Lemma full_analysis_created (sc : scenario) (w : world) (url : string)
      (policy : option string) (done : list call) (m : string) (v : siteView) :
  res (full_analysis url_hostname sc w url policy done)
  = {| status := 201; json := Ok m None v |} ->
  exists s,
    after (full_analysis url_hostname sc w url policy done)
    = {| sites := <[url := s]> (sites w);
         aiCache := aiCache (after (full_analysis url_hostname sc w url
                                                  policy done)) |}
    /\ v = view_of s /\ s_lastAnalyzed s = Some (saved_at sc).
Proof.
  unfold full_analysis.
  destruct (fst (TrackerService.detectTrackers _ _ _ _)) as [r | e];
    [| discriminate].
  destruct (negb (TrackerService.r_success r)); [discriminate |].
  destruct (generateAIPrivacySummary _ _ _ _ _) as [summarized st].
  destruct summarized as [a | e]; [| discriminate].
  destruct (connected_at_save sc); [| discriminate].
  destruct (upsert_error sc); [discriminate |].
  cbn [res after sites aiCache]. intros [= <- <-].
  eexists. split; [reflexivity |]. split; reflexivity.
Qed.

Lemma analyzeSite_paths (sc : scenario) (w : world) (req : analysisRequest) :
  let out := analyzeSite url_hostname sc w req in
  (after out = w /\ status (res out) <> 201) \/
  exists done,
    out = full_analysis url_hostname sc w (req_url req)
                        (req_simplifiedPolicy req) done.
Proof.
  intros out. subst out. unfold analyzeSite.
  destruct (connected_at_check sc); [| right; eexists; reflexivity].
  destruct (find_error sc); [left; split; [reflexivity | discriminate] |].
  destruct (sites w !! req_url req) as [existing|];
    [| right; eexists; reflexivity].
  destruct (isCacheValid (now sc) existing);
    [left; split; [reflexivity | discriminate] | right; eexists; reflexivity].
Qed.

(** X12. An analysis writes at most one record, under the URL of the
    request, and what it writes is consistent: the score is in [0,100],
    grade and category are those of the score, the tracker list is
    sorted and free of duplicates.  So a store whose records are keyed
    by their URL and consistent stays so, and records of other URLs are
    never touched. *)
Theorem analysis_keeps_store_consistent
        (sc : scenario) (w : world) (req : analysisRequest) :
  let out := analyzeSite url_hostname sc w req in
  (forall u, u <> req_url req -> sites (after out) !! u = sites w !! u) /\
  ((forall u s, sites w !! u = Some s -> s_url s = u /\ consistent s) ->
   forall u s, sites (after out) !! u = Some s ->
               s_url s = u /\ consistent s).
Proof.
  intros out.
  assert (Hst : sites (after out) = sites w \/
                exists s, sites (after out) = <[req_url req := s]> (sites w)
                          /\ s_url s = req_url req /\ consistent s).
  { destruct (analyzeSite_paths sc w req) as [[Hw _] | [done Hfa]];
      fold out in Hw || fold out in Hfa.
    - left. now rewrite Hw.
    - rewrite Hfa.
      destruct (full_analysis_store sc w (req_url req)
                  (req_simplifiedPolicy req) done)
        as [H | (s & H & Hu & _ & _ & Hc & _)]; [now left |].
      right. exists s. auto. }
  split.
  - intros u Hu. destruct Hst as [-> | (s & -> & _)]; [reflexivity |].
    now rewrite lookup_insert_ne by congruence.
  - intros Hinv u s.
    destruct Hst as [-> | (s' & -> & Hu' & Hc')]; [apply Hinv |].
    destruct (decide (req_url req = u)) as [<- | Hne].
    + rewrite lookup_insert_eq. now intros [= <-].
    + rewrite lookup_insert_ne by exact Hne. apply Hinv.
Qed.

(** X13. What was analysed is served back: when an analysis answers 201
    without a warning, a later request for the same URL that reaches the
    store within the validity of the record (48 hours after a successful
    summary, 30 minutes otherwise) answers 200 with the very same site
    object, without crawling, whatever its policy text and
    [forceRefresh] flag. *)
Theorem analysis_then_cache_hit
        (sc1 sc2 : scenario) (w : world) (req1 req2 : analysisRequest)
        (m : string) (v : siteView) :
  res (analyzeSite url_hostname sc1 w req1)
  = {| status := 201; json := Ok m None v |} ->
  req_url req2 = req_url req1 ->
  connected_at_check sc2 = true ->
  find_error sc2 = None ->
  now sc2 - saved_at sc1 < ttl (v_aiSummary v) ->
  let w1 := after (analyzeSite url_hostname sc1 w req1) in
  let out2 := analyzeSite url_hostname sc2 w1 req2 in
  res out2 = {| status := 200;
                json := Ok "Site data retrieved from cache" None v |}
  /\ after out2 = w1 /\ calls out2 = [FindOne (req_url req1)].
Proof.
  intros Hres Hurl Hc Hf Hage w1 out2.
  assert (Hs : exists s, sites w1 !! req_url req1 = Some s /\ v = view_of s
                         /\ s_lastAnalyzed s = Some (saved_at sc1)).
  { subst w1.
    destruct (analyzeSite_paths sc1 w req1) as [[_ Hno] | [done Hfa]].
    - rewrite Hres in Hno. now contradiction Hno.
    - rewrite Hfa in *.
      destruct (full_analysis_created sc1 w _ _ done m v Hres)
        as (s & Hafter & Hv & Hl).
      exists s. rewrite Hafter. cbn [sites].
      rewrite lookup_insert_eq. auto. }
  destruct Hs as (s & Hlook & -> & Hl).
  rewrite <- Hurl in Hlook.
  subst out2.
  rewrite (analyzeSite_found url_hostname sc2 w1 req2 s Hc Hf Hlook).
  assert (Hvalid : isCacheValid (now sc2) s = true).
  { unfold isCacheValid. rewrite Hl. unfold ttl in Hage.
    cbn [view_of v_aiSummary] in Hage.
    destruct (ai_succeeded (s_aiSummary s)); apply Z.ltb_lt; exact Hage. }
  rewrite Hvalid, Hurl. split; [reflexivity |]. split; reflexivity.
Qed.

End StoreFacts.

Lemma analysis_keeps_store_consistent_witness :
  exists s,
    SiteController.sites
      (SiteController.after
         (SiteController.analyzeSite
            Inputs.example_hostname (Inputs.first_visit Inputs.no_key)
            Inputs.empty_world (Inputs.request false)))
    !! "https://example.com" = Some s
    /\ SiteController.s_url s = "https://example.com" /\ Store.consistent s.
Proof.
  eexists. split; [vm_compute; reflexivity |].
  refine (proj2 (analysis_keeps_store_consistent
                   Inputs.example_hostname (Inputs.first_visit Inputs.no_key)
                   Inputs.empty_world (Inputs.request false))
                _ "https://example.com" _ _).
  - intros u s Hs. cbn in Hs. rewrite lookup_empty in Hs. discriminate Hs.
  - vm_compute. reflexivity.
Defined.

Lemma analysis_then_cache_hit_witness :
  SiteController.calls
    (SiteController.analyzeSite
       Inputs.example_hostname (Inputs.at_age 6000)
       (SiteController.after
          (SiteController.analyzeSite
             Inputs.example_hostname (Inputs.first_visit Inputs.no_key)
             Inputs.empty_world (Inputs.request false)))
       (Inputs.request true))
  = [SiteController.FindOne "https://example.com"].
Proof.
  edestruct (analysis_then_cache_hit
               Inputs.example_hostname (Inputs.first_visit Inputs.no_key)
               (Inputs.at_age 6000) Inputs.empty_world
               (Inputs.request false) (Inputs.request true))
    as (_ & _ & H).
  - vm_compute. reflexivity.
  - reflexivity.
  - reflexivity.
  - reflexivity.
  - vm_compute. reflexivity.
  - exact H.
Defined.

Section FailurePaths.

Import Gemini SiteController Reference.

Variable url_hostname : string -> option string.

Lemma analyzeSite_first_visit (sc : scenario) (w : world)
      (req : analysisRequest) :
  find_error sc = None ->
  sites w !! req_url req = None ->
  analyzeSite url_hostname sc w req
  = full_analysis url_hostname sc w (req_url req) (req_simplifiedPolicy req)
      (if connected_at_check sc then [FindOne (req_url req)] else []).
Proof.
  intros Hf Hs. unfold analyzeSite. rewrite Hf, Hs.
  destruct (connected_at_check sc); reflexivity.
Qed.

(** X14. A detection that fails ends the request at once: for a URL with
    no stored record, when the first error of the crawl is not a
    time-out the answer is 500 "Failed to analyze website trackers" with
    the error's message as details, and when the URL cannot be parsed it
    is 500 "Invalid URL"; in both cases nothing is written, neither to
    the store nor to the summarizer's cache, and neither the summarizer
    nor the store's upsert is called. *)
Theorem detection_failure_stops_analysis
        (sc : scenario) (w : world) (req : analysisRequest) :
  find_error sc = None ->
  sites w !! req_url req = None ->
  let out := analyzeSite url_hostname sc w req in
  let only_detect :=
    calls out = (if connected_at_check sc then [FindOne (req_url req)] else [])
                ++ [Detect (req_url req)] in
  (forall mainDomain e,
      url_hostname (req_url req) = Some mainDomain ->
      first_error (crawl sc) = Some e ->
      TrackerService.err_name e <> "TimeoutError" ->
      res out = {| status := 500;
                   json := Failed "Failed to analyze website trackers"
                                  (Some (TrackerService.err_message e)) |}
      /\ after out = w /\ only_detect)
  /\
  (url_hostname (req_url req) = None ->
   res out = {| status := 500; json := Failed "Invalid URL" None |}
   /\ after out = w /\ only_detect).
Proof.
  intros Hf Hs out only_detect. subst out only_detect.
  rewrite (analyzeSite_first_visit sc w req Hf Hs).
  unfold full_analysis. split.
  - intros mainDomain e Hurl He Hname.
    destruct (detectTrackers_outcome url_hostname
                TrackerService.default_options mainDomain (crawl sc)
                (req_url req) Hurl) as [_ Hres].
    cbv zeta in Hres. rewrite He in Hres.
    apply String.eqb_neq in Hname. rewrite Hname in Hres.
    rewrite Hres. cbn. auto.
  - intros Hurl. unfold TrackerService.detectTrackers. rewrite Hurl.
    cbn. auto.
Qed.

(** X15. A storage outage at the time of saving does not fail the
    request, a throwing upsert does.  After a successful crawl and a
    summary, when the database is not connected the answer is 201 with
    the computed record and the warning "Database issue: Database not
    connected"; when the upsert throws, the handler reads a variable that
    is out of its scope and the answer is 500 "siteData is not defined",
    without the record.  The store is unchanged in both cases. *)
Theorem storage_failures
        (sc : scenario) (w : world) (url : string) (policy : option string)
        (done : list call)
        (r : TrackerService.detectResult) (a : aiResult) (st : aiState) :
  fst (TrackerService.detectTrackers url_hostname (crawl sc) url
         TrackerService.default_options) = Returned r ->
  TrackerService.r_success r = true ->
  generateAIPrivacySummary url_hostname (ai sc)
    (TrackerService.detectedTrackers r) url (aiCache w) = (Returned a, st) ->
  let out := full_analysis url_hostname sc w url policy done in
  (connected_at_save sc = false ->
   (exists v,
       res out = {| status := 201;
                    json := Ok "Site analyzed successfully"
                               (Some "Database issue: Database not connected")
                               v |}
       /\ v_aiSummary v = Some a /\ v_lastAnalyzed v = Some (saved_at sc))
   /\ sites (after out) = sites w)
  /\
  (connected_at_save sc = true ->
   forall m, upsert_error sc = Some m ->
   res out = {| status := 500; json := Failed "siteData is not defined" None |}
   /\ sites (after out) = sites w).
Proof.
  intros Hr Hok Hgen out. subst out. unfold full_analysis.
  rewrite Hr, Hok, Hgen. cbn [negb]. split.
  - intros ->. split; [| reflexivity].
    eexists. split; [reflexivity |]. split; reflexivity.
  - intros -> m ->. split; reflexivity.
Qed.

End FailurePaths.

Lemma detection_failure_stops_analysis_witness :
  SiteController.analyzeSite Inputs.example_hostname MoreInputs.crawl_fails
                             Inputs.empty_world (Inputs.request false)
  = {| SiteController.res :=
         {| SiteController.status := 500;
            SiteController.json :=
              SiteController.Failed "Failed to analyze website trackers"
                                    (Some "net::ERR_NAME_NOT_RESOLVED") |};
       SiteController.after := Inputs.empty_world;
       SiteController.calls :=
         [SiteController.FindOne "https://example.com";
          SiteController.Detect "https://example.com"] |}.
Proof.
  destruct (detection_failure_stops_analysis
              Inputs.example_hostname MoreInputs.crawl_fails
              Inputs.empty_world (Inputs.request false)
              eq_refl (lookup_empty _)) as [H _].
  assert (Hname : TrackerService.err_name Inputs.network_error
                  <> "TimeoutError") by discriminate.
  destruct (H "example.com" Inputs.network_error eq_refl eq_refl Hname)
    as (Hres & Hafter & Hcalls).
  destruct (SiteController.analyzeSite _ _ _ _) as [r a c].
  simpl in Hres, Hafter, Hcalls. now rewrite Hres, Hafter, Hcalls.
Defined.

Lemma storage_failures_witness :
  (exists v,
      SiteController.res
        (SiteController.full_analysis
           Inputs.example_hostname MoreInputs.store_lost Inputs.empty_world
           "https://example.com" None [])
      = {| SiteController.status := 201;
           SiteController.json :=
             SiteController.Ok
               "Site analyzed successfully"
               (Some "Database issue: Database not connected") v |}
      /\ SiteController.v_lastAnalyzed v = Some 5000)
  /\
  SiteController.res
    (SiteController.full_analysis
       Inputs.example_hostname MoreInputs.upsert_throws Inputs.empty_world
       "https://example.com" None [])
  = {| SiteController.status := 500;
       SiteController.json :=
         SiteController.Failed "siteData is not defined" None |}.
Proof.
  split.
  - edestruct (storage_failures
                 Inputs.example_hostname MoreInputs.store_lost
                 Inputs.empty_world "https://example.com" None [])
      as [H _].
    + vm_compute. reflexivity.
    + reflexivity.
    + vm_compute. reflexivity.
    + destruct (H eq_refl) as [(v & Hres & _ & Hlast) _].
      exists v. split; [exact Hres | exact Hlast].
  - edestruct (storage_failures
                 Inputs.example_hostname MoreInputs.upsert_throws
                 Inputs.empty_world "https://example.com" None [])
      as [_ H].
    + vm_compute. reflexivity.
    + reflexivity.
    + vm_compute. reflexivity.
    + exact (proj1 (H eq_refl _ eq_refl)).
Defined.

(* ===================================================================== *)
(** * Further facts: what the crawler reports                            *)
(* ===================================================================== *)

Section ReportFacts.

Import Gemini TrackerService Reference Crawl.

Variable url_hostname : string -> option string.
Variable o : options.
Variable mainDomain : string.

Lemma on_request_kept (r : request) (s : detectState) :
  detected (on_request url_hostname o mainDomain r s)
  = match kept url_hostname o mainDomain r with
    | Some d => {[ d ]} ∪ detected s
    | None => detected s
    end
  /\
  trackerRequests (on_request url_hostname o mainDomain r s)
  = trackerRequests s ++
    (if verbose o
     then match record_of url_hostname o mainDomain r with
          | Some q => [q] | None => []
          end
     else []).
Proof.
  unfold on_request, record_of, kept.
  destruct (extractDomain _ _) as [d|].
  - destruct (_ && _); simpl.
    + split; [reflexivity |]. destruct (verbose o); [reflexivity |].
      now rewrite app_nil_r.
    + split; [reflexivity |]. destruct (verbose o); now rewrite app_nil_r.
  - split; [reflexivity |]. destruct (verbose o); now rewrite app_nil_r.
Qed.

Lemma feed_kept (rs : list request) (s : detectState) :
  detected (feed url_hostname o mainDomain rs s)
  = list_to_set (omap (kept url_hostname o mainDomain) rs) ∪ detected s
  /\
  trackerRequests (feed url_hostname o mainDomain rs s)
  = trackerRequests s ++
    (if verbose o then omap (record_of url_hostname o mainDomain) rs else []).
Proof.
  unfold feed. revert s.
  induction rs as [|r rs IH]; intros s; simpl.
  - split; [now rewrite (left_id_L ∅ (∪)) |].
    destruct (verbose o); now rewrite app_nil_r.
  - destruct (IH (on_request url_hostname o mainDomain r s)) as [-> ->].
    destruct (on_request_kept r s) as [-> ->].
    unfold record_of.
    destruct (kept url_hostname o mainDomain r) as [d|]; simpl.
    + split.
      { now rewrite (assoc_L (∪)), (comm_L (∪) _ {[ d ]}). }
      destruct (verbose o); simpl.
      * now rewrite <- app_assoc.
      * now rewrite !app_nil_r.
    + split; [reflexivity |]. destruct (verbose o); simpl;
        now rewrite ?app_nil_r.
Qed.

(** The record of a successful call, in terms of the requests seen. *)
Lemma detect_success_record (sc : browserScenario) (url : string)
      (r : detectResult) :
  url_hostname url = Some mainDomain ->
  fst (detectTrackers url_hostname sc url o) = Returned r ->
  r_success r = true ->
  r = success_record url o
        (list_to_set (omap (kept url_hostname o mainDomain)
                           (seen_before sc o)))
        (if verbose o
         then omap (record_of url_hostname o mainDomain) (seen_before sc o)
         else []).
Proof.
  intros Hurl Hr Hok.
  destruct (detectTrackers_outcome url_hostname o mainDomain sc url Hurl)
    as [_ Hres].
  cbv zeta in Hres. rewrite Hr in Hres.
  destruct (feed_kept (seen_before sc o) initial) as [Hd Hq].
  rewrite Hd, Hq in Hres. cbn [detected trackerRequests initial app] in Hres.
  rewrite (right_id_L ∅ (∪)) in Hres.
  destruct (first_error sc) as [e|]; [destruct (String.eqb _ _) |];
    injection Hres as ->; try reflexivity.
  discriminate Hok.
Qed.

Lemma in_sorted_elements (d : string) (D : gset string) :
  In d (Js.sort (elements D)) <-> d ∈ D.
Proof.
  rewrite <- list_elem_of_In, sort_permutation. apply elem_of_elements.
Qed.

Lemma kept_not_first_party (q : request) (d : string) :
  includeFirstParty o = false ->
  kept url_hostname o mainDomain q = Some d -> d <> mainDomain.
Proof.
  intros Hfp. unfold kept.
  destruct (extractDomain _ _) as [d'|]; [| discriminate].
  destruct (Truncate.truthy d') eqn:Ht; [| discriminate]. cbn [andb].
  unfold isTracker. rewrite Hfp. cbn [negb andb].
  destruct (String.eqb d' mainDomain) eqn:E; [discriminate |].
  apply String.eqb_neq in E.
  destruct (existsb _ _); [congruence |].
  destruct (existsb _ _); [congruence |].
  destruct (existsb _ _); [congruence | discriminate].
Qed.

(** X16. What a successful detection reports is exactly the set of
    request hosts the handler accepted before the run ended: a domain is
    in [detectedTrackers] if and only if some request seen before the
    first error has that lower-cased, non-empty host and passes
    [isTracker].  The list is in ascending order without duplicates,
    [trackerCount] is its length, and unless first-party requests were
    asked for, the page's own host is never in it. *)
Theorem detected_trackers_exact
        (sc : browserScenario) (url : string) (r : detectResult) :
  url_hostname url = Some mainDomain ->
  fst (detectTrackers url_hostname sc url o) = Returned r ->
  r_success r = true ->
  (forall d,
      In d (detectedTrackers r) <->
      exists q, In q (seen_before sc o) /\
                extractDomain url_hostname (req_url q) = Some d /\
                d <> "" /\
                isTracker (req_url q) d mainDomain (includeFirstParty o)
                = true)
  /\ Sorted String.le (detectedTrackers r)
  /\ NoDup (detectedTrackers r)
  /\ r_trackerCount r = Some (Js.len (detectedTrackers r))
  /\ r_url r = Some url
  /\ (includeFirstParty o = false -> ~ In mainDomain (detectedTrackers r)).
Proof.
  intros Hurl Hr Hok.
  rewrite (detect_success_record sc url r Hurl Hr Hok).
  cbn [detectedTrackers r_trackerCount r_url success_record].
  assert (Hin : forall d,
             In d (Js.sort (elements
                     (list_to_set (C := gset string)
                        (omap (kept url_hostname o mainDomain)
                              (seen_before sc o))))) <->
             exists q, In q (seen_before sc o) /\
                       kept url_hostname o mainDomain q = Some d).
  { intros d. rewrite in_sorted_elements, elem_of_list_to_set,
      list_elem_of_omap.
    split; intros (q & Hq & Hk); exists q;
      [apply list_elem_of_In in Hq | apply list_elem_of_In in Hq]; auto. }
  split; [| split; [| split; [| split; [| split]]]].
  - intros d. rewrite Hin. split.
    + intros (q & Hq & Hk). exists q. split; [exact Hq |].
      unfold kept in Hk.
      destruct (extractDomain _ _) as [d'|]; [| discriminate].
      destruct (Truncate.truthy d') eqn:Ht; [| discriminate].
      destruct (isTracker _ _ _ _) eqn:Hi; [| discriminate].
      injection Hk as <-. split; [reflexivity |]. split; [| exact Hi].
      intros ->. discriminate Ht.
    + intros (q & Hq & He & Hne & Hi). exists q. split; [exact Hq |].
      unfold kept. rewrite He, Hi.
      destruct d; [contradiction | reflexivity].
  - apply sort_sorted.
  - rewrite sort_permutation. apply NoDup_elements.
  - unfold Js.len. rewrite sort_permutation. reflexivity.
  - reflexivity.
  - intros Hfp Hmain. apply Hin in Hmain as (q & _ & Hk).
    now apply (kept_not_first_party q mainDomain Hfp Hk).
Qed.

Lemma lower_known_domains :
  forallb (fun t => String.eqb (Js.toLowerCase t) t) TRACKER_DOMAINS = true.
Proof. vm_compute. reflexivity. Qed.

(** X17. A request to a host in which a listed tracker domain occurs is
    always counted, whatever its path: on a call that succeeds, if such a
    request was seen before the run ended and its host is not the page's
    own, the host is reported. *)
Theorem known_domain_request_reported
        (sc : browserScenario) (url : string) (r : detectResult)
        (q : request) (d t : string) :
  url_hostname url = Some mainDomain ->
  fst (detectTrackers url_hostname sc url o) = Returned r ->
  r_success r = true ->
  In q (seen_before sc o) ->
  extractDomain url_hostname (req_url q) = Some d ->
  In t TRACKER_DOMAINS ->
  Js.includes d t = true ->
  d <> mainDomain ->
  In d (detectedTrackers r).
Proof.
  intros Hurl Hr Hok Hq He Ht Hinc Hne.
  rewrite (detect_success_record sc url r Hurl Hr Hok).
  cbn [detectedTrackers success_record].
  rewrite in_sorted_elements, elem_of_list_to_set, list_elem_of_omap.
  exists q. split; [now apply list_elem_of_In |].
  unfold kept. rewrite He.
  assert (Hd : Truncate.truthy d = true).
  { destruct d; [| reflexivity].
    apply includes_spec in Hinc as (pre & post & Hs).
    destruct pre; [| discriminate Hs].
    destruct t; [| discriminate Hs].
    exfalso. revert Ht. vm_compute. intuition discriminate. }
  rewrite Hd. cbn [andb].
  unfold isTracker.
  apply String.eqb_neq in Hne. rewrite Hne, andb_false_r.
  assert (Hex : existsb (fun tracker => Js.includes d (Js.toLowerCase tracker))
                        TRACKER_DOMAINS = true).
  { apply existsb_exists. exists t. split; [exact Ht |].
    pose proof lower_known_domains as Hl.
    rewrite forallb_forall in Hl. specialize (Hl t Ht).
    apply String.eqb_eq in Hl. now rewrite Hl. }
  now rewrite Hex.
Qed.

(** X18. With [verbose], the call also returns one record per accepted
    request, in the order of arrival (a host requested twice is recorded
    twice), and the hosts of these records are exactly the reported
    trackers; without [verbose] the field is absent. *)
Theorem verbose_requests_in_order
        (sc : browserScenario) (url : string) (r : detectResult) :
  url_hostname url = Some mainDomain ->
  fst (detectTrackers url_hostname sc url o) = Returned r ->
  r_success r = true ->
  (verbose o = false -> r_requests r = None)
  /\
  (verbose o = true ->
   r_requests r
   = Some (omap (record_of url_hostname o mainDomain) (seen_before sc o))
   /\ forall d,
        In d (detectedTrackers r) <->
        In d (map rr_domain
                  (omap (record_of url_hostname o mainDomain)
                        (seen_before sc o)))).
Proof.
  intros Hurl Hr Hok.
  rewrite (detect_success_record sc url r Hurl Hr Hok).
  cbn [detectedTrackers r_requests success_record].
  split; intros ->; [reflexivity |].
  split; [reflexivity |].
  intros d.
  rewrite in_sorted_elements, elem_of_list_to_set, list_elem_of_omap.
  rewrite in_map_iff. split.
  - intros (q & Hq & Hk).
    exists {| rr_domain := d; rr_url := req_url q; rr_type := req_type q;
              rr_method := req_method q |}.
    split; [reflexivity |].
    apply list_elem_of_In, list_elem_of_omap. exists q.
    split; [exact Hq |]. unfold record_of. now rewrite Hk.
  - intros (rec & <- & Hrec).
    apply list_elem_of_In, list_elem_of_omap in Hrec as (q & Hq & Hk).
    exists q. split; [exact Hq |]. unfold record_of in Hk.
    destruct (kept _ _ _ q); [| discriminate].
    now injection Hk as <-.
Qed.

End ReportFacts.

Lemma detected_trackers_exact_witness :
  exists r,
    fst (TrackerService.detectTrackers
           Inputs.example_hostname Inputs.navigation_times_out
           "https://example.com" TrackerService.default_options)
    = Gemini.Returned r
    /\ Sorted String.le (TrackerService.detectedTrackers r)
    /\ ~ In "example.com" (TrackerService.detectedTrackers r).
Proof.
  edestruct (detected_trackers_exact
               Inputs.example_hostname TrackerService.default_options
               "example.com" Inputs.navigation_times_out
               "https://example.com")
    as (_ & Hsorted & _ & _ & _ & Hfirst).
  - reflexivity.
  - vm_compute. reflexivity.
  - reflexivity.
  - eexists. split; [reflexivity |]. split; [exact Hsorted |].
    exact (Hfirst eq_refl).
Defined.

Lemma known_domain_request_reported_witness :
  exists r,
    fst (TrackerService.detectTrackers
           Inputs.example_hostname Inputs.navigation_times_out
           "https://example.com" TrackerService.default_options)
    = Gemini.Returned r
    /\ In "doubleclick.net" (TrackerService.detectedTrackers r).
Proof.
  eexists. split; [vm_compute; reflexivity |].
  apply (known_domain_request_reported
           Inputs.example_hostname TrackerService.default_options
           "example.com" Inputs.navigation_times_out "https://example.com" _
           (Inputs.get "https://doubleclick.net/ddm/activity")
           "doubleclick.net" "doubleclick.net").
  - reflexivity.
  - vm_compute. reflexivity.
  - reflexivity.
  - vm_compute. tauto.
  - reflexivity.
  - vm_compute. tauto.
  - vm_compute. reflexivity.
  - discriminate.
Defined.

Lemma verbose_requests_in_order_witness :
  exists r,
    fst (TrackerService.detectTrackers
           Inputs.example_hostname Inputs.navigation_times_out
           "https://example.com" MoreInputs.verbose_options)
    = Gemini.Returned r
    /\ option_map (map TrackerService.rr_domain) (TrackerService.r_requests r)
       = Some ["google-analytics.com"; "doubleclick.net";
               "google-analytics.com"].
Proof.
  edestruct (verbose_requests_in_order
               Inputs.example_hostname MoreInputs.verbose_options
               "example.com" Inputs.navigation_times_out
               "https://example.com")
    as (_ & Hverbose).
  - reflexivity.
  - vm_compute. reflexivity.
  - reflexivity.
  - eexists. split; [reflexivity |].
    destruct (Hverbose eq_refl) as [Hreq _].
    exact (f_equal (option_map (map TrackerService.rr_domain)) Hreq).
Defined.

(* ===================================================================== *)
(** * Further facts: the batch crawl                                     *)
(* ===================================================================== *)

Section BatchFacts.

Import Gemini TrackerService Reference Crawl.

Variable url_hostname : string -> option string.

Lemma open_sessions_app (l1 l2 : list browserEvent) :
  open_sessions (l1 ++ l2) = open_sessions l1 + open_sessions l2.
Proof.
  induction l1 as [|e l1 IH]; simpl; [reflexivity |].
  destruct e; lia.
Qed.

Lemma detect_log_balanced (sc : browserScenario) (url : string)
      (o : options) :
  open_sessions (snd (detectTrackers url_hostname sc url o)) = 0.
Proof.
  destruct (url_hostname url) as [mainDomain|] eqn:Hurl.
  - destruct (detectTrackers_outcome url_hostname o mainDomain sc url Hurl)
      as [Hlog _].
    rewrite Hlog. destruct (launch sc); reflexivity.
  - unfold detectTrackers. rewrite Hurl. reflexivity.
Qed.

(** The loop, from any accumulator. *)
Lemma batch_fold (o : options) (urls : list (string * browserScenario))
      (acc : list detectResult * list browserEvent) :
  let out :=
    fold_left
      (fun acc visit =>
         match detectTrackers url_hostname (snd visit) (fst visit) o with
         | (Returned result, log) => (fst acc ++ [result], snd acc ++ log)
         | (Thrown message, log) =>
             (fst acc ++ [batch_failure (fst visit) message], snd acc ++ log)
         end)
      urls acc in
  fst out = fst acc ++ map (visit_record url_hostname o) urls
  /\ open_sessions (snd out) = open_sessions (snd acc).
Proof.
  revert acc. induction urls as [|visit urls IH]; intros acc; simpl.
  - now rewrite app_nil_r.
  - match goal with
    | |- context [fold_left ?f urls ?a] => destruct (IH a) as [-> ->]
    end.
    unfold visit_record at 2.
    pose proof (detect_log_balanced (snd visit) (fst visit) o) as Hb.
    destruct (detectTrackers url_hostname (snd visit) (fst visit) o)
      as [[result | message] log];
      cbn [fst snd] in *; rewrite <- app_assoc, open_sessions_app, Hb;
      split; [reflexivity | lia | reflexivity | lia].
Qed.

(** X19. The batch crawl returns one record per URL, in the order of the
    URLs, whatever happens to any of them, and leaves no browser session
    open.  A URL that cannot be parsed gets a failure record that names
    it; for a URL that parses, the record is the one [detectTrackers]
    returned, so the record of a failed crawl carries no [url] and can
    only be told apart by its position. *)
Theorem batch_one_record_per_url
        (urls : list (string * browserScenario)) (o : options) :
  let out := detectTrackersForMultipleUrls url_hostname urls o in
  length (fst out) = length urls
  /\ open_sessions (snd out) = 0
  /\ forall (i : nat) url sc,
       urls !! i = Some (url, sc) ->
       exists r,
         fst out !! i = Some r /\
         match url_hostname url with
         | None => r = batch_failure url "Invalid URL"
         | Some _ =>
             fst (detectTrackers url_hostname sc url o) = Returned r
             /\ (r_success r = true -> r_url r = Some url)
             /\ (r_success r = false ->
                 r_url r = None /\ detectedTrackers r = [])
         end.
Proof.
  intros out. subst out. unfold detectTrackersForMultipleUrls.
  destruct (batch_fold o urls ([], [])) as [Hres Hlog].
  cbv zeta in Hres, Hlog. rewrite Hres, Hlog.
  cbn [fst snd app open_sessions].
  split; [apply length_map |]. split; [reflexivity |].
  intros i url sc Hi.
  exists (visit_record url_hostname o (url, sc)).
  split; [now rewrite list_lookup_fmap, Hi |].
  unfold visit_record. cbn [fst snd].
  destruct (url_hostname url) as [mainDomain|] eqn:Hurl.
  - destruct (detectTrackers_outcome url_hostname o mainDomain sc url Hurl)
      as [_ Hfst].
    cbv zeta in Hfst. rewrite Hfst.
    destruct (first_error sc) as [e|]; [destruct (String.eqb _ _) |];
      (split; [reflexivity |]); cbn; split; intros; auto; discriminate.
  - unfold detectTrackers. rewrite Hurl. reflexivity.
Qed.

End BatchFacts.

Lemma batch_one_record_per_url_witness :
  exists r,
    fst (Crawl.detectTrackersForMultipleUrls
           Inputs.example_hostname
           [("not a url", Inputs.quiet_browser);
            ("https://example.com", Inputs.navigation_fails);
            ("https://example.com", Inputs.navigation_times_out)]
           TrackerService.default_options) !! 1%nat = Some r
    /\ TrackerService.r_success r = false
    /\ TrackerService.r_url r = None.
Proof.
  destruct (batch_one_record_per_url
              Inputs.example_hostname
              [("not a url", Inputs.quiet_browser);
               ("https://example.com", Inputs.navigation_fails);
               ("https://example.com", Inputs.navigation_times_out)]
              TrackerService.default_options) as (_ & _ & H).
  destruct (H 1%nat "https://example.com" Inputs.navigation_fails eq_refl)
    as (r & Hr & Hcall & _ & Hfail).
  exists r. split; [exact Hr |].
  assert (Hs : TrackerService.r_success r = false).
  { vm_compute in Hcall. now injection Hcall as <-. }
  split; [exact Hs | exact (proj1 (Hfail Hs))].
Defined.

(* ===================================================================== *)
(** * Further facts: the popup                                           *)
(* ===================================================================== *)

Section ClientFacts.

Import Classifier Gemini Client ScoreMore Reference.

Lemma client_score_antitone (d : Scoring.initialSiteData) (n m : Z) :
  0 <= n <= m ->
  Scoring.calculateDynamicPrivacyScore d m
  <= Scoring.calculateDynamicPrivacyScore d n.
Proof.
  intros H. rewrite !client_score_clamp, !client_raw_split.
  pose proof (client_tier_antitone n m H). unfold clamp. lia.
Qed.

Lemma unblocked_from (settings : gmap string bool)
      (details : list trackerDetail) (k : Z) :
  fold_left
    (fun unblockedTrackersCount tracker =>
       let category := category_or_unknown tracker in
       if negb (setting_on settings (settingKey category))
       then unblockedTrackersCount + 1 else unblockedTrackersCount)
    details k
  = k + unblocked settings details.
Proof.
  unfold unblocked. revert k.
  induction details as [|t details IH]; intros k; simpl; [lia |].
  rewrite IH. symmetry. rewrite IH.
  destruct (negb _); lia.
Qed.

Lemma unblocked_cons (settings : gmap string bool) (t : trackerDetail)
      (details : list trackerDetail) :
  unblocked settings (t :: details)
  = (if setting_on settings (settingKey (category_or_unknown t))
     then 0 else 1) + unblocked settings details.
Proof.
  unfold unblocked at 1. simpl. rewrite unblocked_from.
  destruct (setting_on _ _); reflexivity.
Qed.

Lemma unblocked_bounds (settings : gmap string bool)
      (details : list trackerDetail) :
  0 <= unblocked settings details <= Js.len details.
Proof.
  induction details as [|t details IH].
  - unfold unblocked, Js.len. simpl. lia.
  - rewrite unblocked_cons. unfold Js.len in *. simpl length.
    destruct (setting_on _ _); lia.
Qed.

Lemma unblocked_antitone (settings settings' : gmap string bool)
      (details : list trackerDetail) :
  blocks_more settings settings' ->
  unblocked settings' details <= unblocked settings details.
Proof.
  intros Hmore. induction details as [|t details IH].
  - unfold unblocked. simpl. lia.
  - rewrite !unblocked_cons.
    destruct (setting_on settings _) eqn:E.
    + rewrite (Hmore _ E). lia.
    + destruct (setting_on settings' _); lia.
Qed.

(** X20. Turning on more blocking switches never lowers the score the
    popup shows: if one settings object blocks everything another one
    blocks, the recalculated score under it is at least as high.  The
    recalculated score stays within 0..100 and the grade shown is the
    client table's grade of that score whenever there is a tracker
    detail. *)
Theorem blocking_never_lowers_score
        (site : siteData) (settings settings' : gmap string bool) :
  blocks_more settings settings' ->
  fst (recalculateScoreAndGrade site settings)
  <= fst (recalculateScoreAndGrade site settings')
  /\ (details_of (Scoring.aiSummary (initial site)) <> [] ->
      0 <= fst (recalculateScoreAndGrade site settings) <= 100
      /\ snd (recalculateScoreAndGrade site settings)
         = Scoring.getGradeFromScore
             (fst (recalculateScoreAndGrade site settings))).
Proof.
  intros Hmore. unfold recalculateScoreAndGrade.
  set (details := details_of (Scoring.aiSummary (initial site))).
  destruct (Z.eqb_spec (Js.len details) 0) as [E | E].
  - split; [simpl; lia |]. intros Hne. exfalso. apply Hne.
    destruct details; [reflexivity | discriminate E].
  - cbn [fst snd]. split.
    + apply client_score_antitone. split.
      * apply unblocked_bounds.
      * now apply unblocked_antitone.
    + intros _. split; [| reflexivity].
      rewrite client_score_clamp. unfold clamp. lia.
Qed.

Lemma built_detail_category (trackers : list string) (d : trackerDetail) :
  In d (buildTrackerDetails trackers) ->
  In (d_category d) TRACKER_CATEGORIES.
Proof.
  unfold buildTrackerDetails. rewrite in_map_iff.
  intros (t & <- & _). apply classify_category_known.
Qed.

Lemma known_category_truthy (c : string) :
  In c TRACKER_CATEGORIES -> Truncate.truthy c = true.
Proof.
  simpl. intros H.
  repeat (destruct H as [<- | H]; [reflexivity |]). contradiction.
Qed.

(** X21. Every category the server's classifier can assign has its own
    switch in the settings: for each tracker detail built by
    [buildTrackerDetails], the key [recalculateScoreAndGrade] reads is
    one of the keys of [getDefaultSettings], and two details with
    different categories never read the same key. *)
Theorem every_category_has_a_switch
        (trackers : list string) (d d' : trackerDetail) :
  In d (buildTrackerDetails trackers) ->
  In d' (buildTrackerDetails trackers) ->
  In (settingKey (category_or_unknown d)) (map fst getDefaultSettings)
  /\ (settingKey (category_or_unknown d)
      = settingKey (category_or_unknown d') ->
      d_category d = d_category d').
Proof.
  intros Hd Hd'.
  apply built_detail_category in Hd, Hd'.
  unfold category_or_unknown.
  rewrite (known_category_truthy _ Hd), (known_category_truthy _ Hd').
  simpl in Hd, Hd'.
  repeat (destruct Hd as [<- | Hd]; [| try contradiction]);
    (split; [vm_compute; tauto |]);
    repeat (destruct Hd' as [<- | Hd']; [| try contradiction]);
    intros Hk; try reflexivity; vm_compute in Hk; discriminate Hk.
Qed.

Lemma count_detail_lookup (categories : gmap string Z) (d : trackerDetail)
      (c : string) :
  count_detail categories d !! c
  = if String.eqb (category_or_unknown d) c
    then Some (default 0 (categories !! c) + 1)
    else categories !! c.
Proof.
  unfold count_detail.
  destruct (String.eqb_spec (category_or_unknown d) c) as [<- | Hne].
  - rewrite lookup_insert_eq. f_equal. f_equal.
    destruct (categories !! category_or_unknown d) as [n|] eqn:E.
    + destruct (Z.eqb_spec n 0) as [-> | _].
      * now rewrite lookup_insert_eq.
      * now rewrite E.
    + now rewrite lookup_insert_eq.
  - rewrite lookup_insert_ne by exact Hne.
    destruct (categories !! category_or_unknown d) as [n|];
      [destruct (n =? 0) |]; try reflexivity;
      now rewrite lookup_insert_ne by exact Hne.
Qed.

Lemma filed_under_cons (c : string) (d : trackerDetail)
      (details : list trackerDetail) :
  filed_under c (d :: details)
  = (if String.eqb (category_or_unknown d) c then 1 else 0)
    + filed_under c details.
Proof.
  unfold filed_under, Js.len. simpl.
  destruct (String.eqb _ _); simpl length; lia.
Qed.

Lemma filed_under_nonneg (c : string) (details : list trackerDetail) :
  0 <= filed_under c details.
Proof. unfold filed_under, Js.len. lia. Qed.

Lemma count_fold_lookup (details : list trackerDetail)
      (categories : gmap string Z) (c : string) :
  fold_left count_detail details categories !! c
  = if filed_under c details =? 0 then categories !! c
    else Some (default 0 (categories !! c) + filed_under c details).
Proof.
  revert categories.
  induction details as [|d details IH]; intros categories; [reflexivity |].
  simpl fold_left. rewrite IH, count_detail_lookup, filed_under_cons.
  clear IH.
  pose proof (filed_under_nonneg c details) as Hn.
  destruct (String.eqb _ c).
  - destruct (Z.eqb_spec (1 + filed_under c details) 0) as [| _]; [lia |].
    destruct (Z.eqb_spec (filed_under c details) 0) as [Hz | _];
      simpl; f_equal; lia.
  - now rewrite Z.add_0_l.
Qed.

Lemma categorize_lookup (details : list trackerDetail) (c : string) :
  categorizeTrackers (Some details) !! c
  = if filed_under c details =? 0 then None
    else Some (filed_under c details).
Proof.
  unfold categorizeTrackers. rewrite count_fold_lookup, lookup_empty.
  destruct (_ =? 0); [reflexivity |]. simpl. f_equal.
Qed.

Lemma built_details_plain (trackers : list string) :
  plain (buildTrackerDetails trackers).
Proof.
  apply List.Forall_forall. intros d Hd.
  apply built_detail_category in Hd as Hc.
  unfold category_or_unknown. rewrite (known_category_truthy _ Hc).
  simpl in Hc.
  repeat (destruct Hc as [<- | Hc]; [vm_compute; intuition discriminate |]).
  contradiction.
Qed.

(** X22. The per-category counters the popup shows, for details whose
    categories are not names inherited from [Object.prototype]: a
    category is a key of the counter object exactly when some detail is
    filed under it (a detail with an empty category counts as Unknown),
    its counter is the number of such details, and for details built by
    [buildTrackerDetails] every key is one of the six category names. *)
Theorem category_counters (details : list trackerDetail) (c : string) :
  plain details ->
  categorizeTrackers (Some details) !! c
  = (if filed_under c details =? 0 then None
     else Some (filed_under c details))
  /\ (forall trackers n,
         details = buildTrackerDetails trackers ->
         categorizeTrackers (Some details) !! c = Some n ->
         In c TRACKER_CATEGORIES /\ 1 <= n <= Js.len trackers).
Proof.
  intros _. split; [apply categorize_lookup |].
  intros trackers n -> Hn. rewrite categorize_lookup in Hn.
  destruct (Z.eqb_spec (filed_under c (buildTrackerDetails trackers)) 0)
    as [| Hne]; [discriminate |].
  injection Hn as <-.
  pose proof (filed_under_nonneg c (buildTrackerDetails trackers)) as H0.
  assert (Hle : filed_under c (buildTrackerDetails trackers)
                <= Js.len trackers).
  { unfold filed_under, Js.len.
    pose proof (List.filter_length_le
                  (fun d => String.eqb (category_or_unknown d) c)
                  (buildTrackerDetails trackers)) as Hl.
    unfold buildTrackerDetails in Hl at 2. rewrite length_map in Hl. lia. }
  split; [| lia].
  unfold filed_under, Js.len in Hne.
  destruct (List.filter _ _) as [|d l] eqn:Hf; [simpl in Hne; lia |].
  assert (Hd : In d (List.filter
                       (fun d => String.eqb (category_or_unknown d) c)
                       (buildTrackerDetails trackers)))
    by (rewrite Hf; now left).
  apply filter_In in Hd as [Hd Hc]. apply String.eqb_eq in Hc. subst c.
  apply built_detail_category in Hd.
  unfold category_or_unknown. now rewrite (known_category_truthy _ Hd).
Qed.

End ClientFacts.

Lemma blocking_never_lowers_score_witness :
  fst (Client.recalculateScoreAndGrade Client.example_site ∅)
  <= fst (Client.recalculateScoreAndGrade
            Client.example_site
            {[ "blockAdvertisingTrackers" := true;
               "blockAnalyticsTrackers" := true ]}).
Proof.
  apply (blocking_never_lowers_score Client.example_site).
  intros key H. unfold Client.setting_on in H.
  rewrite lookup_empty in H. discriminate H.
Defined.

Lemma every_category_has_a_switch_witness :
  In "blockAnalyticsTrackers" (map fst Client.getDefaultSettings).
Proof.
  refine (proj1 (every_category_has_a_switch
                   Inputs.two_trackers
                   {| Classifier.d_domain := "google-analytics.com";
                      Classifier.d_name := "Google Analytics";
                      Classifier.d_category := "Analytics";
                      Classifier.d_company := "Google" |}
                   {| Classifier.d_domain := "doubleclick.net";
                      Classifier.d_name := "Google Ads";
                      Classifier.d_category := "Advertising";
                      Classifier.d_company := "Google" |} _ _)).
  - right. left. reflexivity.
  - left. reflexivity.
Defined.

Lemma category_counters_witness :
  In "Advertising" Classifier.TRACKER_CATEGORIES /\ 1 <= 1 <= 2.
Proof.
  apply (proj2 (category_counters
                  (Classifier.buildTrackerDetails Inputs.two_trackers)
                  "Advertising" (built_details_plain Inputs.two_trackers))
               Inputs.two_trackers 1 eq_refl).
  vm_compute. reflexivity.
Defined.

Section PopupComposition.

Import Classifier Gemini Client Memo.

Variable url_hostname : string -> option string.

Lemma unblocked_none (details : list trackerDetail) :
  unblocked ∅ details = Js.len details.
Proof.
  induction details as [|t details IH].
  - reflexivity.
  - rewrite unblocked_cons, IH. unfold setting_on.
    rewrite lookup_empty. unfold Js.len. simpl length. lia.
Qed.

(** X23. What the popup can do with a fresh summary depends on the API
    key.  For a call of the summarizer that finds no valid cache entry
    and returns: without a key the result has no tracker details, so the
    popup's per-category counters are empty and every settings object
    leaves the server's score and grade as they are; with a key the
    details are those of the sorted trackers, one per tracker, and with
    no switch on all of them count as unblocked. *)
Theorem popup_details_by_key
        (sc : aiScenario) (trackers : list string) (url : string)
        (cache : gmap string cacheEntry) (a : aiResult) (st : aiState) :
  miss sc url trackers cache ->
  generateAIPrivacySummary url_hostname sc trackers url cache
  = (Returned a, st) ->
  (truthy_key (GEMINI_API_KEY sc) = false ->
   categorizeTrackers (trackerDetails a) = ∅
   /\ forall site settings,
        Scoring.aiSummary (initial site) = Some a ->
        recalculateScoreAndGrade site settings = (score site, grade site))
  /\
  (truthy_key (GEMINI_API_KEY sc) = true ->
   details_of (Some a) = buildTrackerDetails (Js.sort trackers)
   /\ unblocked ∅ (details_of (Some a)) = Js.len trackers).
Proof.
  intros Hmiss Hgen.
  rewrite (summarizer_miss url_hostname sc trackers url cache Hmiss) in Hgen.
  cbv zeta in Hgen. split; intros Hkey; rewrite Hkey in Hgen; cbn [negb] in Hgen.
  - injection Hgen as <- _. split; [reflexivity |].
    intros site settings Hsite. unfold recalculateScoreAndGrade.
    now rewrite Hsite.
  - assert (Hd : details_of (Some a) = buildTrackerDetails (Js.sort trackers)).
    { destruct (reply sc) as [m | text parsed].
      - unfold on_error in Hgen.
        destruct (createFallbackSummary _ _ _); [| discriminate Hgen].
        now injection Hgen as <- _.
      - destruct parsed as [s |].
        + now injection Hgen as <- _.
        + destruct (createFallbackSummary _ _ _) as [f | m].
          * now injection Hgen as <- _.
          * unfold on_error in Hgen.
            destruct (createFallbackSummary _ _ _); [| discriminate Hgen].
            now injection Hgen as <- _. }
    split; [exact Hd |].
    rewrite unblocked_none, Hd. unfold buildTrackerDetails, Js.len.
    now rewrite length_map, sort_permutation.
Qed.

End PopupComposition.

Lemma popup_details_by_key_witness :
  Client.categorizeTrackers (Gemini.trackerDetails Gemini.fallbackResponse)
  = ∅.
Proof.
  edestruct (popup_details_by_key
               Inputs.example_hostname Inputs.no_key Inputs.two_trackers
               "https://example.com" ∅) as [H _].
  - intros e He. rewrite lookup_empty in He. discriminate He.
  - vm_compute. reflexivity.
  - exact (proj1 (H eq_refl)).
Defined.

(* ===================================================================== *)
(** * Further facts: the read end points                                 *)
(* ===================================================================== *)

Section GraphFacts.

Import Classifier Gemini SiteController Endpoints.

Lemma find_built_detail (trackers : list string) (t : string) :
  In t trackers ->
  List.find (fun d => String.eqb (d_domain d) t) (buildTrackerDetails trackers)
  = Some {| d_domain := t;
            d_name := name (classifyDomain (Js.toLowerCase t));
            d_category := category (classifyDomain (Js.toLowerCase t));
            d_company := company (classifyDomain (Js.toLowerCase t)) |}.
Proof.
  induction trackers as [|t' trackers IH]; [contradiction |].
  intros Hin. simpl.
  destruct (String.eqb_spec t' t) as [-> | Hne]; [reflexivity |].
  destruct Hin as [-> | Hin]; [contradiction | exact (IH Hin)].
Qed.

Lemma rules_companies :
  forallb (fun r => Truncate.truthy (r_company r)) rules = true.
Proof. vm_compute. reflexivity. Qed.

Lemma classifyDomain_company (d : string) :
  Truncate.truthy (company (classifyDomain d)) = true.
Proof.
  unfold classifyDomain.
  destruct (first_match rules d) as [r|] eqn:E.
  - apply first_match_in in E as [Hin _].
    pose proof rules_companies as H. rewrite forallb_forall in H.
    exact (H r Hin).
  - destruct (Js.test generic_keywords d); reflexivity.
Qed.

(** X24. Where the labels of the tracker graph come from.  For a stored
    record whose summary carries the details built by the summarizer's
    classifier for its own trackers, a tracker that this classifier
    knows is drawn with the classifier's name, category and company,
    also when it is a sub-domain of the site; a tracker it does not know
    takes its category from the controller's own table (or its
    first-party rule) but keeps the company Unknown.  For a record
    without details the node is the verdict of the controller's table
    alone. *)
Theorem graph_node_sources
        (siteRoot : string) (s : site) (t : string) :
  let cls := classifyDomain (Js.toLowerCase t) in
  let own := classifyTrackerDomain siteRoot t in
  (forall a,
      s_aiSummary s = Some a ->
      trackerDetails a = Some (buildTrackerDetails (s_trackers s)) ->
      In t (s_trackers s) ->
      (category cls <> "Unknown" ->
       tracker_node siteRoot (s_aiSummary s) t
       = TrackerNode t (name cls) (category cls) (company cls))
      /\
      (category cls = "Unknown" ->
       exists label,
         tracker_node siteRoot (s_aiSummary s) t
         = TrackerNode t label (category own) "Unknown"))
  /\
  (find_detail (s_aiSummary s) t = None ->
   tracker_node siteRoot (s_aiSummary s) t
   = TrackerNode t (name own) (category own)
                 (if Truncate.truthy (company own) then company own
                  else "Unknown")).
Proof.
  intros cls own. split.
  - intros a Ha Hd Hin. unfold tracker_node, trackerInfo, find_detail.
    rewrite Ha, Hd, (find_built_detail _ _ Hin).
    cbn [name category company d_name d_category d_company].
    fold cls. pose proof (classifyDomain_company (Js.toLowerCase t)) as Hc.
    fold cls in Hc. rewrite Hc. cbn [negb orb].
    split.
    + intros Hk. apply String.eqb_neq in Hk. rewrite Hk.
      cbn [orb name category company]. now rewrite Hc.
    + intros Hk. rewrite Hk, String.eqb_refl.
      cbn [orb name category company]. fold own.
      assert (Hu : company cls = "Unknown").
      { subst cls. revert Hk. unfold classifyDomain.
        destruct (first_match rules _) as [r|] eqn:E.
        - apply first_match_in in E as [Hr _].
          pose proof rules_never_unknown as Hn.
          rewrite forallb_forall in Hn. specialize (Hn r Hr).
          cbn [category]. intros Hk. rewrite Hk in Hn. discriminate Hn.
        - destruct (Js.test generic_keywords _); reflexivity. }
      rewrite Hu. eexists. reflexivity.
  - intros Hnone. unfold tracker_node, trackerInfo. rewrite Hnone.
    cbn [name category company Truncate.truthy negb].
    rewrite !String.eqb_refl, andb_false_r.
    cbn [orb name category company]. fold own. reflexivity.
Qed.

End GraphFacts.

Lemma graph_node_sources_witness :
  Endpoints.tracker_node "example.com"
    (Scoring.aiSummary (Client.initial Client.example_site))
    "doubleclick.net"
  = Endpoints.TrackerNode "doubleclick.net" "Google Ads" "Advertising"
                          "Google".
Proof.
  refine (proj1 (proj1
    (graph_node_sources
       "example.com"
       {| SiteController.s_url := "https://example.com";
          SiteController.s_simplifiedPolicy := None;
          SiteController.s_score := 45;
          SiteController.s_grade := "D";
          SiteController.s_category := "Poor";
          SiteController.s_trackers := Inputs.two_trackers;
          SiteController.s_aiSummary :=
            Scoring.aiSummary (Client.initial Client.example_site);
          SiteController.s_lastAnalyzed := Some 0 |}
       "doubleclick.net")
    _ eq_refl eq_refl _) _).
  - left. reflexivity.
  - vm_compute. discriminate.
Defined.

Section ReadAfterWrite.

Import Classifier Gemini SiteController Endpoints.

Variable url_hostname : string -> option string.

(** A 201 answer without warning: the record of the answer is in the
    store under the URL, it carries a summary, and the URL parses. *)
Lemma analysis_created_record (sc : scenario) (w : world)
      (req : analysisRequest) (m : string) (v : siteView) :
  res (analyzeSite url_hostname sc w req)
  = {| status := 201; json := Ok m None v |} ->
  exists s a hostname,
    sites (after (analyzeSite url_hostname sc w req)) !! req_url req = Some s
    /\ v = view_of s /\ s_url s = req_url req
    /\ s_aiSummary s = Some a
    /\ url_hostname (req_url req) = Some hostname.
Proof.
  intros Hres.
  destruct (analyzeSite_paths url_hostname sc w req) as [[_ Hne] | [done Hfa]].
  { rewrite Hres in Hne. now contradiction Hne. }
  rewrite Hfa in Hres |- *. clear Hfa. revert Hres. unfold full_analysis.
  destruct (url_hostname (req_url req)) as [hostname|] eqn:Hurl.
  2:{ unfold TrackerService.detectTrackers. rewrite Hurl. discriminate. }
  destruct (fst (TrackerService.detectTrackers _ _ _ _)) as [r | e];
    [| discriminate].
  destruct (negb (TrackerService.r_success r)); [discriminate |].
  destruct (generateAIPrivacySummary _ _ _ _ _) as [summarized st].
  destruct summarized as [a | e]; [| discriminate].
  destruct (connected_at_save sc); [| discriminate].
  destruct (upsert_error sc); [discriminate |].
  cbn [res after sites aiCache]. intros [= <- <-].
  eexists _, a, hostname. rewrite lookup_insert_eq.
  repeat split; reflexivity.
Qed.

(** X25. The read end points agree with what an analysis answered.
    After a request that was answered 201 without a warning, and with
    the store up: [getSite] for the same URL returns the record of that
    answer with the same one-line summary; [getAIPrivacySummary] returns
    its summary and tracker count, and never the 404 for a missing
    summary; [getNetworkGraph] returns a graph with one node for the
    site and one node and one link per tracker. *)
Theorem read_after_analysis
        (sc : scenario) (w : world) (req : analysisRequest)
        (m : string) (v : siteView) :
  res (analyzeSite url_hostname sc w req)
  = {| status := 201; json := Ok m None v |} ->
  req_url req <> "" ->
  let store := sites (after (analyzeSite url_hostname sc w req)) in
  (exists s,
      getSite store_up store (req_url req)
      = {| a_status := 200; a_json := SiteFound s (v_summary v) |}
      /\ view_of s = v)
  /\
  (exists a,
      v_aiSummary v = Some a /\
      getAIPrivacySummary store_up store (Some (req_url req))
      = {| a_status := 200;
           a_json := SummaryFound (req_url req) a (v_lastAnalyzed v)
                                  (v_trackerCount v) |})
  /\
  (exists nodes links,
      getNetworkGraph url_hostname store_up store (Some (req_url req))
      = {| a_status := 200;
           a_json := Graph nodes links (v_aiSummary v) (v_summary v) |}
      /\ Js.len nodes = 1 + v_trackerCount v
      /\ Js.len links = v_trackerCount v
      /\ map target links = v_trackers v).
Proof.
  intros Hres Hurl store. subst store.
  destruct (analysis_created_record sc w req m v Hres)
    as (s & a & hostname & Hs & -> & Hsu & Ha & Hh).
  assert (Hp : present (Some (req_url req)) = Some (req_url req)).
  { unfold present. destruct (req_url req); [contradiction | reflexivity]. }
  split; [| split].
  - exists s. unfold getSite. cbn. rewrite Hs. split; reflexivity.
  - exists a. split; [exact Ha |].
    unfold getAIPrivacySummary. rewrite Hp. cbn. rewrite Hs, Ha, Hsu.
    reflexivity.
  - unfold getNetworkGraph. rewrite Hp. cbn [store_up connected find_failure negb].
    rewrite Hs, Hsu, Hh. eexists _, _. split; [reflexivity |].
    cbn [view_of v_trackerCount v_trackers]. unfold Js.len.
    cbn [length]. rewrite !length_map.
    split; [lia |]. split; [reflexivity |].
    rewrite map_map. cbn [tracker_link target]. apply map_id.
Qed.

End ReadAfterWrite.

Lemma read_after_analysis_witness :
  exists a,
    Endpoints.getAIPrivacySummary
      Endpoints.store_up
      (SiteController.sites
         (SiteController.after
            (SiteController.analyzeSite
               Inputs.example_hostname (Inputs.first_visit Inputs.no_key)
               Inputs.empty_world (Inputs.request false))))
      (Some "https://example.com")
    = {| Endpoints.a_status := 200;
         Endpoints.a_json :=
           Endpoints.SummaryFound "https://example.com" a (Some 5000) 2 |}.
Proof.
  edestruct (read_after_analysis
               Inputs.example_hostname (Inputs.first_visit Inputs.no_key)
               Inputs.empty_world (Inputs.request false))
    as (_ & (a & _ & Hsum) & _).
  - vm_compute. reflexivity.
  - discriminate.
  - exists a. exact Hsum.
Defined.

Section BlockAll.

Import Classifier Gemini Client Reference.

Lemma setAll_lookup (enabled : bool) (cats : list string)
      (prev : gmap string bool) (key : string) :
  setting_on (setAllCategoryBlocking enabled cats prev) key
  = if existsb (fun c => String.eqb (settingKey c) key) cats then enabled
    else setting_on prev key.
Proof.
  unfold setAllCategoryBlocking. revert prev.
  induction cats as [|c cats IH]; intros prev; [reflexivity |].
  cbn [fold_left existsb]. rewrite IH.
  destruct (existsb _ cats); [now rewrite orb_true_r |].
  rewrite orb_false_r. unfold setting_on.
  destruct (String.eqb_spec (settingKey c) key) as [<- | Hne].
  - now rewrite lookup_insert_eq.
  - now rewrite lookup_insert_ne.
Qed.

Lemma unblocked_uniform (settings : gmap string bool) (b : bool)
      (details : list trackerDetail) :
  (forall d, In d details ->
             setting_on settings (settingKey (category_or_unknown d)) = b) ->
  unblocked settings details = if b then 0 else Js.len details.
Proof.
  induction details as [|t details IH]; intros H.
  - destruct b; reflexivity.
  - rewrite unblocked_cons, (H t (or_introl eq_refl)), IH
      by (intros d Hd; apply H; now right).
    unfold Js.len. simpl length. destruct b; lia.
Qed.

Lemma filed_under_positive (d : trackerDetail) (details : list trackerDetail) :
  In d details -> 1 <= filed_under (category_or_unknown d) details.
Proof.
  induction details as [|t details IH]; [contradiction |].
  intros Hin. rewrite filed_under_cons.
  pose proof (filed_under_nonneg (category_or_unknown d) details).
  destruct Hin as [-> | Hin].
  - rewrite String.eqb_refl. lia.
  - specialize (IH Hin). destruct (String.eqb _ _); lia.
Qed.

(** X26. The popup's block-all switch reaches every tracker.  The
    categories shown are the keys of the counter object built from the
    tracker details (none of them filed under a name inherited from
    [Object.prototype]); after [setAllCategoryBlocking(true)] none of the
    details counts as unblocked, so the grade shown is computed for zero
    trackers and no other choice of switches gives a higher score; after
    [setAllCategoryBlocking(false)] all of them count as unblocked. *)
Theorem block_all_reaches_every_tracker
        (site : siteData) (cats : list string) (prev : gmap string bool) :
  let details := details_of (Scoring.aiSummary (initial site)) in
  plain details ->
  keys_of (categorizeTrackers (Some details)) cats ->
  unblocked (setAllCategoryBlocking true cats prev) details = 0
  /\ unblocked (setAllCategoryBlocking false cats prev) details
     = Js.len details
  /\ (details <> [] ->
      fst (recalculateScoreAndGrade
             site (setAllCategoryBlocking true cats prev))
      = Scoring.calculateDynamicPrivacyScore (initial site) 0
      /\ forall settings,
           fst (recalculateScoreAndGrade site settings)
           <= fst (recalculateScoreAndGrade
                     site (setAllCategoryBlocking true cats prev))).
Proof.
  intros details _ Hkeys.
  assert (Hset : forall b d, In d details ->
            setting_on (setAllCategoryBlocking b cats prev)
                       (settingKey (category_or_unknown d)) = b).
  { intros b d Hd. rewrite setAll_lookup.
    assert (Hex : existsb
                    (fun c => String.eqb (settingKey c)
                                (settingKey (category_or_unknown d)))
                    cats = true).
    { apply existsb_exists. exists (category_or_unknown d).
      split; [| apply String.eqb_refl].
      apply Hkeys. unfold categorizeTrackers.
      rewrite count_fold_lookup.
      pose proof (filed_under_positive d details Hd) as Hp.
      destruct (Z.eqb_spec (filed_under (category_or_unknown d) details) 0);
        [lia | eexists; reflexivity]. }
    now rewrite Hex. }
  assert (H0 : unblocked (setAllCategoryBlocking true cats prev) details = 0)
    by (rewrite (unblocked_uniform _ true); auto).
  split; [exact H0 |]. split.
  - rewrite (unblocked_uniform _ false); auto.
  - intros Hne. unfold recalculateScoreAndGrade. fold details.
    destruct (Z.eqb_spec (Js.len details) 0) as [E | _].
    { destruct details; [now contradiction Hne | discriminate E]. }
    cbn [fst]. rewrite H0. split; [reflexivity |].
    intros settings. apply client_score_antitone.
    pose proof (unblocked_bounds settings details). lia.
Qed.

End BlockAll.

Lemma block_all_reaches_every_tracker_witness :
  Client.unblocked
    (Client.setAllCategoryBlocking true ["Advertising"; "Analytics"] ∅)
    (Client.details_of (Scoring.aiSummary (Client.initial Client.example_site)))
  = 0.
Proof.
  refine (proj1 (block_all_reaches_every_tracker
                   Client.example_site ["Advertising"; "Analytics"] ∅
                   (built_details_plain Inputs.two_trackers) _)).
  intros c. rewrite categorize_lookup. split.
  - intros [<- | [<- | []]]; vm_compute; eexists; reflexivity.
  - destruct (String.eqb_spec c "Advertising") as [-> | Ha]; [now left |].
    destruct (String.eqb_spec c "Analytics") as [-> | Hb];
      [right; now left |].
    intros [n Hn]. exfalso. revert Hn.
    apply String.eqb_neq in Ha, Hb.
    rewrite String.eqb_sym in Ha. rewrite String.eqb_sym in Hb.
    change (Client.details_of
              (Scoring.aiSummary (Client.initial Client.example_site)))
      with (Classifier.buildTrackerDetails Inputs.two_trackers).
    unfold Client.filed_under, Classifier.buildTrackerDetails,
      Inputs.two_trackers.
    cbn [map List.filter]. unfold Client.category_or_unknown.
    cbn [Classifier.d_category].
    change (Classifier.category
              (Classifier.classifyDomain (Js.toLowerCase "doubleclick.net")))
      with "Advertising".
    change (Classifier.category
              (Classifier.classifyDomain
                 (Js.toLowerCase "google-analytics.com")))
      with "Analytics".
    cbn [Truncate.truthy]. rewrite Ha, Hb. discriminate.
Defined.

(* ===================================================================== *)
(** * Further facts: the popup's cache                                   *)
(* ===================================================================== *)

Section CacheManagerFacts.

Import CacheManager.

Variable A : Type.
Variable url_hostname : string -> option string.

Lemma map_get_set (key k : string) (v : entry A) (m : jsMap A) :
  map_get A k (map_set A key v m)
  = if String.eqb key k then Some v else map_get A k m.
Proof.
  induction m as [|[k' w] m IH]; simpl.
  - destruct (String.eqb key k); reflexivity.
  - destruct (String.eqb_spec k' key) as [-> | Hne]; simpl.
    + destruct (String.eqb key k); reflexivity.
    + rewrite IH. destruct (String.eqb_spec k' k) as [-> | Hne'];
        [| reflexivity].
      apply String.eqb_neq in Hne. rewrite String.eqb_sym in Hne.
      now rewrite Hne.
Qed.

Lemma map_get_delete (key k : string) (m : jsMap A) :
  map_get A k (map_delete A key m)
  = if String.eqb key k then None else map_get A k m.
Proof.
  induction m as [|[k' w] m IH]; simpl.
  - destruct (String.eqb key k); reflexivity.
  - destruct (String.eqb_spec k' key) as [-> | Hne]; simpl.
    + rewrite IH. destruct (String.eqb key k); reflexivity.
    + rewrite IH. destruct (String.eqb_spec k' k) as [-> | Hne'];
        [| reflexivity].
      apply String.eqb_neq in Hne. rewrite String.eqb_sym in Hne.
      now rewrite Hne.
Qed.

Lemma map_get_in (k : string) (m : jsMap A) :
  map_get A k m = None <-> ~ In k (map fst m).
Proof.
  induction m as [|[k' w] m IH]; simpl; [tauto |].
  destruct (String.eqb_spec k' k) as [-> | Hne].
  - split; [discriminate | intros H; exfalso; apply H; now left].
  - rewrite IH. tauto.
Qed.

Lemma delete_keys (key : string) (m : jsMap A) (k : string) :
  In k (map fst (map_delete A key m)) <-> In k (map fst m) /\ k <> key.
Proof.
  induction m as [|[k' w] m IH]; simpl; [tauto |].
  destruct (String.eqb_spec k' key) as [-> | Hne]; simpl; rewrite IH.
  - split; [tauto |]. intros [[<- | H] Hk]; [contradiction | tauto].
  - split; [| tauto]. intros [<- | H]; tauto.
Qed.

Lemma delete_nodup (key : string) (m : jsMap A) :
  NoDup (map fst m) -> NoDup (map fst (map_delete A key m)).
Proof.
  induction m as [|[k' w] m IH]; simpl; [auto |].
  intros H. apply NoDup_cons in H as [Hk Hm].
  rewrite list_elem_of_In in Hk.
  destruct (String.eqb_spec k' key); simpl; [auto |].
  apply NoDup_cons_2; [| auto].
  rewrite list_elem_of_In, delete_keys. tauto.
Qed.

Lemma set_keys (key : string) (v : entry A) (m : jsMap A) (k : string) :
  In k (map fst (map_set A key v m)) <-> In k (map fst m) \/ k = key.
Proof.
  induction m as [|[k' w] m IH]; simpl.
  - split; [intros [<- | []]; auto | intros [[] | ->]; auto].
  - destruct (String.eqb_spec k' key) as [-> | Hne]; simpl.
    + split; [tauto |]. intros [H | ->]; auto.
    + rewrite IH. tauto.
Qed.

Lemma set_nodup (key : string) (v : entry A) (m : jsMap A) :
  NoDup (map fst m) -> NoDup (map fst (map_set A key v m)).
Proof.
  induction m as [|[k' w] m IH]; simpl.
  - intros _. apply NoDup_singleton.
  - intros H. apply NoDup_cons in H as [Hk Hm].
    destruct (String.eqb_spec k' key) as [-> | Hne]; simpl.
    + apply NoDup_cons_2; auto.
    + apply NoDup_cons_2; [| auto].
      rewrite list_elem_of_In in *. rewrite set_keys.
      intros [H | H]; [auto | congruence].
Qed.

Lemma set_length (key : string) (v : entry A) (m : jsMap A) :
  length (map_set A key v m)
  = match map_get A key m with
    | Some _ => length m
    | None => S (length m)
    end.
Proof.
  induction m as [|[k' w] m IH]; simpl; [reflexivity |].
  destruct (String.eqb k' key); simpl; [reflexivity |].
  rewrite IH. destruct (map_get A key m); reflexivity.
Qed.

Lemma delete_length (key : string) (m : jsMap A) :
  (length (map_delete A key m) <= length m)%nat.
Proof.
  induction m as [|[k' w] m IH]; simpl; [lia |].
  destruct (String.eqb k' key); simpl; lia.
Qed.

Lemma delete_absent (key : string) (m : jsMap A) :
  ~ In key (map fst m) -> map_delete A key m = m.
Proof.
  induction m as [|[k' w] m IH]; simpl; [reflexivity |].
  intros H. destruct (String.eqb_spec k' key) as [-> | Hne]; [tauto |].
  rewrite IH; tauto.
Qed.

(** Deleting the first key of a well-formed map removes its first
    entry. *)
Lemma delete_first (k : string) (v : entry A) (m : jsMap A) :
  NoDup (map fst ((k, v) :: m)) -> map_delete A k ((k, v) :: m) = m.
Proof.
  simpl. intros H. apply NoDup_cons in H as [Hk _].
  rewrite list_elem_of_In in Hk.
  rewrite String.eqb_refl. now apply delete_absent.
Qed.

(** X27. The popup's cache never grows beyond its bound of 100 entries
    and keeps its keys distinct, under [set] and under [get]; a [set] on
    a full cache drops the entry that was inserted first, and it does so
    even when the key being set is already in the cache. *)
Theorem cache_stays_bounded
        (now : Z) (url : string) (data : A) (cache : jsMap A) :
  bounded A cache ->
  bounded A (set A url_hostname now url data cache)
  /\ bounded A (snd (get A url_hostname now url cache))
  /\ (forall oldest e rest,
        cache = (oldest, e) :: rest ->
        Js.len cache = maxCacheSize ->
        getCacheKey url_hostname url <> oldest ->
        map_get A oldest (set A url_hostname now url data cache) = None
        /\ forall k, k <> oldest -> k <> getCacheKey url_hostname url ->
             map_get A k (set A url_hostname now url data cache)
             = map_get A k cache).
Proof.
  intros [Hnd Hlen]. split; [| split].
  - unfold set, bounded.
    destruct (Z.geb_spec (Js.len cache) maxCacheSize) as [Hfull | Hroom].
    + destruct cache as [|[oldest e] rest].
      { unfold Js.len, maxCacheSize in Hfull. simpl in Hfull. lia. }
      rewrite (delete_first _ _ _ Hnd).
      simpl in Hnd. apply NoDup_cons in Hnd as [_ Hrest].
      split; [now apply set_nodup |].
      unfold Js.len in *. rewrite set_length. simpl length in Hlen.
      destruct (map_get A _ rest); lia.
    + split; [now apply set_nodup |].
      unfold Js.len in *. rewrite set_length.
      destruct (map_get A _ cache); lia.
  - unfold get, bounded.
    destruct (map_get A _ cache) as [cached|]; [| now split].
    destruct (_ >? _); [| now split].
    split; [now apply delete_nodup |].
    pose proof (delete_length (getCacheKey url_hostname url) cache).
    unfold Js.len in *. cbn [snd]. lia.
  - intros oldest e rest -> Hfull Hkey. unfold set.
    destruct (Z.geb_spec (Js.len ((oldest, e) :: rest)) maxCacheSize)
      as [_ | Hroom]; [| lia].
    rewrite (delete_first _ _ _ Hnd).
    simpl in Hnd. apply NoDup_cons in Hnd as [Hold _].
    rewrite list_elem_of_In in Hold.
    split.
    + rewrite map_get_set.
      apply String.eqb_neq in Hkey. rewrite Hkey.
      now apply map_get_in.
    + intros k Hk1 Hk2. rewrite map_get_set. simpl.
      apply not_eq_sym in Hk2. apply String.eqb_neq in Hk2. rewrite Hk2.
      apply not_eq_sym in Hk1. apply String.eqb_neq in Hk1. now rewrite Hk1.
Qed.

(** X28. What is stored is served to every URL of the same host, for 24
    hours inclusive: after [set(url, data)] at time [t], [get(url')] at
    time [t'] for a URL with the same cache key (the same host name)
    returns [data] as long as [t' - t] does not exceed 24 hours, and
    returns nothing and removes the entry once it does. *)
Theorem cache_serves_same_host
        (t t' : Z) (url url' : string) (data : A) (cache : jsMap A) :
  getCacheKey url_hostname url' = getCacheKey url_hostname url ->
  let stored := set A url_hostname t url data cache in
  (t' - t <= cacheExpiry ->
   get A url_hostname t' url' stored = (Some data, stored))
  /\
  (cacheExpiry < t' - t ->
   fst (get A url_hostname t' url' stored) = None
   /\ map_get A (getCacheKey url_hostname url)
              (snd (get A url_hostname t' url' stored)) = None).
Proof.
  intros Hkey stored.
  assert (Hget : map_get A (getCacheKey url_hostname url) stored
                 = Some {| c_data := data; c_timestamp := t |}).
  { subst stored. unfold set. rewrite map_get_set.
    now rewrite String.eqb_refl. }
  unfold get. rewrite Hkey, Hget. cbn [c_data c_timestamp].
  split; intros Hage.
  - destruct (Z.gtb_spec (t' - t) cacheExpiry); [lia | reflexivity].
  - destruct (Z.gtb_spec (t' - t) cacheExpiry); [| lia].
    cbn [fst snd]. split; [reflexivity |].
    rewrite map_get_delete. now rewrite String.eqb_refl.
Qed.

End CacheManagerFacts.

Lemma cache_stays_bounded_witness :
  CacheManager.bounded nat
    (CacheManager.set nat Inputs.example_hostname 200
                      "https://example.com" 100%nat CacheManager.full_cache)
  /\ CacheManager.map_get nat "host0.example"
       (CacheManager.set nat Inputs.example_hostname 200
                         "https://example.com" 100%nat
                         CacheManager.full_cache)
     = None
  /\ CacheManager.map_get nat "host99.example"
       (CacheManager.set nat Inputs.example_hostname 200
                         "https://example.com" 100%nat
                         CacheManager.full_cache)
     = CacheManager.map_get nat "host99.example" CacheManager.full_cache
  /\ CacheManager.map_get nat "host0.example"
       (CacheManager.set nat Inputs.example_hostname 200
                         "host5.example" 100%nat CacheManager.full_cache)
     = None.
Proof.
  assert (Hb : CacheManager.bounded nat CacheManager.full_cache).
  { split; [| vm_compute; discriminate].
    apply (bool_decide_unpack _). vm_compute. exact I. }
  assert (Hc : CacheManager.full_cache
               = ("host0.example",
                  {| CacheManager.c_data := 0%nat;
                     CacheManager.c_timestamp := 0 |})
                 :: List.tl CacheManager.full_cache)
    by (vm_compute; reflexivity).
  destruct (cache_stays_bounded nat Inputs.example_hostname 200
              "https://example.com" 100%nat CacheManager.full_cache Hb)
    as (Hset & _ & Hevict).
  destruct (Hevict _ _ _ Hc) as [Hold Hrest];
    [vm_compute; reflexivity | vm_compute; discriminate |].
  destruct (cache_stays_bounded nat Inputs.example_hostname 200
              "host5.example" 100%nat CacheManager.full_cache Hb)
    as (_ & _ & Hevict').
  destruct (Hevict' _ _ _ Hc) as [Hold' _];
    [vm_compute; reflexivity | vm_compute; discriminate |].
  split; [exact Hset |]. split; [exact Hold |].
  split; [apply Hrest; vm_compute; discriminate | exact Hold'].
Defined.

Lemma cache_serves_same_host_witness :
  CacheManager.get string Inputs.example_hostname CacheManager.cacheExpiry
                   "https://example.com"
                   (CacheManager.set string Inputs.example_hostname 0
                                     "https://example.com" "report" [])
  = (Some "report",
     CacheManager.set string Inputs.example_hostname 0
                      "https://example.com" "report" []).
Proof.
  apply (proj1 (cache_serves_same_host
                  string Inputs.example_hostname 0 CacheManager.cacheExpiry
                  "https://example.com" "https://example.com" "report" []
                  eq_refl)).
  vm_compute. discriminate.
Defined.
